(** * Pakyas Terraform provider: client, accessors and reconcilers

    A shallow embedding of the Go sources of the provider
      - package [client]: the transport layer ([doRequest]), the error
        taxonomy, and the project and check accessors;
      - packages [project] and [check]: the two resources with their
        Create, Read, Update and Delete;
    together with the properties of the written specification that are
    checked against them.

    Calls into the network, the clock, the random source and the JSON
    decoder are not interpreted: a [World] answers the first three, a
    [Library] the last, and every operation is a function from the trace
    of what happened so far to a result and the extended trace. *)

From Stdlib Require Import ZArith String Ascii List Lia Bool.
From stdpp Require Import base tactics option list sorting gmap strings pretty.

Local Open Scope string_scope.
Local Open Scope Z_scope.

(** ** Go strings and their order

    A Go [string] is a sequence of bytes; [sort.Strings] and [<] compare
    two strings byte by byte.  [String.compare] is that comparison. *)

Definition string_le (a b : string) : Prop := String.leb a b = true.

#[global] Instance string_le_dec a b : Decision (string_le a b).
Proof. unfold string_le. apply _. Defined.

(** ** Slices

    A Go slice value is either [nil] or a (possibly empty) sequence; the
    two are different values ([tags == nil]) with the same length. *)

Definition slice (A : Type) : Type := option (list A).

(** [sort.Strings]: the sorted rearrangement of the elements. *)
Definition sortStrings (l : list string) : list string :=
  merge_sort string_le l.

(** ** internal/client/projects.go, checks.go: normalisation *)

(** [normalizeDescription]: a pointer to the empty string becomes [nil]. *)
Definition normalizeDescription (desc : option string) : option string :=
  match desc with
  | Some d => if String.eqb d "" then None else desc
  | None => desc
  end.

(** [normalizeTags]: [nil] becomes the empty slice, anything else is
    copied and the copy sorted. *)
Definition normalizeTags (tags : slice string) : slice string :=
  match tags with
  | None => Some []
  | Some l => Some (sortStrings l)
  end.

(** ** Slices in memory

    [normalizeTags] once more, this time over a store of backing arrays,
    statement by statement: [make], [copy] and the in-place
    [sort.Strings].  A slice header is [nil] or a window
    [off, off + len) of the array at [ptr]. *)

Module Mem.

Definition loc := positive.

Record header := Header { ptr : loc; off : nat; hlen : nat }.

Definition sliceval := option header.

Abbreviation heap := (gmap loc (list string)).

(** The elements a slice shows in store [h]. *)
Definition elems (h : heap) (s : sliceval) : list string :=
  match s with
  | None => []
  | Some hd =>
      match h !! ptr hd with
      | Some arr => take (hlen hd) (drop (off hd) arr)
      | None => []
      end
  end.

Definition length (s : sliceval) : nat :=
  match s with
  | None => 0%nat
  | Some hd => hlen hd
  end.

(** The pure view of a slice value. *)
Definition view (h : heap) (s : sliceval) : slice string :=
  match s with
  | None => None
  | Some _ => Some (elems h s)
  end.

(** [make([]string, n)]: a new array of [n] empty strings. *)
Definition make (h : heap) (n : nat) : heap * sliceval :=
  let p := fresh (dom h) in
  (<[p := replicate n ""]> h, Some (Header p 0 n)).

(** Overwrite the window [off, off + length new) of an array. *)
Definition splice (arr : list string) (o : nat) (new : list string)
  : list string :=
  take o arr ++ new ++ drop (o + List.length new) arr.

(** [copy(dst, src)]: the first [min(len(dst), len(src))] elements. *)
Definition copy (h : heap) (dst src : sliceval) : heap :=
  match dst with
  | None => h
  | Some d =>
      match h !! ptr d with
      | None => h
      | Some arr =>
          let n := Nat.min (hlen d) (length src) in
          <[ptr d := splice arr (off d) (take n (elems h src))]> h
      end
  end.

(** [sort.Strings(s)]: sorts the window of [s] in place. *)
Definition sortStrings (h : heap) (s : sliceval) : heap :=
  match s with
  | None => h
  | Some d =>
      match h !! ptr d with
      | None => h
      | Some arr =>
          <[ptr d := splice arr (off d) (sortStrings (elems h s))]> h
      end
  end.

Definition normalizeTags (h : heap) (tags : sliceval) : heap * sliceval :=
  match tags with
  | None => make h 0
  | Some _ =>
      let '(h1, sorted) := make h (length tags) in
      let h2 := copy h1 sorted tags in
      let h3 := sortStrings h2 sorted in
      (h3, sorted)
  end.

(** A slice header is well formed when its window lies in its array. *)
Definition wf (h : heap) (s : sliceval) : Prop :=
  match s with
  | None => True
  | Some hd =>
      exists arr, h !! ptr hd = Some arr /\
                  (off hd + hlen hd <= List.length arr)%nat
  end.

End Mem.

(** ** internal/client/errors.go *)

(** Go [error] values as the client builds them: an [*APIError], an
    opaque error of a library (network, read, context), or the result of
    [fmt.Errorf], whose message ends in the wrapped cause when the format
    ends in [%w]. *)
#[local] Set Warnings "-register-all".

Inductive error : Type :=
| APIError (StatusCode : Z) (Message Body : string)
| LibError (msg : string)
| Errorf (msg : string) (wrapped : option error).

(** [errors.As(err, &apiErr)]: the first [*APIError] of the unwrap chain. *)
Fixpoint asAPIError (err : error) : option (Z * string * string) :=
  match err with
  | APIError c m b => Some (c, m, b)
  | LibError _ => None
  | Errorf _ w =>
      match w with
      | Some e => asAPIError e
      | None => None
      end
  end.

Definition statusIs (P : Z -> bool) (err : error) : bool :=
  match asAPIError err with
  | Some (c, _, _) => P c
  | None => false
  end.

Definition StatusNotFound : Z := 404.
Definition StatusConflict : Z := 409.
Definition StatusUnauthorized : Z := 401.
Definition StatusForbidden : Z := 403.
Definition StatusTooManyRequests : Z := 429.

Definition IsNotFound : error -> bool := statusIs (Z.eqb StatusNotFound).
Definition IsConflict : error -> bool := statusIs (Z.eqb StatusConflict).
Definition IsUnauthorized : error -> bool :=
  statusIs (Z.eqb StatusUnauthorized).
Definition IsForbidden : error -> bool := statusIs (Z.eqb StatusForbidden).
Definition IsRetryable : error -> bool :=
  statusIs (fun c => (c =? StatusTooManyRequests) || (500 <=? c)).

(** [err.Error()]. *)
Fixpoint Error (err : error) : string :=
  match err with
  | APIError c m b =>
      if String.eqb m "" then
        "pakyas API error (status " ++ pretty c ++ "): " ++ b
      else
        "pakyas API error (status " ++ pretty c ++ "): " ++ m
  | LibError msg => msg
  | Errorf msg w =>
      match w with
      | Some e => msg ++ Error e
      | None => msg
      end
  end.

Definition ConflictError (resourceType : string) : error :=
  Errorf (resourceType ++
          " already exists, use `terraform import` to manage it") None.

(** ** Wire representation

    What [json.Marshal] writes for the request structs: an object is the
    sequence of its fields, and a field tagged [omitempty] is left out
    when it holds [false], [0], a nil pointer, or a slice of length 0. *)

Inductive jvalue : Type :=
| JString (s : string)
| JInt (n : Z)
| JBool (b : bool)
| JStrings (l : list string).

Definition jobject : Type := list (string * jvalue).

(** The value of field [k], if the object has it. *)
Fixpoint field (k : string) (o : jobject) : option jvalue :=
  match o with
  | [] => None
  | (k', v) :: o' => if String.eqb k k' then Some v else field k o'
  end.

Definition omitNil {A} (k : string) (f : A -> jvalue) (p : option A)
  : jobject :=
  match p with
  | Some v => [(k, f v)]
  | None => []
  end.

Definition omitEmptySlice (k : string) (s : slice string) : jobject :=
  match s with
  | Some (x :: l) => [(k, JStrings (x :: l))]
  | _ => []
  end.

Definition omitZero (k : string) (n : Z) : jobject :=
  if n =? 0 then [] else [(k, JInt n)].

Definition omitFalse (k : string) (b : bool) : jobject :=
  if b then [(k, JBool true)] else [].

(** ** internal/client/projects.go, checks.go: data *)

Record Time := { unixNano : Z; zoneOffset : Z }.

Definition zeroTime : Time := {| unixNano := 0; zoneOffset := 0 |}.

Module Project.
Record t := {
  ID : string;
  OrgID : string;
  Name : string;
  Description : option string;
  CreatedAt : Time;
  UpdatedAt : Time;
  ArchivedAt : option Time
}.

Definition zero : t :=
  {| ID := ""; OrgID := ""; Name := ""; Description := None;
     CreatedAt := zeroTime; UpdatedAt := zeroTime; ArchivedAt := None |}.
End Project.

Module CreateProjectRequest.
Record t := {
  OrgID : string;
  Name : string;
  Description : option string
}.

Definition marshal (r : t) : jobject :=
  ([("org_id", JString (OrgID r)); ("name", JString (Name r))]
  ++ omitNil "description" JString (Description r))%list.
End CreateProjectRequest.

Module UpdateProjectRequest.
Record t := {
  Name : option string;
  Description : option string
}.

Definition marshal (r : t) : jobject :=
  (omitNil "name" JString (Name r)
  ++ omitNil "description" JString (Description r))%list.
End UpdateProjectRequest.

Module Check.
Record t := {
  ID : string;
  ProjectID : string;
  Name : string;
  Slug : string;
  PeriodSeconds : Z;
  GraceSeconds : Z;
  Description : option string;
  Tags : slice string;
  Paused : bool;
  PublicID : string;
  Status : string;
  CreatedAt : Time;
  DeletedAt : option Time
}.

Definition zero : t :=
  {| ID := ""; ProjectID := ""; Name := ""; Slug := "";
     PeriodSeconds := 0; GraceSeconds := 0; Description := None;
     Tags := None; Paused := false; PublicID := ""; Status := "";
     CreatedAt := zeroTime; DeletedAt := None |}.

Definition withTags (c : t) (tags : slice string) : t :=
  {| ID := ID c; ProjectID := ProjectID c; Name := Name c; Slug := Slug c;
     PeriodSeconds := PeriodSeconds c; GraceSeconds := GraceSeconds c;
     Description := Description c; Tags := tags; Paused := Paused c;
     PublicID := PublicID c; Status := Status c;
     CreatedAt := CreatedAt c; DeletedAt := DeletedAt c |}.
End Check.

Module CreateCheckRequest.
Record t := {
  ProjectID : string;
  Name : string;
  Slug : string;
  PeriodSeconds : Z;
  GraceSeconds : Z;
  Description : option string;
  Tags : slice string;
  Paused : bool
}.

Definition marshal (r : t) : jobject :=
  ([("project_id", JString (ProjectID r)); ("name", JString (Name r));
   ("slug", JString (Slug r)); ("period_seconds", JInt (PeriodSeconds r))]
  ++ omitZero "grace_seconds" (GraceSeconds r)
  ++ omitNil "description" JString (Description r)
  ++ omitEmptySlice "tags" (Tags r)
  ++ omitFalse "paused" (Paused r))%list.
End CreateCheckRequest.

Module UpdateCheckRequest.
Record t := {
  Name : option string;
  PeriodSeconds : option Z;
  GraceSeconds : option Z;
  Description : option string;
  Tags : slice string;
  Paused : option bool
}.

Definition zero : t :=
  {| Name := None; PeriodSeconds := None; GraceSeconds := None;
     Description := None; Tags := None; Paused := None |}.

Definition marshal (r : t) : jobject :=
  (omitNil "name" JString (Name r)
  ++ omitNil "period_seconds" JInt (PeriodSeconds r)
  ++ omitNil "grace_seconds" JInt (GraceSeconds r)
  ++ omitNil "description" JString (Description r)
  ++ omitEmptySlice "tags" (Tags r)
  ++ omitNil "paused" JBool (Paused r))%list.
End UpdateCheckRequest.

(** ** internal/client/client.go: the transport layer *)

Definition MaxRetries : nat := 5.

(** [time.Duration] counts nanoseconds in an [int64]. *)
Definition Second : Z := 1000000000.
Definition BaseRetryDelay : Z := 1 * Second.

Definition wrap64 (x : Z) : Z := (x + 2 ^ 63) mod 2 ^ 64 - 2 ^ 63.

Record Client := {
  baseURL : string;
  apiKey : string;
  userAgent : string;
  orgID : string;
  pingURLBase : string
}.

Record Request := {
  method : string;
  url : string;
  header : list (string * string);
  reqBody : option jobject
}.

(** What one [httpClient.Do] followed by [io.ReadAll] can produce: an
    error of [Do], an error of [ReadAll], or a status and a body.  The
    errors of the libraries are opaque: none of them is an [*APIError]. *)
Inductive Outcome : Type :=
| DoError (msg : string)
| ReadError (msg : string)
| Response (StatusCode : Z) (respBody : string).

(** A diagnostic of the plugin framework; all of them here are errors. *)
Record Diagnostic := { Summary : string; Detail : string }.

(** The functions of the Go libraries that the provider calls and that
    are not interpreted here. *)
Class Library := {
  (** [json.Unmarshal] into the anonymous [{error, message}] struct *)
  UnmarshalErrResp : string -> option (string * string);
  (** [json.Unmarshal] into a [*Project] (resp. [*Check]) holding a value *)
  UnmarshalProject : string -> Project.t -> option Project.t;
  UnmarshalCheck : string -> Check.t -> option Check.t;
  (** the error of a failed [json.Unmarshal] *)
  UnmarshalError : string -> string;
  (** [time.Time.Format] *)
  Format : Time -> string -> string;
  (** the diagnostic of a set that [ElementsAs] cannot turn into strings *)
  ConversionError : Diagnostic;
  (** the diagnostic of a set that holds the given element twice *)
  DuplicateSetElement : string -> Diagnostic
}.

(** Everything outside the process during one run: the result of the
    [k]-th round trip, whether the context is done before the [k]-th
    back-off timer fires (and with which [ctx.Err()]), the number
    [rand.Int63n] reduces on its [k]-th call, and the requests
    [http.NewRequestWithContext] refuses. *)
Record World := {
  roundTrip : nat -> Request -> Outcome;
  ctxDone : nat -> option string;
  Int63 : nat -> Z;
  NewRequestErr : string -> string -> option string
}.

(** What a run does that can be seen from outside, oldest first. *)
Inductive Event : Type :=
| EvBackoff (attempt : nat) (delay : Z)
| EvCancelled (attempt : nat) (delay : Z)
| EvRoundTrip (req : Request).

Definition Trace : Type := list Event.

Definition isRoundTrip (e : Event) : bool :=
  match e with
  | EvRoundTrip _ => true
  | _ => false
  end.

Definition roundTrips (tr : Trace) : list Event := List.filter isRoundTrip tr.

Definition timers (tr : Trace) : list Event :=
  List.filter (fun e => negb (isRoundTrip e)) tr.

(** A call returns a value or an error, and extends the trace. *)
Inductive Res (A : Type) : Type :=
| Ok (a : A)
| Err (e : error).
Arguments Ok {A} a.
Arguments Err {A} e.

Definition M (A : Type) : Type := Trace -> Res A * Trace.

Definition ret {A} (a : A) : M A := fun tr => (Ok a, tr).

Definition fail {A} (e : error) : M A := fun tr => (Err e, tr).

Definition bind {A B} (m : M A) (k : A -> M B) : M B :=
  fun tr =>
    match m tr with
    | (Ok a, tr') => k a tr'
    | (Err e, tr') => (Err e, tr')
    end.

(** [rand.Int63n(n)] for [n > 0]: a 63-bit draw reduced modulo [n]. *)
Definition Int63n (draw n : Z) : Z := draw mod n.

(** The back-off of one retry.  [math.Pow(2, float64(attempt-1))] is an
    exact power of two for the attempts of the loop. *)
Definition backoff (attempt : nat) : Z :=
  wrap64 (2 ^ Z.of_nat (attempt - 1) * BaseRetryDelay).

Definition retryDelay (draw : Z) (attempt : nat) : Z :=
  let delay := backoff attempt in
  let jitter := Int63n draw (Z.quot delay 2) in
  wrap64 (delay + jitter).

Definition newRequest (c : Client) (method path : string)
    (body : option jobject) : Request :=
  {| method := method;
     url := baseURL c ++ path;
     header := [("Authorization", "Bearer " ++ apiKey c);
                ("Content-Type", "application/json");
                ("Accept", "application/json");
                ("User-Agent", userAgent c)];
     reqBody := body |}.

(** The [*APIError] built from a response with status [>= 400]. *)
Definition apiError `{Library} (code : Z) (respBody : string) : error :=
  let message :=
    match UnmarshalErrResp respBody with
    | Some (e, m) =>
        if negb (String.eqb e "") then e
        else if negb (String.eqb m "") then m
        else ""
    | None => ""
    end in
  APIError code message respBody.

(** The body of the retry loop, entered with [n] iterations left:
    [attempt + n = MaxRetries + 1]. *)
Fixpoint attempts `{Library} {A} (w : World) (c : Client)
    (method path : string) (body : option jobject)
    (result : option A) (unmarshal : string -> A -> option A)
    (n : nat) (attempt : nat) (lastErr : option error)
    : M (option A) :=
  fun tr =>
  match n with
  | O => (Err (Errorf "max retries exceeded: " lastErr), tr)
  | S n' =>
      let next := attempts w c method path body result unmarshal
                    n' (S attempt) in
      let k := List.length (timers tr) in
      let delay := retryDelay (Int63 w k) attempt in
      let waited :=
        if (0 <? attempt)%nat then
          match ctxDone w k with
          | Some msg =>
              inr (LibError msg, (tr ++ [EvCancelled attempt delay])%list)
          | None => inl (tr ++ [EvBackoff attempt delay])%list
          end
        else inl tr in
      match waited with
      | inr (err, tr1) => (Err err, tr1)
      | inl tr1 =>
          let req := newRequest c method path body in
          match NewRequestErr w method (url req) with
          | Some msg =>
              (Err (Errorf "failed to create request: "
                      (Some (LibError msg))), tr1)
          | None =>
              let tr2 := (tr1 ++ [EvRoundTrip req])%list in
              match roundTrip w (List.length (roundTrips tr1)) req with
              | DoError msg => next (Some (LibError msg)) tr2
              | ReadError msg =>
                  next (Some (Errorf "failed to read response body: "
                                (Some (LibError msg)))) tr2
              | Response code respBody =>
                  if 400 <=? code then
                    let apiErr := apiError code respBody in
                    if IsRetryable apiErr && (attempt <? MaxRetries)%nat
                    then next (Some apiErr) tr2
                    else (Err apiErr, tr2)
                  else
                    match result with
                    | Some r =>
                        if (0 <? String.length respBody)%nat then
                          match unmarshal respBody r with
                          | Some r' => (Ok (Some r'), tr2)
                          | None =>
                              (Err (Errorf "failed to parse response: "
                                      (Some (LibError
                                               (UnmarshalError respBody)))),
                               tr2)
                          end
                        else (Ok (Some r), tr2)
                    | None => (Ok None, tr2)
                    end
              end
          end
      end
  end.

(** [doRequest]: one logical request, with its retries. *)
Definition doRequest `{Library} {A} (w : World) (c : Client)
    (method path : string) (body : option jobject)
    (result : option A) (unmarshal : string -> A -> option A)
    : M (option A) :=
  attempts w c method path body result unmarshal (S MaxRetries) 0 None.

Definition MethodGet : string := "GET".
Definition MethodPost : string := "POST".
Definition MethodPut : string := "PUT".
Definition MethodDelete : string := "DELETE".

(** The value a result pointer holds after [doRequest] returned [nil]. *)
Definition deref {A} (zero : A) (r : option A) : A :=
  match r with
  | Some a => a
  | None => zero
  end.

Definition noResult : option unit := None.
Definition noUnmarshal : string -> unit -> option unit := fun _ _ => None.

(** ** internal/client/projects.go: the project accessors *)

Definition GetProject `{Library} (w : World) (c : Client) (id : string)
    : M Project.t :=
  bind (doRequest w c MethodGet ("/api/v1/projects/" ++ id) None
          (Some Project.zero) UnmarshalProject)
       (fun project => ret (deref Project.zero project)).

Definition CreateProject `{Library} (w : World) (c : Client)
    (name : string) (description : option string) : M Project.t :=
  let req := {| CreateProjectRequest.OrgID := orgID c;
                CreateProjectRequest.Name := name;
                CreateProjectRequest.Description :=
                  normalizeDescription description |} in
  fun tr =>
    match doRequest w c MethodPost "/api/v1/projects"
            (Some (CreateProjectRequest.marshal req))
            (Some Project.zero) UnmarshalProject tr with
    | (Err err, tr') =>
        if IsConflict err then (Err (ConflictError "project"), tr')
        else (Err err, tr')
    | (Ok project, tr') =>
        GetProject w c (Project.ID (deref Project.zero project)) tr'
    end.

Definition UpdateProject `{Library} (w : World) (c : Client) (id : string)
    (name : option string) (description : option string) : M Project.t :=
  let req := {| UpdateProjectRequest.Name := name;
                UpdateProjectRequest.Description :=
                  normalizeDescription description |} in
  bind (doRequest w c MethodPut ("/api/v1/projects/" ++ id)
          (Some (UpdateProjectRequest.marshal req)) noResult noUnmarshal)
       (fun _ => GetProject w c id).

Definition DeleteProject `{Library} (w : World) (c : Client) (id : string)
    : M unit :=
  bind (doRequest w c MethodDelete ("/api/v1/projects/" ++ id) None
          noResult noUnmarshal)
       (fun _ => ret tt).

(** ** internal/client/checks.go: the check accessors *)

Definition GetCheck `{Library} (w : World) (c : Client) (id : string)
    : M Check.t :=
  bind (doRequest w c MethodGet ("/api/v1/checks/" ++ id) None
          (Some Check.zero) UnmarshalCheck)
       (fun r =>
          let check := deref Check.zero r in
          ret (Check.withTags check (normalizeTags (Check.Tags check)))).

(** The request as [CreateCheck] rewrites it before sending. *)
Definition normalizeCreate (req : CreateCheckRequest.t)
    : CreateCheckRequest.t :=
  {| CreateCheckRequest.ProjectID := CreateCheckRequest.ProjectID req;
     CreateCheckRequest.Name := CreateCheckRequest.Name req;
     CreateCheckRequest.Slug := CreateCheckRequest.Slug req;
     CreateCheckRequest.PeriodSeconds := CreateCheckRequest.PeriodSeconds req;
     CreateCheckRequest.GraceSeconds := CreateCheckRequest.GraceSeconds req;
     CreateCheckRequest.Description :=
       normalizeDescription (CreateCheckRequest.Description req);
     CreateCheckRequest.Tags := normalizeTags (CreateCheckRequest.Tags req);
     CreateCheckRequest.Paused := CreateCheckRequest.Paused req |}.

Definition CreateCheck `{Library} (w : World) (c : Client)
    (req : CreateCheckRequest.t) : M Check.t :=
  let req := normalizeCreate req in
  fun tr =>
    match doRequest w c MethodPost "/api/v1/checks"
            (Some (CreateCheckRequest.marshal req))
            (Some Check.zero) UnmarshalCheck tr with
    | (Err err, tr') =>
        if IsConflict err then (Err (ConflictError "check"), tr')
        else (Err err, tr')
    | (Ok check, tr') =>
        GetCheck w c (Check.ID (deref Check.zero check)) tr'
    end.

(** The request as [UpdateCheck] rewrites it before sending. *)
Definition normalizeUpdate (req : UpdateCheckRequest.t)
    : UpdateCheckRequest.t :=
  {| UpdateCheckRequest.Name := UpdateCheckRequest.Name req;
     UpdateCheckRequest.PeriodSeconds := UpdateCheckRequest.PeriodSeconds req;
     UpdateCheckRequest.GraceSeconds := UpdateCheckRequest.GraceSeconds req;
     UpdateCheckRequest.Description :=
       normalizeDescription (UpdateCheckRequest.Description req);
     UpdateCheckRequest.Tags := normalizeTags (UpdateCheckRequest.Tags req);
     UpdateCheckRequest.Paused := UpdateCheckRequest.Paused req |}.

Definition UpdateCheck `{Library} (w : World) (c : Client) (id : string)
    (req : UpdateCheckRequest.t) : M Check.t :=
  let req := normalizeUpdate req in
  bind (doRequest w c MethodPut ("/api/v1/checks/" ++ id)
          (Some (UpdateCheckRequest.marshal req)) noResult noUnmarshal)
       (fun _ => GetCheck w c id).

Definition DeleteCheck `{Library} (w : World) (c : Client) (id : string)
    : M unit :=
  bind (doRequest w c MethodDelete ("/api/v1/checks/" ++ id) None
          noResult noUnmarshal)
       (fun _ => ret tt).

(** ** Values of the plugin framework

    A [types.String], [types.Int64], [types.Bool] or [types.Set] is null,
    unknown, or known with a value. *)

Inductive attr (A : Type) : Type :=
| Null
| Unknown
| Known (a : A).
Arguments Null {A}.
Arguments Unknown {A}.
Arguments Known {A} a.

Definition IsNull {A} (v : attr A) : bool :=
  match v with
  | Null => true
  | _ => false
  end.

Definition IsUnknown {A} (v : attr A) : bool :=
  match v with
  | Unknown => true
  | _ => false
  end.

(** [ValueString], [ValueInt64], [ValueBool]: the zero value unless known. *)
Definition Value {A} (zero : A) (v : attr A) : A :=
  match v with
  | Known a => a
  | _ => zero
  end.

Definition ValueString : attr string -> string := Value "".
Definition ValueInt64 : attr Z -> Z := Value 0.
Definition ValueBool : attr bool -> bool := Value false.

(** [Equal] of the primitive values: same state, and same value if known. *)
Definition Equal {A} (eqb : A -> A -> bool) (v o : attr A) : bool :=
  match v, o with
  | Null, Null => true
  | Unknown, Unknown => true
  | Known a, Known b => eqb a b
  | _, _ => false
  end.

Definition StringEqual : attr string -> attr string -> bool :=
  Equal String.eqb.
Definition Int64Equal : attr Z -> attr Z -> bool := Equal Z.eqb.
Definition BoolEqual : attr bool -> attr bool -> bool := Equal Bool.eqb.

(** A set of strings holds its elements in the order they were given. *)
Definition SetValue : Type := attr (list (attr string)).

Definition contains (s : list (attr string)) (v : attr string) : bool :=
  existsb (fun elem => StringEqual elem v) s.

(** [SetValue.Equal]: same state and, if known, the same number of
    elements, each element of the receiver being in the other set. *)
Definition SetEqual (s o : SetValue) : bool :=
  match s, o with
  | Null, Null => true
  | Unknown, Unknown => true
  | Known es, Known eo =>
      (List.length es =? List.length eo)%nat
      && forallb (fun elem => contains eo elem) es
  | _, _ => false
  end.

Fixpoint knownStrings (es : list (attr string)) : option (list string) :=
  match es with
  | [] => Some []
  | Known s :: es' =>
      match knownStrings es' with
      | Some l => Some (s :: l)
      | None => None
      end
  | _ :: _ => None
  end.

(** [ElementsAs(ctx, &tags, false)] into a [[]string]. *)
Definition ElementsAs `{Library} (s : SetValue)
    : list Diagnostic + slice string :=
  match s with
  | Null => inr None
  | Unknown => inl [ConversionError]
  | Known es =>
      match knownStrings es with
      | Some l => inr (Some l)
      | None => inl [ConversionError]
      end
  end.

(** What an operation leaves in [resp.State]. *)
Inductive StateAction (Model : Type) : Type :=
| Untouched
| Set_ (data : Model)
| RemoveResource.
Arguments Untouched {Model}.
Arguments Set_ {Model} data.
Arguments RemoveResource {Model}.

Record Resp (Model : Type) := {
  Diagnostics : list Diagnostic;
  State : StateAction Model
}.
Arguments Diagnostics {Model} r.
Arguments State {Model} r.

Definition addError {Model} (summary detail : string) : Resp Model :=
  {| Diagnostics := [{| Summary := summary; Detail := detail |}];
     State := Untouched |}.

Definition RFC3339 : string := "2006-01-02T15:04:05Z07:00".

(** The string a pointer holds as a [types.String]; null for [nil]. *)
Definition stringOrNull (p : option string) : attr string :=
  match p with
  | Some s => Known s
  | None => Null
  end.

(** ** internal/resources/project: the project reconciler *)

Module ProjectResource.

Record Model := {
  ID : attr string;
  Name : attr string;
  Description : attr string;
  OrgID : attr string;
  CreatedAt : attr string;
  UpdatedAt : attr string
}.

(** "Map response to model", the same lines in Create, Read and Update. *)
Definition mapProjectToModel `{Library} (project : Project.t) : Model :=
  {| ID := Known (Project.ID project);
     OrgID := Known (Project.OrgID project);
     Name := Known (Project.Name project);
     Description := stringOrNull (Project.Description project);
     CreatedAt := Known (Format (Project.CreatedAt project) RFC3339);
     UpdatedAt := Known (Format (Project.UpdatedAt project) RFC3339) |}.

Definition Create `{Library} (w : World) (c : Client) (data : Model)
    : Trace -> Resp Model * Trace :=
  fun tr =>
    let description :=
      if negb (IsNull (Description data))
         && negb (IsUnknown (Description data))
      then Some (ValueString (Description data))
      else None in
    match CreateProject w c (ValueString (Name data)) description tr with
    | (Err err, tr') =>
        (addError "Error Creating Project"
           ("Could not create project, unexpected error: " ++ Error err),
         tr')
    | (Ok project, tr') =>
        ({| Diagnostics := []; State := Set_ (mapProjectToModel project) |},
         tr')
    end.

Definition Read `{Library} (w : World) (c : Client) (data : Model)
    : Trace -> Resp Model * Trace :=
  fun tr =>
    match GetProject w c (ValueString (ID data)) tr with
    | (Err err, tr') =>
        if IsNotFound err then
          ({| Diagnostics := []; State := RemoveResource |}, tr')
        else
          (addError "Error Reading Project"
             ("Could not read project ID " ++ ValueString (ID data)
              ++ ": " ++ Error err),
           tr')
    | (Ok project, tr') =>
        ({| Diagnostics := []; State := Set_ (mapProjectToModel project) |},
         tr')
    end.

(** The arguments [Update] passes to [UpdateProject]: only what changed. *)
Definition changes (data state : Model) : option string * option string :=
  let name :=
    if negb (StringEqual (Name data) (Name state))
    then Some (ValueString (Name data))
    else None in
  let description :=
    if negb (StringEqual (Description data) (Description state)) then
      if IsNull (Description data) then Some ""
      else Some (ValueString (Description data))
    else None in
  (name, description).

Definition Update `{Library} (w : World) (c : Client) (data state : Model)
    : Trace -> Resp Model * Trace :=
  fun tr =>
    let '(name, description) := changes data state in
    match UpdateProject w c (ValueString (ID state)) name description tr
    with
    | (Err err, tr') =>
        (addError "Error Updating Project"
           ("Could not update project, unexpected error: " ++ Error err),
         tr')
    | (Ok project, tr') =>
        ({| Diagnostics := []; State := Set_ (mapProjectToModel project) |},
         tr')
    end.

Definition Delete `{Library} (w : World) (c : Client) (data : Model)
    : Trace -> Resp Model * Trace :=
  fun tr =>
    match DeleteProject w c (ValueString (ID data)) tr with
    | (Err err, tr') =>
        if IsNotFound err then
          ({| Diagnostics := []; State := Untouched |}, tr')
        else
          (addError "Error Deleting Project"
             ("Could not delete project, unexpected error: " ++ Error err),
           tr')
    | (Ok _, tr') => ({| Diagnostics := []; State := Untouched |}, tr')
    end.

End ProjectResource.

(** ** internal/resources/check: the check reconciler *)

Module CheckResource.

Record Model := {
  ID : attr string;
  ProjectID : attr string;
  Name : attr string;
  Slug : attr string;
  PeriodSeconds : attr Z;
  GraceSeconds : attr Z;
  Description : attr string;
  Tags : SetValue;
  Paused : attr bool;
  PublicID : attr string;
  PingURL : attr string;
  Status : attr string;
  CreatedAt : attr string
}.

Definition mapCheckToModel `{Library} (c : Client) (check : Check.t)
    : Model :=
  {| ID := Known (Check.ID check);
     ProjectID := Known (Check.ProjectID check);
     Name := Known (Check.Name check);
     Slug := Known (Check.Slug check);
     PeriodSeconds := Known (Check.PeriodSeconds check);
     GraceSeconds := Known (Check.GraceSeconds check);
     Paused := Known (Check.Paused check);
     PublicID := Known (Check.PublicID check);
     Status := Known (Check.Status check);
     CreatedAt := Known (Format (Check.CreatedAt check) RFC3339);
     PingURL := Known (pingURLBase c ++ "/" ++ Check.PublicID check);
     Description := stringOrNull (Check.Description check);
     Tags :=
       match Check.Tags check with
       | Some (t :: ts) => Known (List.map Known (t :: ts))
       | _ => Null
       end |}.

(** The diagnostics of a set for [resp.State.Set]: one for every pair
    of known elements that are equal, in the order of the first of the
    two. *)
Fixpoint duplicateElements `{Library} (es : list (attr string))
    : list Diagnostic :=
  match es with
  | [] => []
  | e :: rest =>
      (match e with
       | Known s =>
           List.map (fun _ => DuplicateSetElement s)
             (List.filter (StringEqual e) rest)
       | _ => []
       end ++ duplicateElements rest)%list
  end.

(** [resp.State.Set(ctx, &data)]: the framework refuses a model whose
    set of tags holds an element twice, reports it, and leaves the state
    as it was; otherwise the model becomes the state. *)
Definition StateSet `{Library} (data : Model) : Resp Model :=
  match match Tags data with
        | Known es => duplicateElements es
        | _ => []
        end with
  | [] => {| Diagnostics := []; State := Set_ data |}
  | d :: ds => {| Diagnostics := d :: ds; State := Untouched |}
  end.

(** "Build create request". *)
Definition createRequest `{Library} (data : Model)
    : list Diagnostic + CreateCheckRequest.t :=
  let description :=
    if negb (IsNull (Description data))
       && negb (IsUnknown (Description data))
    then Some (ValueString (Description data))
    else None in
  let tags :=
    if negb (IsNull (Tags data)) && negb (IsUnknown (Tags data))
    then ElementsAs (Tags data)
    else inr None in
  match tags with
  | inl diags => inl diags
  | inr tags =>
      inr {| CreateCheckRequest.ProjectID := ValueString (ProjectID data);
             CreateCheckRequest.Name := ValueString (Name data);
             CreateCheckRequest.Slug := ValueString (Slug data);
             CreateCheckRequest.PeriodSeconds :=
               ValueInt64 (PeriodSeconds data);
             CreateCheckRequest.GraceSeconds :=
               ValueInt64 (GraceSeconds data);
             CreateCheckRequest.Description := description;
             CreateCheckRequest.Tags := tags;
             CreateCheckRequest.Paused := ValueBool (Paused data) |}
  end.

Definition Create `{Library} (w : World) (c : Client) (data : Model)
    : Trace -> Resp Model * Trace :=
  fun tr =>
    match createRequest data with
    | inl diags => ({| Diagnostics := diags; State := Untouched |}, tr)
    | inr createReq =>
        match CreateCheck w c createReq tr with
        | (Err err, tr') =>
            (addError "Error Creating Check"
               ("Could not create check, unexpected error: " ++ Error err),
             tr')
        | (Ok check, tr') =>
            (StateSet (mapCheckToModel c check), tr')
        end
    end.

Definition Read `{Library} (w : World) (c : Client) (data : Model)
    : Trace -> Resp Model * Trace :=
  fun tr =>
    match GetCheck w c (ValueString (ID data)) tr with
    | (Err err, tr') =>
        if IsNotFound err then
          ({| Diagnostics := []; State := RemoveResource |}, tr')
        else
          (addError "Error Reading Check"
             ("Could not read check ID " ++ ValueString (ID data)
              ++ ": " ++ Error err),
           tr')
    | (Ok check, tr') =>
        (StateSet (mapCheckToModel c check), tr')
    end.

(** "Build update request with only changed fields". *)
Definition updateRequest `{Library} (data state : Model)
    : list Diagnostic + UpdateCheckRequest.t :=
  let changed {A} (eq : attr A -> attr A -> bool) (value : attr A -> A)
              (d s : attr A) : option A :=
    if negb (eq d s) then Some (value d) else None in
  let description :=
    if negb (StringEqual (Description data) (Description state)) then
      if IsNull (Description data) then Some ""
      else Some (ValueString (Description data))
    else None in
  let tags :=
    if negb (SetEqual (Tags data) (Tags state)) then
      if negb (IsNull (Tags data)) then ElementsAs (Tags data)
      else inr None
    else inr None in
  match tags with
  | inl diags => inl diags
  | inr tags =>
      inr {| UpdateCheckRequest.Name :=
               changed StringEqual ValueString (Name data) (Name state);
             UpdateCheckRequest.PeriodSeconds :=
               changed Int64Equal ValueInt64
                 (PeriodSeconds data) (PeriodSeconds state);
             UpdateCheckRequest.GraceSeconds :=
               changed Int64Equal ValueInt64
                 (GraceSeconds data) (GraceSeconds state);
             UpdateCheckRequest.Description := description;
             UpdateCheckRequest.Tags := tags;
             UpdateCheckRequest.Paused :=
               changed BoolEqual ValueBool (Paused data) (Paused state) |}
  end.

Definition Update `{Library} (w : World) (c : Client) (data state : Model)
    : Trace -> Resp Model * Trace :=
  fun tr =>
    match updateRequest data state with
    | inl diags => ({| Diagnostics := diags; State := Untouched |}, tr)
    | inr updateReq =>
        match UpdateCheck w c (ValueString (ID state)) updateReq tr with
        | (Err err, tr') =>
            (addError "Error Updating Check"
               ("Could not update check, unexpected error: " ++ Error err),
             tr')
        | (Ok check, tr') =>
            (StateSet (mapCheckToModel c check), tr')
        end
    end.

Definition Delete `{Library} (w : World) (c : Client) (data : Model)
    : Trace -> Resp Model * Trace :=
  fun tr =>
    match DeleteCheck w c (ValueString (ID data)) tr with
    | (Err err, tr') =>
        if IsNotFound err then
          ({| Diagnostics := []; State := Untouched |}, tr')
        else
          (addError "Error Deleting Check"
             ("Could not delete check, unexpected error: " ++ Error err),
           tr')
    | (Ok _, tr') => ({| Diagnostics := []; State := Untouched |}, tr')
    end.

End CheckResource.

(** ** Reading a trace *)

(** Every round trip of [evs] carries the request [req]. *)
Definition onlyRequest (req : Request) (evs : Trace) : Prop :=
  Forall (fun e => match e with
                   | EvRoundTrip rq => rq = req
                   | _ => True
                   end) evs.

(** The trace [tr] ends with the round trip of [req], and the world
    answered it with status [code] and body [respBody]. *)
Definition answered (w : World) (tr : Trace) (req : Request)
    (code : Z) (respBody : string) : Prop :=
  exists evs,
    tr = (evs ++ [EvRoundTrip req])%list /\
    roundTrip w (List.length (roundTrips evs)) req = Response code respBody.

(** The requests that went out, in order: method, URL and payload. *)
Definition sent (tr : Trace) : list (string * string * option jobject) :=
  omap (fun e => match e with
                 | EvRoundTrip rq => Some (method rq, url rq, reqBody rq)
                 | _ => None
                 end) tr.

(** The window of the back-off before the request of retry [attempt]:
    at least [base * 2^(attempt-1)], below one and a half times that. *)
Definition inWindow (attempt : nat) (delay : Z) : Prop :=
  BaseRetryDelay * 2 ^ (Z.of_nat attempt - 1) <= delay /\
  2 * delay < 3 * (BaseRetryDelay * 2 ^ (Z.of_nat attempt - 1)).

(** The events one logical request can leave, from the iteration
    [attempt] of its loop on: a request goes out at once in iteration 0
    and after one back-off of that retry in every later iteration; a
    cancelled back-off, or a request that cannot be built, ends the
    sequence. *)
Inductive Schedule : nat -> Trace -> Prop :=
| ScheduleDone attempt :
    Schedule attempt []
| ScheduleFirst req rest :
    Schedule 1 rest ->
    Schedule 0 (EvRoundTrip req :: rest)
| ScheduleCancelled attempt delay :
    (1 <= attempt <= MaxRetries)%nat -> inWindow attempt delay ->
    Schedule attempt [EvCancelled attempt delay]
| ScheduleUnbuilt attempt delay :
    (1 <= attempt <= MaxRetries)%nat -> inWindow attempt delay ->
    Schedule attempt [EvBackoff attempt delay]
| ScheduleRetry attempt delay req rest :
    (1 <= attempt <= MaxRetries)%nat -> inWindow attempt delay ->
    Schedule (S attempt) rest ->
    Schedule attempt (EvBackoff attempt delay :: EvRoundTrip req :: rest).

(** The result of the decoding step of a successful [doRequest]. *)
Definition decoded {A} (result : option A)
    (unmarshal : string -> A -> option A) (respBody : string)
    (r : option A) : Prop :=
  match result with
  | None => r = None
  | Some r0 =>
      if (0 <? String.length respBody)%nat
      then exists r', unmarshal respBody r0 = Some r' /\ r = Some r'
      else r = Some r0
  end.

(** A round trip that failed in a way the loop retries. *)
Definition retryable `{Library} (o : Outcome) : bool :=
  match o with
  | DoError _ => true
  | ReadError _ => true
  | Response code respBody =>
      (400 <=? code) && IsRetryable (apiError code respBody)
  end.

(** ** A concrete library and concrete worlds *)

Module Example.

Definition withID (p : Project.t) (id : string) : Project.t :=
  {| Project.ID := id; Project.OrgID := Project.OrgID p;
     Project.Name := Project.Name p;
     Project.Description := Project.Description p;
     Project.CreatedAt := Project.CreatedAt p;
     Project.UpdatedAt := Project.UpdatedAt p;
     Project.ArchivedAt := Project.ArchivedAt p |}.

Definition checkWithID (c : Check.t) (id : string) : Check.t :=
  {| Check.ID := id; Check.ProjectID := Check.ProjectID c;
     Check.Name := Check.Name c; Check.Slug := Check.Slug c;
     Check.PeriodSeconds := Check.PeriodSeconds c;
     Check.GraceSeconds := Check.GraceSeconds c;
     Check.Description := Check.Description c;
     Check.Tags := Check.Tags c; Check.Paused := Check.Paused c;
     Check.PublicID := Check.PublicID c; Check.Status := Check.Status c;
     Check.CreatedAt := Check.CreatedAt c;
     Check.DeletedAt := Check.DeletedAt c |}.

(** A decoder that reads the whole body as the identifier. *)
Definition lib : Library :=
  {| UnmarshalErrResp := fun _ => None;
     UnmarshalProject := fun body p => Some (withID p body);
     UnmarshalCheck := fun body c => Some (checkWithID c body);
     UnmarshalError := fun _ => "unexpected end of JSON input";
     Format := fun _ _ => "1970-01-01T00:00:00Z";
     ConversionError := {| Summary := "Value Conversion Error";
                           Detail := "" |};
     DuplicateSetElement := fun s =>
       {| Summary := "Duplicate Set Element";
          Detail := "This attribute contains duplicate values of: " ++ s |}
  |}.

Definition client : Client :=
  {| baseURL := "https://api.pakyas.com";
     apiKey := "pk_test";
     userAgent := "terraform-provider-pakyas";
     orgID := "org-1";
     pingURLBase := "https://ping.pakyas.com" |}.

(** The world in which every round trip ends the same way and no
    context is ever cancelled. *)
Definition always (o : Outcome) : World :=
  {| roundTrip := fun _ _ => o;
     ctxDone := fun _ => None;
     Int63 := fun k => 123456789 + Z.of_nat k;
     NewRequestErr := fun _ _ => None |}.

Definition project (description : attr string) : ProjectResource.Model :=
  {| ProjectResource.ID := Known "p-1";
     ProjectResource.Name := Known "Production";
     ProjectResource.Description := description;
     ProjectResource.OrgID := Known "org-1";
     ProjectResource.CreatedAt := Known "1970-01-01T00:00:00Z";
     ProjectResource.UpdatedAt := Known "1970-01-01T00:00:00Z" |}.

Definition check (description : attr string) (tags : SetValue)
    : CheckResource.Model :=
  {| CheckResource.ID := Known "c-1";
     CheckResource.ProjectID := Known "p-1";
     CheckResource.Name := Known "Daily Backup";
     CheckResource.Slug := Known "daily-backup";
     CheckResource.PeriodSeconds := Known 86400;
     CheckResource.GraceSeconds := Known 3600;
     CheckResource.Description := description;
     CheckResource.Tags := tags;
     CheckResource.Paused := Known false;
     CheckResource.PublicID := Known "pub-1";
     CheckResource.PingURL := Known "https://ping.pakyas.com/pub-1";
     CheckResource.Status := Known "up";
     CheckResource.CreatedAt := Known "1970-01-01T00:00:00Z" |}.

Definition createCheck (tags : slice string) : CreateCheckRequest.t :=
  {| CreateCheckRequest.ProjectID := "p-1";
     CreateCheckRequest.Name := "Daily Backup";
     CreateCheckRequest.Slug := "daily-backup";
     CreateCheckRequest.PeriodSeconds := 86400;
     CreateCheckRequest.GraceSeconds := 3600;
     CreateCheckRequest.Description := None;
     CreateCheckRequest.Tags := tags;
     CreateCheckRequest.Paused := false |}.

Definition heap : Mem.heap := {[ 1%positive := ["x"; "database"; "backup"] ]}.

Definition tags : Mem.sliceval := Some (Mem.Header 1%positive 1 2).

End Example.

(** ** The cases of one iteration of the retry loop *)

Section Cases.
Local Open Scope list_scope.
Context `{Library} {A : Type}.
Variables (w : World) (c : Client) (method path : string)
          (body : option jobject) (result : option A)
          (unmarshal : string -> A -> option A).

Let req := newRequest c method path body.
Let loop := attempts w c method path body result unmarshal.

(** The error an iteration leaves in [lastErr] when it goes on. *)
Inductive Retried (attempt : nat) : Outcome -> error -> Prop :=
| RetriedDo msg :
    Retried attempt (DoError msg) (LibError msg)
| RetriedRead msg :
    Retried attempt (ReadError msg)
      (Errorf "failed to read response body: " (Some (LibError msg)))
| RetriedStatus code respBody :
    400 <= code ->
    IsRetryable (apiError code respBody) = true ->
    (attempt < MaxRetries)%nat ->
    Retried attempt (Response code respBody) (apiError code respBody).

(** How an iteration that sent its request ends. *)
Inductive Sent (n attempt : nat) (tr2 : Trace) (o : Outcome)
    (r : Res (option A)) (tr' : Trace) : Prop :=
| SentRetry e :
    Retried attempt o e ->
    loop n (S attempt) (Some e) tr2 = (r, tr') ->
    Sent n attempt tr2 o r tr'
| SentRefused code respBody :
    o = Response code respBody ->
    400 <= code ->
    IsRetryable (apiError code respBody) = false \/
      (MaxRetries <= attempt)%nat ->
    r = Err (apiError code respBody) ->
    tr' = tr2 ->
    Sent n attempt tr2 o r tr'
| SentOk code respBody v :
    o = Response code respBody ->
    code < 400 ->
    decoded result unmarshal respBody v ->
    r = Ok v ->
    tr' = tr2 ->
    Sent n attempt tr2 o r tr'
| SentUnparsed code respBody :
    o = Response code respBody ->
    code < 400 ->
    r = Err (Errorf "failed to parse response: "
               (Some (LibError (UnmarshalError respBody)))) ->
    tr' = tr2 ->
    Sent n attempt tr2 o r tr'.

(** How an iteration ends. *)
Inductive Iteration (n attempt : nat) (tr : Trace)
    (r : Res (option A)) (tr' : Trace) : Prop :=
| IterCancelled msg :
    (0 < attempt)%nat ->
    ctxDone w (List.length (timers tr)) = Some msg ->
    r = Err (LibError msg) ->
    tr' = tr ++ [EvCancelled attempt
                   (retryDelay (Int63 w (List.length (timers tr))) attempt)] ->
    Iteration n attempt tr r tr'
| IterSent pre :
    pre = (if (0 <? attempt)%nat
           then [EvBackoff attempt
                   (retryDelay (Int63 w (List.length (timers tr))) attempt)]
           else []) ->
    ((0 < attempt)%nat -> ctxDone w (List.length (timers tr)) = None) ->
    NewRequestErr w method (url req) = None ->
    Sent n attempt (tr ++ pre ++ [EvRoundTrip req])
      (roundTrip w (List.length (roundTrips tr)) req) r tr' ->
    Iteration n attempt tr r tr'
| IterUnbuilt pre msg :
    pre = (if (0 <? attempt)%nat
           then [EvBackoff attempt
                   (retryDelay (Int63 w (List.length (timers tr))) attempt)]
           else []) ->
    NewRequestErr w method (url req) = Some msg ->
    r = Err (Errorf "failed to create request: " (Some (LibError msg))) ->
    tr' = tr ++ pre ->
    Iteration n attempt tr r tr'.

End Cases.

(** An error is benign for the loop when it carries no status, or one
    the loop retries. *)
Definition benign (e : error) : Prop :=
  asAPIError e = None \/ IsRetryable e = true.

(** What the loop returns when its last round trip, like all before
    it, failed in a way that is retried: a network or read error is
    wrapped, an API error is returned as it is. *)
Definition giveUp `{Library} {A} (o : Outcome) : Res A :=
  match o with
  | DoError msg =>
      Err (Errorf "max retries exceeded: " (Some (LibError msg)))
  | ReadError msg =>
      Err (Errorf "max retries exceeded: "
             (Some (Errorf "failed to read response body: "
                      (Some (LibError msg)))))
  | Response code respBody => Err (apiError code respBody)
  end.

(** The trace [tr] ends with a GET of project [id], answered below 400,
    and [p] is what the answer decodes to. *)
Definition fetchedProject `{Library} (w : World) (c : Client) (tr : Trace)
    (id : string) (p : Project.t) : Prop :=
  exists code respBody,
    answered w tr (newRequest c MethodGet ("/api/v1/projects/" ++ id) None)
      code respBody /\
    code < 400 /\
    decoded (Some Project.zero) UnmarshalProject respBody (Some p).

(** The same for a check, whose tags [GetCheck] normalises. *)
Definition fetchedCheck `{Library} (w : World) (c : Client) (tr : Trace)
    (id : string) (ch : Check.t) : Prop :=
  exists code respBody got,
    answered w tr (newRequest c MethodGet ("/api/v1/checks/" ++ id) None)
      code respBody /\
    code < 400 /\
    decoded (Some Check.zero) UnmarshalCheck respBody (Some got) /\
    ch = Check.withTags got (normalizeTags (Check.Tags got)).



(** The payloads [CreateProject] and [CreateCheck] post. *)
Definition projectPayload (c : Client) (name : string)
    (description : option string) : jobject :=
  CreateProjectRequest.marshal
    {| CreateProjectRequest.OrgID := orgID c;
       CreateProjectRequest.Name := name;
       CreateProjectRequest.Description := normalizeDescription description |}.

Definition checkPayload (req : CreateCheckRequest.t) : jobject :=
  CreateCheckRequest.marshal (normalizeCreate req).

(** The payloads [UpdateProject] and [UpdateCheck] put. *)
Definition projectUpdatePayload (name description : option string)
    : jobject :=
  UpdateProjectRequest.marshal
    {| UpdateProjectRequest.Name := name;
       UpdateProjectRequest.Description := normalizeDescription description |}.

Definition checkUpdatePayload (req : UpdateCheckRequest.t) : jobject :=
  UpdateCheckRequest.marshal (normalizeUpdate req).

(** ** internal/client/client.go: construction

    [strings.HasSuffix] and [strings.TrimSuffix] as the Go library
    defines them: the suffix is cut once, if it is there. *)

Definition HasSuffix (s suffix : string) : bool :=
  (String.length suffix <=? String.length s)%nat
  && String.eqb
       (substring (String.length s - String.length suffix)
          (String.length suffix) s)
       suffix.

Definition TrimSuffix (s suffix : string) : string :=
  if HasSuffix s suffix
  then substring 0 (String.length s - String.length suffix) s
  else s.

Definition DefaultBaseURL : string := "https://api.pakyas.com".
Definition DefaultPingURLBase : string := "https://ping.pakyas.com".

Module MeResponse.
Record t := {
  OrganizationID : string;
  OrganizationName : string;
  Scopes : slice string;
  PingURLBase : string
}.

Definition zero : t :=
  {| OrganizationID := ""; OrganizationName := ""; Scopes := None;
     PingURLBase := "" |}.
End MeResponse.

Record ClientConfig := {
  cfgAPIKey : string;
  cfgBaseURL : string;
  cfgUserAgent : string
}.

(** [json.Unmarshal] into a [*MeResponse] holding a value. *)
Class MeLibrary := {
  UnmarshalMe : string -> MeResponse.t -> option MeResponse.t
}.

(** [fetchOrgContext]: the client with the organisation and the ping
    base that [GET /api/v1/me] answers. *)
Definition fetchOrgContext `{Library} `{MeLibrary} (w : World) (c : Client)
    : M Client :=
  bind (doRequest w c MethodGet "/api/v1/me" None
          (Some MeResponse.zero) UnmarshalMe)
       (fun r =>
          let meResp := deref MeResponse.zero r in
          let base := MeResponse.PingURLBase meResp in
          let base := if String.eqb base "" then DefaultPingURLBase
                      else base in
          ret {| baseURL := baseURL c;
                 apiKey := apiKey c;
                 userAgent := userAgent c;
                 orgID := MeResponse.OrganizationID meResp;
                 pingURLBase := TrimSuffix base "/" |}).

(** [New]. *)
Definition New `{Library} `{MeLibrary} (w : World) (cfg : ClientConfig)
    : M Client :=
  let base := cfgBaseURL cfg in
  let base := if String.eqb base "" then DefaultBaseURL else base in
  let base := TrimSuffix base "/" in
  let agent := cfgUserAgent cfg in
  let agent := if String.eqb agent "" then "terraform-provider-pakyas"
               else agent in
  let c := {| baseURL := base; apiKey := cfgAPIKey cfg; userAgent := agent;
              orgID := ""; pingURLBase := "" |} in
  fun tr =>
    match fetchOrgContext w c tr with
    | (Err err, tr') =>
        (Err (Errorf "failed to fetch organization context: " (Some err)),
         tr')
    | (Ok c', tr') => (Ok c', tr')
    end.

(** ** internal/provider: the provider's Configure *)

Module PakyasProvider.

Record Model := {
  APIKey : attr string;
  APIURL : attr string
}.

(** A diagnostic of the provider: on an attribute, or general. *)
Inductive Diag : Type :=
| AttributeError (root summary detail : string)
| GeneralError (summary detail : string).

(** [Configure], given the provider's version and the environment
    ([os.Getenv]); it hands the client to the resources, or reports. *)
Definition Configure `{Library} `{MeLibrary} (w : World) (version : string)
    (Getenv : string -> string) (config : Model)
    : Trace -> (list Diag * option Client) * Trace :=
  fun tr =>
    let key := Getenv "PAKYAS_API_KEY" in
    let key := if negb (IsNull (APIKey config))
               then ValueString (APIKey config) else key in
    if String.eqb key "" then
      (([AttributeError "api_key" "Missing Pakyas API Key"
           ("The provider cannot create the Pakyas API client as there is a missing or empty value for the Pakyas API key. "
            ++ "Set the api_key value in the configuration or use the PAKYAS_API_KEY environment variable. "
            ++ "If either is already set, ensure the value is not empty.")],
        None), tr)
    else
      let apiURL := Getenv "PAKYAS_API_URL" in
      let apiURL := if negb (IsNull (APIURL config))
                    then ValueString (APIURL config) else apiURL in
      let apiURL := if String.eqb apiURL "" then DefaultBaseURL
                    else apiURL in
      match New w {| cfgAPIKey := key; cfgBaseURL := apiURL;
                     cfgUserAgent := "terraform-provider-pakyas/" ++ version |}
              tr with
      | (Err err, tr') =>
          (([GeneralError "Unable to Create Pakyas API Client"
               ("An unexpected error occurred when creating the Pakyas API client. "
                ++ "If the error is not clear, please contact the provider developers."
                ++ String (ascii_of_nat 10) (String (ascii_of_nat 10) "")
                ++ "Pakyas Client Error: " ++ Error err)],
            None), tr')
      | (Ok c, tr') => (([], Some c), tr')
      end.

End PakyasProvider.

(** ** More readings of a trace *)

(** The time one logical request spends in back-off: the sum of its
    timers, in nanoseconds. *)
Fixpoint totalWait (evs : Trace) : Z :=
  match evs with
  | [] => 0
  | EvBackoff _ d :: rest => d + totalWait rest
  | EvCancelled _ d :: rest => d + totalWait rest
  | EvRoundTrip _ :: rest => totalWait rest
  end.

(** The number of timers the iterations [attempt], ..., [attempt + k - 1]
    of the loop arm: none in iteration 0. *)
Definition waits (attempt k : nat) : nat :=
  match attempt with
  | O => Nat.pred k
  | S _ => k
  end.

(** The decoding step of [doRequest] cannot fail on [respBody]. *)
Definition decodes {A} (result : option A)
    (unmarshal : string -> A -> option A) (respBody : string) : Prop :=
  forall r0, result = Some r0 -> (0 < String.length respBody)%nat ->
             unmarshal respBody r0 <> None.

(** The three operations that write the state of a project, and of a
    check. *)
Definition writesProject `{Library} (w : World) (c : Client)
    (tr : Trace) (resp : Resp ProjectResource.Model) (tr' : Trace) : Prop :=
  (exists data, ProjectResource.Create w c data tr = (resp, tr')) \/
  (exists data, ProjectResource.Read w c data tr = (resp, tr')) \/
  (exists data state, ProjectResource.Update w c data state tr = (resp, tr')).

Definition writesCheck `{Library} (w : World) (c : Client)
    (tr : Trace) (resp : Resp CheckResource.Model) (tr' : Trace) : Prop :=
  (exists data, CheckResource.Create w c data tr = (resp, tr')) \/
  (exists data, CheckResource.Read w c data tr = (resp, tr')) \/
  (exists data state, CheckResource.Update w c data state tr = (resp, tr')).

Module MoreExamples.

(** The world that answers [first] to the round trips before the
    [k]-th and [then_] from there on. *)
Definition after (k : nat) (first then_ : Outcome) : World :=
  {| roundTrip := fun i _ => if (i <? k)%nat then first else then_;
     ctxDone := fun _ => None;
     Int63 := fun i => 42 + Z.of_nat i;
     NewRequestErr := fun _ _ => None |}.

(** The world in which every round trip fails and the context is done
    during the back-off number [k]. *)
Definition cancelledAt (k : nat) : World :=
  {| roundTrip := fun _ _ => Response 503 "";
     ctxDone := fun i => if (i =? k)%nat then Some "context canceled"
                         else None;
     Int63 := fun i => 42 + Z.of_nat i;
     NewRequestErr := fun _ _ => None |}.

Definition me : MeLibrary :=
  {| UnmarshalMe := fun body m =>
       Some {| MeResponse.OrganizationID := body;
               MeResponse.OrganizationName := MeResponse.OrganizationName m;
               MeResponse.Scopes := MeResponse.Scopes m;
               MeResponse.PingURLBase := "" |} |}.

(** A decoder that reads the whole body as the identifier of a check
    tagged [database] and [backup], in that order. *)
Definition tagged : Library :=
  {| UnmarshalErrResp := fun _ => None;
     UnmarshalProject := fun body p => Some (Example.withID p body);
     UnmarshalCheck := fun body c =>
       Some (Check.withTags (Example.checkWithID c body)
               (Some ["database"; "backup"]));
     UnmarshalError := fun _ => "unexpected end of JSON input";
     Format := fun _ _ => "1970-01-01T00:00:00Z";
     ConversionError := {| Summary := "Value Conversion Error";
                           Detail := "" |};
     DuplicateSetElement := fun s =>
       {| Summary := "Duplicate Set Element";
          Detail := "This attribute contains duplicate values of: " ++ s |}
  |}.

(** A decoder that reads the whole body as the identifier of a check
    that lists the tag [backup] twice. *)
Definition doubled : Library :=
  {| UnmarshalErrResp := fun _ => None;
     UnmarshalProject := fun body p => Some (Example.withID p body);
     UnmarshalCheck := fun body c =>
       Some (Check.withTags (Example.checkWithID c body)
               (Some ["backup"; "backup"]));
     UnmarshalError := fun _ => "unexpected end of JSON input";
     Format := fun _ _ => "1970-01-01T00:00:00Z";
     ConversionError := {| Summary := "Value Conversion Error";
                           Detail := "" |};
     DuplicateSetElement := fun s =>
       {| Summary := "Duplicate Set Element";
          Detail := "This attribute contains duplicate values of: " ++ s |}
  |}.

Definition config : ClientConfig :=
  {| cfgAPIKey := "pk_test"; cfgBaseURL := "https://api.pakyas.com/";
     cfgUserAgent := "" |}.

End MoreExamples.

(** * Properties *)

Local Open Scope list_scope.

(** ** The order of strings and [sort.Strings] *)

Lemma ascii_compare_lt_trans a b c :
  Ascii.compare a b = Lt -> Ascii.compare b c = Lt -> Ascii.compare a c = Lt.
Proof.
  unfold Ascii.compare. rewrite !N.compare_lt_iff. lia.
Qed.

Lemma string_compare_le_trans s1 :
  forall s2 s3,
    String.compare s1 s2 <> Gt -> String.compare s2 s3 <> Gt ->
    String.compare s1 s3 <> Gt.
Proof.
  induction s1 as [|a s1 IH]; intros [|b s2] [|c s3]; simpl; try congruence.
  destruct (Ascii.compare a b) eqn:Hab; try congruence.
  - apply Ascii.compare_eq_iff in Hab. subst b.
    destruct (Ascii.compare a c); try congruence. apply IH.
  - destruct (Ascii.compare b c) eqn:Hbc; try congruence.
    + apply Ascii.compare_eq_iff in Hbc. subst c. rewrite Hab. congruence.
    + rewrite (ascii_compare_lt_trans a b c Hab Hbc). congruence.
Qed.

Lemma string_le_iff a b : string_le a b <-> String.compare a b <> Gt.
Proof.
  unfold string_le, String.leb. destruct (String.compare a b); split;
    congruence.
Qed.

#[global] Instance string_le_trans : Transitive string_le.
Proof.
  intros a b c. rewrite !string_le_iff. apply string_compare_le_trans.
Qed.

#[global] Instance string_le_total : Total string_le.
Proof. intros a b. apply String.leb_total. Qed.

#[global] Instance string_le_antisym : AntiSymm (=) string_le.
Proof. intros a b. apply String.leb_antisym. Qed.

Lemma sortStrings_sorted l : Sorted string_le (sortStrings l).
Proof. apply (Sorted_merge_sort string_le). Qed.

Lemma sortStrings_perm l : sortStrings l ≡ₚ l.
Proof. apply (merge_sort_Permutation string_le). Qed.

(** Whatever algorithm [sort.Strings] runs, its result is this one:
    a list has one sorted rearrangement only. *)
Lemma sortStrings_unique l l' :
  Sorted string_le l' -> l' ≡ₚ l -> l' = sortStrings l.
Proof.
  intros Hs Hp. apply (Sorted_unique string_le); auto.
  - apply sortStrings_sorted.
  - rewrite Hp. symmetry. apply sortStrings_perm.
Qed.

Lemma sortStrings_fixed l : Sorted string_le l -> sortStrings l = l.
Proof. intros Hs. symmetry. now apply sortStrings_unique. Qed.

Lemma sortStrings_nil : sortStrings [] = [].
Proof. reflexivity. Qed.

Lemma sortStrings_length l : List.length (sortStrings l) = List.length l.
Proof. apply Permutation_length, sortStrings_perm. Qed.

Lemma sortStrings_eq_nil l : sortStrings l = [] -> l = [].
Proof.
  intros E. apply length_zero_iff_nil.
  rewrite <- sortStrings_length, E. reflexivity.
Qed.

(** C9. [normalizeTags] is idempotent, and it sends both [nil] and the
    empty list to the empty, non-nil list. *)
Theorem normalizeTags_idempotent :
  (forall T : slice string,
      normalizeTags (normalizeTags T) = normalizeTags T) /\
  normalizeTags None = Some [] /\
  normalizeTags (Some []) = Some [] /\
  (forall T : slice string, normalizeTags T <> None).
Proof.
  repeat split.
  - intros [l|]; simpl.
    + f_equal. apply sortStrings_fixed, sortStrings_sorted.
    + reflexivity.
  - intros [l|]; discriminate.
Qed.

(** ** [normalizeTags] in memory *)

Lemma splice_all (arr new : list string) :
  List.length new = List.length arr -> Mem.splice arr 0 new = new.
Proof.
  intros E. unfold Mem.splice. simpl. rewrite E, drop_all.
  apply app_nil_r.
Qed.

Lemma make_spec (h : Mem.heap) n :
  let p := fresh (dom h) in
  h !! p = None /\
  Mem.make h n = (<[p := replicate n ""]> h, Some (Mem.Header p 0 n)).
Proof.
  split; [|reflexivity]. apply not_elem_of_dom, is_fresh.
Qed.

(** C10. [normalizeTags] returns a slice over an array that did not
    exist before the call, changes no array that did, so that the
    caller's slice shows the same elements in the same order, and the
    new slice holds what the pure [normalizeTags] computes. *)
Theorem normalizeTags_frame (h : Mem.heap) (tags : Mem.sliceval) :
  Mem.wf h tags ->
  let h' := fst (Mem.normalizeTags h tags) in
  let r := snd (Mem.normalizeTags h tags) in
  (exists hd, r = Some hd /\ h !! Mem.ptr hd = None) /\
  (forall l arr, h !! l = Some arr -> h' !! l = Some arr) /\
  Mem.elems h' tags = Mem.elems h tags /\
  Mem.view h' r = normalizeTags (Mem.view h tags).
Proof.
  intros Hwf. destruct tags as [hd|]; simpl in *.
  - destruct Hwf as (arr & Harr & Hlen).
    destruct (make_spec h (Mem.hlen hd)) as [Hp _].
    set (p := fresh (dom h)) in *.
    assert (Hne : p <> Mem.ptr hd) by congruence.
    set (E := take (Mem.hlen hd) (drop (Mem.off hd) arr)).
    assert (HE : List.length E = Mem.hlen hd).
    { unfold E. rewrite length_take, length_drop. lia. }
    unfold Mem.copy, Mem.sortStrings; simpl.
    rewrite lookup_insert_eq. simpl.
    rewrite (lookup_insert_ne _ p (Mem.ptr hd)) by done.
    rewrite Harr. fold E.
    rewrite Nat.min_id, <- HE, firstn_all, HE.
    rewrite splice_all by (rewrite length_replicate; lia).
    rewrite lookup_insert_eq. simpl.
    rewrite lookup_insert_eq.
    assert (HT : take (Mem.hlen hd) (drop 0 E) = E).
    { rewrite drop_0, <- HE. apply firstn_all. }
    rewrite HT. rewrite splice_all by apply sortStrings_length.
    repeat split.
    + exists (Mem.Header p 0 (Mem.hlen hd)). split; [reflexivity|done].
    + intros l a Hl. rewrite !lookup_insert_ne by congruence. done.
    + rewrite !lookup_insert_ne by done. rewrite Harr. reflexivity.
    + f_equal. rewrite drop_0, <- HE, <- (sortStrings_length E).
      apply firstn_all.
  - destruct (make_spec h 0) as [Hp _].
    set (p := fresh (dom h)) in *.
    repeat split.
    + exists (Mem.Header p 0 0). split; [reflexivity|done].
    + intros l a Hl. rewrite lookup_insert_ne by congruence. done.
    + unfold Mem.view, Mem.elems. simpl. rewrite lookup_insert_eq.
      reflexivity.
Qed.

Lemma normalizeTags_frame_witness :
  let h' := fst (Mem.normalizeTags Example.heap Example.tags) in
  let r := snd (Mem.normalizeTags Example.heap Example.tags) in
  (exists hd, r = Some hd /\ Example.heap !! Mem.ptr hd = None) /\
  (forall l arr, Example.heap !! l = Some arr -> h' !! l = Some arr) /\
  Mem.elems h' Example.tags = Mem.elems Example.heap Example.tags /\
  Mem.view h' r = normalizeTags (Mem.view Example.heap Example.tags).
Proof.
  apply (normalizeTags_frame Example.heap Example.tags).
  exists ["x"; "database"; "backup"]. split; [reflexivity | simpl; lia].
Defined.

(** ** The back-off schedule *)

Lemma wrap64_small x : - 2 ^ 63 <= x < 2 ^ 63 -> wrap64 x = x.
Proof.
  intros Hx. unfold wrap64. rewrite Z.mod_small; lia.
Qed.

Lemma backoff_value attempt :
  (1 <= attempt <= MaxRetries)%nat ->
  backoff attempt = BaseRetryDelay * 2 ^ (Z.of_nat attempt - 1).
Proof.
  unfold MaxRetries. intros Ha.
  assert (Hc : attempt = 1%nat \/ attempt = 2%nat \/ attempt = 3%nat \/
               attempt = 4%nat \/ attempt = 5%nat) by lia.
  destruct Hc as [-> | [-> | [-> | [-> | ->]]]]; reflexivity.
Qed.

(** The bound handed to [rand.Int63n] is positive in every retry, so
    the call does not panic. *)
Lemma backoff_half_pos attempt :
  (1 <= attempt <= MaxRetries)%nat -> 0 < Z.quot (backoff attempt) 2.
Proof.
  unfold MaxRetries. intros Ha.
  assert (Hc : attempt = 1%nat \/ attempt = 2%nat \/ attempt = 3%nat \/
               attempt = 4%nat \/ attempt = 5%nat) by lia.
  destruct Hc as [-> | [-> | [-> | [-> | ->]]]]; reflexivity.
Qed.

Lemma retryDelay_window draw attempt :
  (1 <= attempt <= MaxRetries)%nat -> inWindow attempt (retryDelay draw attempt).
Proof.
  intros Ha. unfold inWindow, retryDelay, Int63n.
  rewrite <- (backoff_value attempt Ha).
  pose proof (backoff_half_pos attempt Ha) as Hpos.
  pose proof (Z.mod_pos_bound draw _ Hpos) as Hj.
  set (j := draw mod Z.quot (backoff attempt) 2) in *.
  assert (Hb : 0 < backoff attempt <= 16 * Second).
  { unfold MaxRetries in Ha.
    assert (Hc : attempt = 1%nat \/ attempt = 2%nat \/ attempt = 3%nat \/
                 attempt = 4%nat \/ attempt = 5%nat) by lia.
    destruct Hc as [-> | [-> | [-> | [-> | ->]]]]; vm_compute;
      split; congruence. }
  assert (Hq : 2 * Z.quot (backoff attempt) 2 <= backoff attempt).
  { rewrite Z.quot_div_nonneg by lia. apply Z.mul_div_le. lia. }
  unfold Second in Hb.
  rewrite wrap64_small by lia. lia.
Qed.

(** ** One logical request *)

Lemma roundTrips_app tr1 tr2 :
  roundTrips (tr1 ++ tr2) = roundTrips tr1 ++ roundTrips tr2.
Proof. apply List.filter_app. Qed.

Lemma timers_app tr1 tr2 :
  timers (tr1 ++ tr2) = timers tr1 ++ timers tr2.
Proof. apply List.filter_app. Qed.

Section Loop.
Context `{Library} {A : Type}.
Variables (w : World) (c : Client) (method path : string)
          (body : option jobject) (result : option A)
          (unmarshal : string -> A -> option A).

Local Abbreviation req := (newRequest c method path body).
Local Abbreviation loop := (attempts w c method path body result unmarshal).
Local Abbreviation Sent := (Sent w c method path body result unmarshal).
Local Abbreviation Iteration :=
  (Iteration w c method path body result unmarshal).

Lemma sent_cases n attempt tr2 o r tr' :
  match o with
  | DoError msg => loop n (S attempt) (Some (LibError msg)) tr2
  | ReadError msg =>
      loop n (S attempt)
        (Some (Errorf "failed to read response body: "
                 (Some (LibError msg)))) tr2
  | Response code respBody =>
      if 400 <=? code then
        if IsRetryable (apiError code respBody) && (attempt <? MaxRetries)%nat
        then loop n (S attempt) (Some (apiError code respBody)) tr2
        else (Err (apiError code respBody), tr2)
      else
        match result with
        | Some r0 =>
            if (0 <? String.length respBody)%nat then
              match unmarshal respBody r0 with
              | Some r' => (Ok (Some r'), tr2)
              | None =>
                  (Err (Errorf "failed to parse response: "
                          (Some (LibError (UnmarshalError respBody)))),
                   tr2)
              end
            else (Ok (Some r0), tr2)
        | None => (Ok None, tr2)
        end
  end = (r, tr') ->
  Sent n attempt tr2 o r tr'.
Proof.
  destruct o as [msg|msg|code respBody].
  - intros E. eapply SentRetry; [constructor | exact E].
  - intros E. eapply SentRetry; [constructor | exact E].
  - destruct (400 <=? code) eqn:Hcode.
    + apply Z.leb_le in Hcode.
      destruct (IsRetryable (apiError code respBody)) eqn:Hretry; simpl.
      * destruct (attempt <? MaxRetries)%nat eqn:Hlast.
        -- apply Nat.ltb_lt in Hlast. intros E.
           eapply SentRetry; [constructor; auto | exact E].
        -- apply Nat.ltb_ge in Hlast. intros E. inversion E; subst.
           eapply SentRefused; eauto.
      * intros E. inversion E; subst. eapply SentRefused; eauto.
    + apply Z.leb_gt in Hcode. unfold decoded.
      destruct result as [r0|].
      * destruct (0 <? String.length respBody)%nat eqn:Hlen.
        -- destruct (unmarshal respBody r0) as [r'|] eqn:Hun;
             intros E; inversion E; subst.
           ++ eapply SentOk; eauto. unfold decoded. rewrite Hlen. eauto.
           ++ eapply SentUnparsed; eauto.
        -- intros E; inversion E; subst. eapply SentOk; eauto.
           unfold decoded. rewrite Hlen. reflexivity.
      * intros E; inversion E; subst. eapply SentOk; eauto.
        reflexivity.
Qed.

Lemma attempts_iteration n attempt lastErr tr r tr' :
  loop (S n) attempt lastErr tr = (r, tr') ->
  Iteration n attempt tr r tr'.
Proof.
  cbn [attempts].
  set (d := retryDelay _ attempt).
  destruct (0 <? attempt)%nat eqn:Hpos.
  - apply Nat.ltb_lt in Hpos.
    destruct (ctxDone w (List.length (timers tr))) as [msg|] eqn:Hctx.
    + intros E. inversion E; subst. eapply IterCancelled; eauto.
    + destruct (NewRequestErr w method (url req)) as [msg|] eqn:Hnew.
      * intros E. inversion E; subst. eapply IterUnbuilt; eauto.
        apply Nat.ltb_lt in Hpos. rewrite Hpos. reflexivity.
      * intros E. apply sent_cases in E.
        eapply IterSent; eauto.
        apply Nat.ltb_lt in Hpos. rewrite Hpos.
        rewrite roundTrips_app, app_nil_r in E.
        rewrite <- app_assoc in E. exact E.
  - apply Nat.ltb_ge in Hpos.
    destruct (NewRequestErr w method (url req)) as [msg|] eqn:Hnew.
    + intros E. inversion E; subst. eapply IterUnbuilt; eauto.
      apply Nat.ltb_ge in Hpos. rewrite Hpos. symmetry. apply app_nil_r.
    + intros E. apply sent_cases in E.
      eapply IterSent; eauto.
      * lia.
      * apply Nat.ltb_ge in Hpos. rewrite Hpos. exact E.
Qed.

Lemma schedule_sent attempt draw rest :
  (attempt <= MaxRetries)%nat ->
  Schedule (S attempt) rest ->
  Schedule attempt
    ((if (0 <? attempt)%nat
      then [EvBackoff attempt (retryDelay draw attempt)]
      else []) ++ EvRoundTrip req :: rest).
Proof.
  intros Ha Hs. destruct attempt as [|k]; simpl.
  - now constructor.
  - constructor; auto; [lia | apply retryDelay_window; lia].
Qed.

Lemma roundTrips_pre attempt d :
  roundTrips (if (0 <? attempt)%nat then [EvBackoff attempt d] else []) = [].
Proof. destruct (0 <? attempt)%nat; reflexivity. Qed.

Lemma onlyRequest_pre attempt d rest :
  onlyRequest req rest ->
  onlyRequest req
    ((if (0 <? attempt)%nat then [EvBackoff attempt d] else [])
     ++ EvRoundTrip req :: rest).
Proof.
  intros Hr. unfold onlyRequest.
  destruct (0 <? attempt)%nat; simpl; repeat constructor; exact Hr.
Qed.

(** The events of the loop from any iteration on. *)
Lemma attempts_trace n :
  forall attempt lastErr tr r tr',
    loop n attempt lastErr tr = (r, tr') ->
    (attempt + n = S MaxRetries)%nat ->
    exists evs,
      tr' = tr ++ evs /\
      onlyRequest req evs /\
      Schedule attempt evs /\
      (List.length (roundTrips evs) <= n)%nat.
Proof.
  induction n as [|n IH]; intros attempt lastErr tr r tr' Hrun Hn.
  - injection Hrun as <- <-. exists []. rewrite app_nil_r.
    repeat split; [constructor | constructor | simpl; lia].
  - apply attempts_iteration in Hrun.
    destruct Hrun as [msg Hpos Hctx -> -> | pre -> Hctx Hnew Hs
                     | pre msg -> Hnew -> ->].
    + eexists. split; [reflexivity|]. repeat split.
      * repeat constructor.
      * constructor; [lia | apply retryDelay_window; lia].
      * simpl; lia.
    + assert (Hrest : exists rest,
                 tr' = (tr ++ (if (0 <? attempt)%nat
                        then [EvBackoff attempt
                                (retryDelay
                                   (Int63 w (List.length (timers tr)))
                                   attempt)]
                        else []) ++ [EvRoundTrip req]) ++ rest /\
                 onlyRequest req rest /\ Schedule (S attempt) rest /\
                 (List.length (roundTrips rest) <= n)%nat).
      { destruct Hs as [e _ Hnext | ? ? _ _ _ _ -> | ? ? ? _ _ _ _ ->
                       | ? ? _ _ _ ->].
        - apply IH in Hnext; [exact Hnext | lia].
        - exists []. rewrite app_nil_r.
          repeat split; [constructor | constructor | simpl; lia].
        - exists []. rewrite app_nil_r.
          repeat split; [constructor | constructor | simpl; lia].
        - exists []. rewrite app_nil_r.
          repeat split; [constructor | constructor | simpl; lia]. }
      destruct Hrest as (rest & -> & Hreq & Hsch & Hcount).
      eexists. split.
      { rewrite <- !app_assoc. simpl. reflexivity. }
      repeat split.
      * now apply onlyRequest_pre.
      * apply schedule_sent; [lia | exact Hsch].
      * rewrite roundTrips_app, roundTrips_pre. simpl. lia.
    + eexists. split; [reflexivity|]. repeat split.
      * destruct (0 <? attempt)%nat; repeat constructor.
      * destruct (0 <? attempt)%nat eqn:Hpos; [|constructor].
        apply Nat.ltb_lt in Hpos.
        constructor; [lia | apply retryDelay_window; lia].
      * rewrite roundTrips_pre. simpl; lia.
Qed.

(** A call that succeeds ends with a round trip answered below 400,
    whose body it decodes. *)
Lemma attempts_ok n :
  forall attempt lastErr tr v tr',
    loop n attempt lastErr tr = (Ok v, tr') ->
    exists code respBody,
      answered w tr' req code respBody /\ code < 400 /\
      decoded result unmarshal respBody v.
Proof.
  induction n as [|n IH]; intros attempt lastErr tr v tr' Hrun.
  - discriminate.
  - apply attempts_iteration in Hrun.
    destruct Hrun as [msg _ _ Hr _ | pre -> _ _ Hs | pre msg _ _ Hr _];
      try discriminate.
    destruct Hs as [e _ Hnext | ? ? _ _ _ Hr _
                   | code respBody v' Ho Hcode Hdec Hr ->
                   | ? ? _ _ Hr _]; try discriminate.
    + eapply IH; eauto.
    + injection Hr as ->. exists code, respBody. repeat split; auto.
      eexists. split; [apply app_assoc|].
      rewrite roundTrips_app, roundTrips_pre, app_nil_r. exact Ho.
Qed.

(** An error that carries a status the loop does not retry is the
    [*APIError] of the last round trip. *)

Lemma attempts_refused n :
  forall attempt lastErr tr e tr' code m b,
    loop n attempt lastErr tr = (Err e, tr') ->
    (forall e0, lastErr = Some e0 -> benign e0) ->
    asAPIError e = Some (code, m, b) ->
    (code =? StatusTooManyRequests) || (500 <=? code) = false ->
    exists respBody,
      e = apiError code respBody /\ 400 <= code /\
      answered w tr' req code respBody.
Proof.
  induction n as [|n IH];
    intros attempt lastErr tr e tr' code m b Hrun Hlast Hapi Hcode.
  - injection Hrun as <- <-. simpl in Hapi.
    destruct lastErr as [e0|]; [|discriminate].
    destruct (Hlast e0 eq_refl) as [Hn | Hr]; [congruence|].
    unfold IsRetryable, statusIs in Hr. rewrite Hapi in Hr. congruence.
  - apply attempts_iteration in Hrun.
    destruct Hrun as [msg _ _ Hr _ | pre -> _ _ Hs | pre msg _ _ Hr _].
    + injection Hr as ->. discriminate.
    + destruct Hs as [e1 Hret Hnext
                     | code' respBody Ho Hc _ Hr ->
                     | ? ? ? _ _ _ Hr _
                     | ? ? _ _ Hr _]; try discriminate.
      * eapply IH; eauto. intros e0 [= <-].
        destruct Hret; [left; reflexivity | left; reflexivity | right; auto].
      * injection Hr as ->. unfold apiError in Hapi. simpl in Hapi.
        injection Hapi as <- <- <-. exists respBody.
        repeat split; auto.
        eexists. split; [apply app_assoc|].
        rewrite roundTrips_app, roundTrips_pre, app_nil_r. exact Ho.
      * injection Hr as ->. discriminate.
    + injection Hr as ->. discriminate.
Qed.

Lemma timers_pre attempt d :
  (0 < attempt)%nat ->
  timers (if (0 <? attempt)%nat then [EvBackoff attempt d] else [])
  = [EvBackoff attempt d].
Proof.
  intros Ha. apply Nat.ltb_lt in Ha. rewrite Ha. reflexivity.
Qed.

(** The loop when every round trip left fails in a way that is
    retried and no back-off is cancelled. *)
Lemma attempts_exhausted n :
  forall attempt lastErr tr r tr',
    loop n attempt lastErr tr = (r, tr') ->
    (1 <= attempt)%nat ->
    (attempt + n = S MaxRetries)%nat ->
    NewRequestErr w method (url req) = None ->
    (forall k, (k < n)%nat ->
               ctxDone w (List.length (timers tr) + k) = None) ->
    (forall k, (k < n)%nat ->
               retryable (roundTrip w (List.length (roundTrips tr) + k) req)
               = true) ->
    List.length (roundTrips tr') = (List.length (roundTrips tr) + n)%nat /\
    r = match n with
        | O => Err (Errorf "max retries exceeded: " lastErr)
        | S m => giveUp (roundTrip w (List.length (roundTrips tr) + m) req)
        end.
Proof.
  induction n as [|n IH];
    intros attempt lastErr tr r tr' Hrun Ha Hn Hnew Hctx Hfail.
  - injection Hrun as <- <-. split; [lia | reflexivity].
  - apply attempts_iteration in Hrun.
    pose proof (Hctx 0%nat ltac:(lia)) as Hctx0.
    pose proof (Hfail 0%nat ltac:(lia)) as Hfail0.
    rewrite Nat.add_0_r in Hctx0, Hfail0.
    destruct Hrun as [msg _ Hc _ _ | pre -> _ _ Hs | pre msg _ Hb _ _];
      [congruence | | congruence].
    set (tr2 := tr ++ _ ++ [EvRoundTrip req]) in Hs.
    assert (Hrt : List.length (roundTrips tr2)
                  = S (List.length (roundTrips tr))).
    { unfold tr2. rewrite !roundTrips_app, roundTrips_pre. simpl.
      rewrite length_app. simpl. lia. }
    assert (Htm : List.length (timers tr2) = S (List.length (timers tr))).
    { unfold tr2. rewrite !timers_app, timers_pre by lia. simpl.
      rewrite length_app. simpl. lia. }
    destruct Hs as [e Hret Hnext
                   | code respBody Ho Hc Hwhy -> ->
                   | code respBody v Ho Hc _ _ _
                   | code respBody Ho Hc _ _].
    + apply IH in Hnext; try lia; auto.
      * destruct Hnext as [Hlen ->]. split; [lia|].
        destruct n as [|m].
        -- rewrite Nat.add_0_r.
           destruct Hret; [reflexivity | reflexivity | lia].
        -- rewrite Hrt. f_equal. f_equal. lia.
      * intros k Hk. rewrite Htm.
        replace (S (List.length (timers tr)) + k)%nat
          with (List.length (timers tr) + S k)%nat by lia.
        apply Hctx. lia.
      * intros k Hk. rewrite Hrt.
        replace (S (List.length (roundTrips tr)) + k)%nat
          with (List.length (roundTrips tr) + S k)%nat by lia.
        apply Hfail. lia.
    + rewrite Ho in Hfail0. simpl in Hfail0.
      apply andb_true_iff in Hfail0 as [_ Hretry].
      destruct Hwhy as [Hno | Hlast]; [congruence|].
      assert (n = 0%nat) by lia. subst n.
      split; [lia|]. rewrite Nat.add_0_r, Ho. reflexivity.
    + rewrite Ho in Hfail0. simpl in Hfail0.
      apply andb_true_iff in Hfail0 as [Hge _]. apply Z.leb_le in Hge. lia.
    + rewrite Ho in Hfail0. simpl in Hfail0.
      apply andb_true_iff in Hfail0 as [Hge _]. apply Z.leb_le in Hge. lia.
Qed.
End Loop.

(** ** What [doRequest] returns *)

Section Request.
Context `{Library} {A : Type}.
Variables (w : World) (c : Client) (method path : string)
          (body : option jobject) (result : option A)
          (unmarshal : string -> A -> option A).

Local Abbreviation req := (newRequest c method path body).
Local Abbreviation call := (doRequest w c method path body result unmarshal).

Lemma doRequest_trace tr r tr' :
  call tr = (r, tr') ->
  exists evs, tr' = tr ++ evs /\ onlyRequest req evs.
Proof.
  intros Hrun. apply attempts_trace in Hrun; [|reflexivity].
  destruct Hrun as (evs & -> & Hreq & _). eauto.
Qed.

Lemma doRequest_ok tr v tr' :
  call tr = (Ok v, tr') ->
  exists code respBody,
    answered w tr' req code respBody /\ code < 400 /\
    decoded result unmarshal respBody v.
Proof. apply attempts_ok. Qed.

Lemma doRequest_refused tr e tr' code :
  call tr = (Err e, tr') ->
  statusIs (Z.eqb code) e = true ->
  (code =? StatusTooManyRequests) || (500 <=? code) = false ->
  exists respBody,
    e = apiError code respBody /\ 400 <= code /\
    answered w tr' req code respBody.
Proof.
  intros Hrun Hst Hcode. unfold statusIs in Hst.
  destruct (asAPIError e) as [[[code' m] b]|] eqn:Hapi; [|discriminate].
  apply Z.eqb_eq in Hst. subst code'.
  eapply attempts_refused; eauto. discriminate.
Qed.
End Request.

Lemma decoded_some {A} (zero : A) unmarshal respBody (r : option A) :
  decoded (Some zero) unmarshal respBody r ->
  decoded (Some zero) unmarshal respBody (Some (deref zero r)).
Proof.
  unfold decoded. destruct (0 <? String.length respBody)%nat.
  - intros (r' & Hun & ->). eauto.
  - intros ->. reflexivity.
Qed.

(** ** The accessors *)

Lemma GetProject_ok `{Library} w c id tr p tr' :
  GetProject w c id tr = (Ok p, tr') -> fetchedProject w c tr' id p.
Proof.
  unfold GetProject, bind, ret.
  destruct (doRequest _ _ _ _ _ _ _ tr) as [[v|e] tr1] eqn:Hrun;
    intros E; [|discriminate].
  injection E as <- <-. apply doRequest_ok in Hrun.
  destruct Hrun as (code & respBody & Hans & Hcode & Hdec).
  exists code, respBody. repeat split; auto. now apply decoded_some.
Qed.

Lemma GetCheck_ok `{Library} w c id tr ch tr' :
  GetCheck w c id tr = (Ok ch, tr') -> fetchedCheck w c tr' id ch.
Proof.
  unfold GetCheck, bind, ret.
  destruct (doRequest _ _ _ _ _ _ _ tr) as [[v|e] tr1] eqn:Hrun;
    intros E; [|discriminate].
  injection E as <- <-. apply doRequest_ok in Hrun.
  destruct Hrun as (code & respBody & Hans & Hcode & Hdec).
  exists code, respBody, (deref Check.zero v).
  repeat split; auto. now apply decoded_some.
Qed.

Lemma GetProject_trace `{Library} w c id tr r tr' :
  GetProject w c id tr = (r, tr') ->
  exists evs,
    tr' = tr ++ evs /\
    onlyRequest (newRequest c MethodGet ("/api/v1/projects/" ++ id) None) evs.
Proof.
  unfold GetProject, bind, ret.
  destruct (doRequest _ _ _ _ _ _ _ tr) as [[v|e] tr1] eqn:Hrun;
    intros E; injection E as <- <-; eapply doRequest_trace; eauto.
Qed.

Lemma GetCheck_trace `{Library} w c id tr r tr' :
  GetCheck w c id tr = (r, tr') ->
  exists evs,
    tr' = tr ++ evs /\
    onlyRequest (newRequest c MethodGet ("/api/v1/checks/" ++ id) None) evs.
Proof.
  unfold GetCheck, bind, ret.
  destruct (doRequest _ _ _ _ _ _ _ tr) as [[v|e] tr1] eqn:Hrun;
    intros E; injection E as <- <-; eapply doRequest_trace; eauto.
Qed.

(** C5. The wait before the request of retry [i], for [i] from 1 to 5,
    is at least [base * 2^(i-1)] and below one and a half times that;
    one logical request sends its first request without waiting, every
    later one after exactly one such wait, and never more than six. *)
Theorem backoff_schedule `{Library} {A : Type} (w : World) (c : Client)
    (method path : string) (body : option jobject) (result : option A)
    (unmarshal : string -> A -> option A) (tr : Trace)
    (draw : Z) (i : nat) :
  (1 <= i <= 5)%nat ->
  (BaseRetryDelay * 2 ^ (Z.of_nat i - 1) <= retryDelay draw i /\
   2 * retryDelay draw i < 3 * (BaseRetryDelay * 2 ^ (Z.of_nat i - 1))) /\
  exists evs,
    snd (doRequest w c method path body result unmarshal tr) = tr ++ evs /\
    Schedule 0 evs /\
    (List.length (roundTrips evs) <= 6)%nat.
Proof.
  intros Hi. split.
  - apply (retryDelay_window draw i). unfold MaxRetries. lia.
  - unfold doRequest.
    destruct (attempts w c method path body result unmarshal
                (S MaxRetries) 0 None tr) as [r tr'] eqn:Hrun.
    apply attempts_trace in Hrun; [|reflexivity].
    destruct Hrun as (evs & -> & _ & Hs & Hc). exists evs. auto.
Qed.

Lemma backoff_schedule_witness :
  (BaseRetryDelay * 2 ^ (Z.of_nat 3 - 1) <= retryDelay 987654321 3 /\
   2 * retryDelay 987654321 3 < 3 * (BaseRetryDelay * 2 ^ (Z.of_nat 3 - 1))) /\
  exists evs,
    snd (doRequest (H:=Example.lib) (Example.always (Response 503 ""))
           Example.client MethodGet "/api/v1/me" None noResult noUnmarshal [])
    = [] ++ evs /\
    Schedule 0 evs /\
    (List.length (roundTrips evs) <= 6)%nat.
Proof.
  apply (backoff_schedule (H:=Example.lib) (Example.always (Response 503 ""))
           Example.client MethodGet "/api/v1/me"%string None noResult
           noUnmarshal [] 987654321 3).
  lia.
Defined.

(** C2, as the code has it.  When no back-off is cancelled and each of
    the six round trips fails in a way that is retried, all six are made;
    if the last one failed with a network or read error, the call returns
    "max retries exceeded" wrapping that error; if the last one was
    answered with 429 or 5xx, the call returns that API error itself. *)
Theorem doRequest_exhausted `{Library} {A : Type} (w : World) (c : Client)
    (method path : string) (body : option jobject) (result : option A)
    (unmarshal : string -> A -> option A) (tr : Trace) :
  let req := newRequest c method path body in
  let run := doRequest w c method path body result unmarshal tr in
  let last := roundTrip w (List.length (roundTrips tr) + 5) req in
  NewRequestErr w method (url req) = None ->
  (forall k, (k < 5)%nat -> ctxDone w (List.length (timers tr) + k) = None) ->
  (forall k, (k < 6)%nat ->
             retryable (roundTrip w (List.length (roundTrips tr) + k) req)
             = true) ->
  List.length (roundTrips (snd run)) = (List.length (roundTrips tr) + 6)%nat /\
  (forall msg, last = DoError msg ->
     fst run = Err (Errorf "max retries exceeded: " (Some (LibError msg)))) /\
  (forall msg, last = ReadError msg ->
     fst run = Err (Errorf "max retries exceeded: "
                      (Some (Errorf "failed to read response body: "
                               (Some (LibError msg)))))) /\
  (forall code respBody, last = Response code respBody ->
     fst run = Err (apiError code respBody)).
Proof.
  intros req run last Hnew Hctx Hfail.
  assert (Hrun : List.length (roundTrips (snd run))
                 = (List.length (roundTrips tr) + 6)%nat /\
                 fst run = giveUp last).
  { unfold run, doRequest.
    destruct (attempts w c method path body result unmarshal
                (S MaxRetries) 0 None tr) as [r tr'] eqn:Hrun.
    apply attempts_iteration in Hrun.
    pose proof (Hfail 0%nat ltac:(lia)) as Hfail0.
    rewrite Nat.add_0_r in Hfail0. fold req in Hrun.
    destruct Hrun as [msg Hpos _ _ _ | pre -> _ _ Hs | pre msg _ Hb _ _];
      [lia | | unfold req in Hnew; congruence].
    simpl in Hs.
    destruct Hs as [e Hret Hnext
                   | code respBody Ho Hc Hwhy _ _
                   | code respBody v Ho Hc _ _ _
                   | code respBody Ho Hc _ _].
    - apply attempts_exhausted in Hnext; auto; try (unfold MaxRetries; lia).
      + rewrite roundTrips_app in Hnext. simpl in Hnext.
        rewrite length_app in Hnext. simpl in Hnext.
        destruct Hnext as [Hlen ->]. simpl. unfold MaxRetries in Hlen.
        split; [lia|].
        unfold last. f_equal. f_equal. lia.
      + intros k Hk. rewrite timers_app. simpl. rewrite app_nil_r.
        apply Hctx. unfold MaxRetries in Hk. lia.
      + intros k Hk. rewrite roundTrips_app, length_app. simpl.
        replace (List.length (roundTrips tr) + 1 + k)%nat
          with (List.length (roundTrips tr) + S k)%nat by lia.
        apply Hfail. unfold MaxRetries in Hk. lia.
    - fold req in Ho. rewrite Ho in Hfail0. simpl in Hfail0.
      apply andb_true_iff in Hfail0 as [_ Hretry].
      destruct Hwhy as [Hno | Hlast]; [congruence | unfold MaxRetries in Hlast; lia].
    - fold req in Ho. rewrite Ho in Hfail0. simpl in Hfail0.
      apply andb_true_iff in Hfail0 as [Hge _]. apply Z.leb_le in Hge. lia.
    - fold req in Ho. rewrite Ho in Hfail0. simpl in Hfail0.
      apply andb_true_iff in Hfail0 as [Hge _]. apply Z.leb_le in Hge. lia. }
  destruct Hrun as [Hlen Hres]. split; [exact Hlen|].
  rewrite Hres. repeat split; intros; subst last;
    match goal with E : roundTrip _ _ _ = _ |- _ => rewrite E end;
    reflexivity.
Qed.

Lemma doRequest_exhausted_witness :
  let w := Example.always (DoError "connection refused") in
  let req := newRequest Example.client MethodGet "/api/v1/me" None in
  let run := doRequest (H:=Example.lib) w Example.client MethodGet
               "/api/v1/me" None noResult noUnmarshal [] in
  let last := roundTrip w (List.length (roundTrips []) + 5) req in
  List.length (roundTrips (snd run)) = (List.length (roundTrips []) + 6)%nat /\
  (forall msg, last = DoError msg ->
     fst run = Err (Errorf "max retries exceeded: " (Some (LibError msg)))) /\
  (forall msg, last = ReadError msg ->
     fst run = Err (Errorf "max retries exceeded: "
                      (Some (Errorf "failed to read response body: "
                               (Some (LibError msg)))))) /\
  (forall code respBody, last = Response code respBody ->
     fst run = Err (apiError (H:=Example.lib) code respBody)).
Proof.
  apply (doRequest_exhausted (H:=Example.lib)
           (Example.always (DoError "connection refused"))
           Example.client MethodGet "/api/v1/me"%string None noResult
           noUnmarshal []).
  - reflexivity.
  - intros k Hk. reflexivity.
  - intros k Hk. reflexivity.
Defined.

(** C2, as the specification has it, fails: six answers with status 503
    end in the API error itself, not in "max retries exceeded". *)
Lemma doRequest_exhausted_counterexample :
  let run := doRequest (H:=Example.lib) (Example.always (Response 503 ""))
               Example.client MethodGet "/api/v1/me" None noResult
               noUnmarshal [] in
  List.length (roundTrips (snd run)) = 6%nat /\
  IsRetryable (APIError 503 "" "") = true /\
  fst run = Err (APIError 503 "" "") /\
  (forall cause, fst run <> Err (Errorf "max retries exceeded: " cause)).
Proof.
  vm_compute. repeat split; congruence.
Qed.



(** C6. When the POST of a Create fails with status 409, the accessor
    returns the conflict error that names the resource kind, and the
    operation has sent nothing but that POST: no GET follows.  On every
    other path (Get, Update, Delete) an error of the request, a 409
    included, is returned as it is. *)
Theorem create_conflict `{Library} (w : World) (c : Client)
    (tr tr1 : Trace) (err : error) :
  IsConflict err = true ->
  (forall name description,
      doRequest w c MethodPost "/api/v1/projects"
        (Some (projectPayload c name description))
        (Some Project.zero) UnmarshalProject tr = (Err err, tr1) ->
      CreateProject w c name description tr
      = (Err (ConflictError "project"), tr1) /\
      Error (ConflictError "project")
      = "project already exists, use `terraform import` to manage it"%string /\
      exists evs respBody,
        tr1 = tr ++ evs /\
        onlyRequest (newRequest c MethodPost "/api/v1/projects"
                       (Some (projectPayload c name description))) evs /\
        answered w tr1 (newRequest c MethodPost "/api/v1/projects"
                          (Some (projectPayload c name description)))
          StatusConflict respBody) /\
  (forall req,
      doRequest w c MethodPost "/api/v1/checks" (Some (checkPayload req))
        (Some Check.zero) UnmarshalCheck tr = (Err err, tr1) ->
      CreateCheck w c req tr = (Err (ConflictError "check"), tr1) /\
      Error (ConflictError "check")
      = "check already exists, use `terraform import` to manage it"%string /\
      exists evs respBody,
        tr1 = tr ++ evs /\
        onlyRequest (newRequest c MethodPost "/api/v1/checks"
                       (Some (checkPayload req))) evs /\
        answered w tr1 (newRequest c MethodPost "/api/v1/checks"
                          (Some (checkPayload req)))
          StatusConflict respBody) /\
  (forall id,
      doRequest w c MethodGet ("/api/v1/projects/" ++ id) None
        (Some Project.zero) UnmarshalProject tr = (Err err, tr1) ->
      GetProject w c id tr = (Err err, tr1)) /\
  (forall id name description,
      doRequest w c MethodPut ("/api/v1/projects/" ++ id)
        (Some (projectUpdatePayload name description))
        noResult noUnmarshal tr = (Err err, tr1) ->
      UpdateProject w c id name description tr = (Err err, tr1)) /\
  (forall id,
      doRequest w c MethodDelete ("/api/v1/projects/" ++ id) None
        noResult noUnmarshal tr = (Err err, tr1) ->
      DeleteProject w c id tr = (Err err, tr1)) /\
  (forall id,
      doRequest w c MethodGet ("/api/v1/checks/" ++ id) None
        (Some Check.zero) UnmarshalCheck tr = (Err err, tr1) ->
      GetCheck w c id tr = (Err err, tr1)) /\
  (forall id req,
      doRequest w c MethodPut ("/api/v1/checks/" ++ id)
        (Some (checkUpdatePayload req))
        noResult noUnmarshal tr = (Err err, tr1) ->
      UpdateCheck w c id req tr = (Err err, tr1)) /\
  (forall id,
      doRequest w c MethodDelete ("/api/v1/checks/" ++ id) None
        noResult noUnmarshal tr = (Err err, tr1) ->
      DeleteCheck w c id tr = (Err err, tr1)).
Proof.
  intros Hconf.
  assert (Hpost : forall A path payload (result : option A) unmarshal,
             doRequest w c MethodPost path (Some payload) result unmarshal tr
             = (Err err, tr1) ->
             exists evs respBody,
               tr1 = tr ++ evs /\
               onlyRequest (newRequest c MethodPost path (Some payload)) evs /\
               answered w tr1 (newRequest c MethodPost path (Some payload))
                 StatusConflict respBody).
  { intros A path payload result unmarshal Hrun.
    destruct (doRequest_trace _ _ _ _ _ _ _ _ _ _ Hrun) as (evs & -> & Hreq).
    eapply doRequest_refused in Hrun; [| exact Hconf | reflexivity].
    destruct Hrun as (respBody & _ & _ & Hans). eauto. }
  split; [|split; [|repeat split]].
  - intros name description Hrun. split; [|split; [reflexivity|]].
    + unfold CreateProject. fold (projectPayload c name description).
      rewrite Hrun, Hconf. reflexivity.
    + eapply Hpost; eauto.
  - intros req Hrun. split; [|split; [reflexivity|]].
    + unfold CreateCheck. fold (checkPayload req). rewrite Hrun, Hconf.
      reflexivity.
    + eapply Hpost; eauto.
  - intros id Hrun. unfold GetProject, bind. rewrite Hrun. reflexivity.
  - intros id name description Hrun. unfold UpdateProject, bind.
    fold (projectUpdatePayload name description).
    rewrite Hrun. reflexivity.
  - intros id Hrun. unfold DeleteProject, bind. rewrite Hrun. reflexivity.
  - intros id Hrun. unfold GetCheck, bind. rewrite Hrun. reflexivity.
  - intros id req Hrun. unfold UpdateCheck, bind.
    fold (checkUpdatePayload req). rewrite Hrun. reflexivity.
  - intros id Hrun. unfold DeleteCheck, bind. rewrite Hrun. reflexivity.
Qed.

Lemma create_conflict_witness :
  let w := Example.always (Response 409 "") in
  let post := newRequest Example.client MethodPost "/api/v1/projects"
                (Some (projectPayload Example.client "Production" None)) in
  CreateProject (H:=Example.lib) w Example.client "Production" None []
  = (Err (ConflictError "project"), [EvRoundTrip post]) /\
  sent [EvRoundTrip post]
  = [("POST"%string, "https://api.pakyas.com/api/v1/projects"%string,
      Some [("org_id"%string, JString "org-1");
            ("name"%string, JString "Production")])].
Proof.
  intros w post.
  destruct (create_conflict (H:=Example.lib) w Example.client []
              [EvRoundTrip post] (APIError 409 "" "") eq_refl) as [Hp _].
  split; [|reflexivity].
  apply (Hp "Production"%string None). reflexivity.
Defined.

(** C7. A Read whose GET is answered 404 removes the resource from the
    tracked state and reports no error; a Delete whose DELETE is
    answered 404 reports no error; a Create or an Update that fails,
    with 404 as with any other error, reports an error and leaves the
    tracked state as it was. *)
Theorem not_found `{Library} (w : World) (c : Client)
    (tr tr1 : Trace) (err : error) :
  IsNotFound err = true ->
  (forall data,
      GetProject w c (ValueString (ProjectResource.ID data)) tr
      = (Err err, tr1) ->
      ProjectResource.Read w c data tr
      = ({| Diagnostics := []; State := RemoveResource |}, tr1) /\
      exists respBody,
        answered w tr1
          (newRequest c MethodGet
             ("/api/v1/projects/" ++ ValueString (ProjectResource.ID data))
             None)
          StatusNotFound respBody) /\
  (forall data,
      GetCheck w c (ValueString (CheckResource.ID data)) tr
      = (Err err, tr1) ->
      CheckResource.Read w c data tr
      = ({| Diagnostics := []; State := RemoveResource |}, tr1) /\
      exists respBody,
        answered w tr1
          (newRequest c MethodGet
             ("/api/v1/checks/" ++ ValueString (CheckResource.ID data)) None)
          StatusNotFound respBody) /\
  (forall data,
      DeleteProject w c (ValueString (ProjectResource.ID data)) tr
      = (Err err, tr1) ->
      ProjectResource.Delete w c data tr
      = ({| Diagnostics := []; State := Untouched |}, tr1)) /\
  (forall data,
      DeleteCheck w c (ValueString (CheckResource.ID data)) tr
      = (Err err, tr1) ->
      CheckResource.Delete w c data tr
      = ({| Diagnostics := []; State := Untouched |}, tr1)) /\
  (forall data state,
      UpdateProject w c (ValueString (ProjectResource.ID state))
        (fst (ProjectResource.changes data state))
        (snd (ProjectResource.changes data state)) tr = (Err err, tr1) ->
      ProjectResource.Update w c data state tr
      = ({| Diagnostics :=
              [{| Summary := "Error Updating Project";
                  Detail := "Could not update project, unexpected error: "
                            ++ Error err |}];
            State := Untouched |}, tr1)) /\
  (forall data state updateReq,
      CheckResource.updateRequest data state = inr updateReq ->
      UpdateCheck w c (ValueString (CheckResource.ID state)) updateReq tr
      = (Err err, tr1) ->
      CheckResource.Update w c data state tr
      = ({| Diagnostics :=
              [{| Summary := "Error Updating Check";
                  Detail := "Could not update check, unexpected error: "
                            ++ Error err |}];
            State := Untouched |}, tr1)) /\
  (forall data,
      CreateProject w c (ValueString (ProjectResource.Name data))
        (if negb (IsNull (ProjectResource.Description data))
            && negb (IsUnknown (ProjectResource.Description data))
         then Some (ValueString (ProjectResource.Description data))
         else None) tr = (Err err, tr1) ->
      ProjectResource.Create w c data tr
      = ({| Diagnostics :=
              [{| Summary := "Error Creating Project";
                  Detail := "Could not create project, unexpected error: "
                            ++ Error err |}];
            State := Untouched |}, tr1)) /\
  (forall data createReq,
      CheckResource.createRequest data = inr createReq ->
      CreateCheck w c createReq tr = (Err err, tr1) ->
      CheckResource.Create w c data tr
      = ({| Diagnostics :=
              [{| Summary := "Error Creating Check";
                  Detail := "Could not create check, unexpected error: "
                            ++ Error err |}];
            State := Untouched |}, tr1)).
Proof.
  intros Hnf.
  split; [|split; [|repeat split]].
  - intros data Hrun. split.
    + unfold ProjectResource.Read. rewrite Hrun, Hnf. reflexivity.
    + revert Hrun. unfold GetProject, bind, ret.
      destruct (doRequest _ _ _ _ _ _ _ tr) as [[v|e] tr2] eqn:Hget;
        intros E; [discriminate|]. injection E as -> ->.
      eapply doRequest_refused in Hget; [| exact Hnf | reflexivity].
      destruct Hget as (respBody & _ & _ & Hans). eauto.
  - intros data Hrun. split.
    + unfold CheckResource.Read. rewrite Hrun, Hnf. reflexivity.
    + revert Hrun. unfold GetCheck, bind, ret.
      destruct (doRequest _ _ _ _ _ _ _ tr) as [[v|e] tr2] eqn:Hget;
        intros E; [discriminate|]. injection E as -> ->.
      eapply doRequest_refused in Hget; [| exact Hnf | reflexivity].
      destruct Hget as (respBody & _ & _ & Hans). eauto.
  - intros data Hrun. unfold ProjectResource.Delete.
    rewrite Hrun, Hnf. reflexivity.
  - intros data Hrun. unfold CheckResource.Delete.
    rewrite Hrun, Hnf. reflexivity.
  - intros data state. unfold ProjectResource.Update.
    destruct (ProjectResource.changes data state) as [name description].
    simpl. intros ->. reflexivity.
  - intros data state updateReq Hreq Hrun. unfold CheckResource.Update.
    rewrite Hreq, Hrun. reflexivity.
  - intros data Hrun. unfold ProjectResource.Create.
    rewrite Hrun. reflexivity.
  - intros data createReq Hreq Hrun. unfold CheckResource.Create.
    rewrite Hreq, Hrun. reflexivity.
Qed.

Lemma not_found_witness :
  let w := Example.always (Response 404 "") in
  let get := newRequest Example.client MethodGet "/api/v1/projects/p-1" None in
  ProjectResource.Read (H:=Example.lib) w Example.client
    (Example.project Null) []
  = ({| Diagnostics := []; State := RemoveResource |}, [EvRoundTrip get]) /\
  exists respBody, answered w [EvRoundTrip get] get StatusNotFound respBody.
Proof.
  intros w get.
  destruct (not_found (H:=Example.lib) w Example.client []
              [EvRoundTrip get] (APIError 404 "" "") eq_refl) as [Hr _].
  apply (Hr (Example.project Null)). reflexivity.
Defined.


(** ** Payloads *)

Lemma field_app k (o1 o2 : jobject) :
  field k (o1 ++ o2)
  = match field k o1 with
    | Some v => Some v
    | None => field k o2
    end.
Proof.
  induction o1 as [|[k' v] o1 IH]; simpl; [reflexivity|].
  destruct (String.eqb k k'); auto.
Qed.

Lemma normalizeDescription_empty : normalizeDescription (Some ""%string) = None.
Proof. reflexivity. Qed.

Lemma normalizeDescription_some d :
  normalizeDescription (Some d) = Some d <-> d <> ""%string.
Proof.
  unfold normalizeDescription. destruct (String.eqb_spec d ""); split;
    congruence.
Qed.

(** What the update of a project sends for its description: the field
    is there exactly when the description changed to a known, non-empty
    string.  A description that is cleared is not sent. *)
Lemma project_description_sent (data state : ProjectResource.Model) v :
  field "description"
    (projectUpdatePayload (fst (ProjectResource.changes data state))
       (snd (ProjectResource.changes data state))) = Some v
  <-> exists d,
      ProjectResource.Description data = Known d /\ d <> ""%string /\
      StringEqual (ProjectResource.Description data)
        (ProjectResource.Description state) = false /\
      v = JString d.
Proof.
  unfold projectUpdatePayload, UpdateProjectRequest.marshal,
    ProjectResource.changes. cbn [fst snd UpdateProjectRequest.Name
    UpdateProjectRequest.Description].
  rewrite field_app.
  destruct (negb (StringEqual (ProjectResource.Name data)
                    (ProjectResource.Name state))); cbn [omitNil field];
    change (String.eqb "description" "name") with false; cbv iota.
  all: destruct (StringEqual (ProjectResource.Description data)
                   (ProjectResource.Description state)) eqn:Heq;
    cbn [negb];
    [ split; [discriminate | intros (d & _ & _ & ? & _); discriminate] |].
  all: destruct (ProjectResource.Description data) as [| |d] eqn:Hd;
    cbn [IsNull ValueString Value];
    try (rewrite normalizeDescription_empty; cbn;
         split; [discriminate | intros (d' & ? & _); discriminate]).
  all: unfold normalizeDescription; destruct (String.eqb_spec d "");
    cbn [omitNil field]; rewrite ?String.eqb_refl.
  all: split;
    [ try discriminate; intros [= <-]; exists d; auto
    | intros (d' & [= <-] & Hne & _ & ->); congruence ].
Qed.

(** The fields of the payload of a check update. *)
Lemma check_update_fields (req : UpdateCheckRequest.t) :
  field "name" (checkUpdatePayload req)
  = JString <$> UpdateCheckRequest.Name req /\
  field "period_seconds" (checkUpdatePayload req)
  = JInt <$> UpdateCheckRequest.PeriodSeconds req /\
  field "grace_seconds" (checkUpdatePayload req)
  = JInt <$> UpdateCheckRequest.GraceSeconds req /\
  field "description" (checkUpdatePayload req)
  = JString <$> normalizeDescription (UpdateCheckRequest.Description req) /\
  field "tags" (checkUpdatePayload req)
  = match normalizeTags (UpdateCheckRequest.Tags req) with
    | Some (x :: l) => Some (JStrings (x :: l))
    | _ => None
    end /\
  field "paused" (checkUpdatePayload req)
  = JBool <$> UpdateCheckRequest.Paused req.
Proof.
  unfold checkUpdatePayload, UpdateCheckRequest.marshal, normalizeUpdate.
  cbn [UpdateCheckRequest.Name UpdateCheckRequest.PeriodSeconds
       UpdateCheckRequest.GraceSeconds UpdateCheckRequest.Description
       UpdateCheckRequest.Tags UpdateCheckRequest.Paused].
  destruct (UpdateCheckRequest.Name req),
    (UpdateCheckRequest.PeriodSeconds req),
    (UpdateCheckRequest.GraceSeconds req),
    (normalizeDescription (UpdateCheckRequest.Description req)),
    (normalizeTags (UpdateCheckRequest.Tags req)) as [[|x l]|],
    (UpdateCheckRequest.Paused req);
    repeat split; reflexivity.
Qed.

(** The part of C4 that holds: a field is in the payload of a check
    update only if its desired value differs from the observed one, and
    name, period, grace and paused are in it whenever they differ. *)
Lemma check_update_only_changed `{Library} (data state : CheckResource.Model)
    (req : UpdateCheckRequest.t) :
  CheckResource.updateRequest data state = inr req ->
  (field "name" (checkUpdatePayload req) <> None <->
   StringEqual (CheckResource.Name data) (CheckResource.Name state) = false) /\
  (field "period_seconds" (checkUpdatePayload req) <> None <->
   Int64Equal (CheckResource.PeriodSeconds data)
     (CheckResource.PeriodSeconds state) = false) /\
  (field "grace_seconds" (checkUpdatePayload req) <> None <->
   Int64Equal (CheckResource.GraceSeconds data)
     (CheckResource.GraceSeconds state) = false) /\
  (field "paused" (checkUpdatePayload req) <> None <->
   BoolEqual (CheckResource.Paused data) (CheckResource.Paused state)
   = false) /\
  (field "description" (checkUpdatePayload req) <> None ->
   StringEqual (CheckResource.Description data)
     (CheckResource.Description state) = false) /\
  (field "tags" (checkUpdatePayload req) <> None ->
   SetEqual (CheckResource.Tags data) (CheckResource.Tags state) = false).
Proof.
  unfold CheckResource.updateRequest.
  destruct (if negb (SetEqual (CheckResource.Tags data)
                       (CheckResource.Tags state))
            then if negb (IsNull (CheckResource.Tags data))
                 then ElementsAs (CheckResource.Tags data)
                 else inr None
            else inr None) as [diags|tags] eqn:Htags; [discriminate|].
  intros [= <-].
  destruct (check_update_fields
              {| UpdateCheckRequest.Name :=
                   if negb (StringEqual (CheckResource.Name data)
                              (CheckResource.Name state))
                   then Some (ValueString (CheckResource.Name data))
                   else None;
                 UpdateCheckRequest.PeriodSeconds :=
                   if negb (Int64Equal (CheckResource.PeriodSeconds data)
                              (CheckResource.PeriodSeconds state))
                   then Some (ValueInt64 (CheckResource.PeriodSeconds data))
                   else None;
                 UpdateCheckRequest.GraceSeconds :=
                   if negb (Int64Equal (CheckResource.GraceSeconds data)
                              (CheckResource.GraceSeconds state))
                   then Some (ValueInt64 (CheckResource.GraceSeconds data))
                   else None;
                 UpdateCheckRequest.Description :=
                   if negb (StringEqual (CheckResource.Description data)
                              (CheckResource.Description state))
                   then if IsNull (CheckResource.Description data)
                        then Some ""%string
                        else Some (ValueString (CheckResource.Description data))
                   else None;
                 UpdateCheckRequest.Tags := tags;
                 UpdateCheckRequest.Paused :=
                   if negb (BoolEqual (CheckResource.Paused data)
                              (CheckResource.Paused state))
                   then Some (ValueBool (CheckResource.Paused data))
                   else None |})
    as (-> & -> & -> & -> & -> & ->).
  cbn [UpdateCheckRequest.Name UpdateCheckRequest.PeriodSeconds
       UpdateCheckRequest.GraceSeconds UpdateCheckRequest.Description
       UpdateCheckRequest.Tags UpdateCheckRequest.Paused].
  repeat split.
  all: try (destruct (StringEqual (CheckResource.Name data)
                        (CheckResource.Name state)); simpl; congruence).
  all: try (destruct (Int64Equal (CheckResource.PeriodSeconds data)
                        (CheckResource.PeriodSeconds state)); simpl;
            congruence).
  all: try (destruct (Int64Equal (CheckResource.GraceSeconds data)
                        (CheckResource.GraceSeconds state)); simpl;
            congruence).
  all: try (destruct (BoolEqual (CheckResource.Paused data)
                        (CheckResource.Paused state)); simpl; congruence).
  - destruct (StringEqual (CheckResource.Description data)
                (CheckResource.Description state)); simpl; congruence.
  - destruct (SetEqual (CheckResource.Tags data) (CheckResource.Tags state));
      [|reflexivity].
    simpl in Htags. injection Htags as <-. simpl. congruence.
Qed.

(** C1, evaluated.  The description of a project, and of a check, was
    ["old"] and is to be cleared: the PUT that goes out has an empty
    object as its payload, without a description field (the reconciler
    built the empty-string marker, and the accessor normalised it away). *)
Theorem clear_description_payload :
  let project := Example.project in
  let check := Example.check in
  ProjectResource.changes (project Null) (project (Known "old"))
  = (None, Some ""%string) /\
  sent (snd (ProjectResource.Update (H:=Example.lib)
               (Example.always (Response 200 "p-1")) Example.client
               (project Null) (project (Known "old")) []))
  = [("PUT"%string, "https://api.pakyas.com/api/v1/projects/p-1"%string,
      Some []);
     ("GET"%string, "https://api.pakyas.com/api/v1/projects/p-1"%string,
      None)] /\
  match CheckResource.updateRequest (H:=Example.lib)
          (check Null Null) (check (Known "old") Null) with
  | inr req => UpdateCheckRequest.Description req = Some ""%string
  | inl _ => False
  end /\
  sent (snd (CheckResource.Update (H:=Example.lib)
               (Example.always (Response 200 "c-1")) Example.client
               (check Null Null) (check (Known "old") Null) []))
  = [("PUT"%string, "https://api.pakyas.com/api/v1/checks/c-1"%string,
      Some []);
     ("GET"%string, "https://api.pakyas.com/api/v1/checks/c-1"%string,
      None)].
Proof. repeat split; reflexivity. Qed.

(** C4, evaluated.  The tags of a check were ["backup"] and are to be
    removed, nothing else changes: the desired tags differ from the
    observed ones, and the PUT that goes out has an empty object as its
    payload, without a tags field. *)
Theorem clear_tags_payload :
  let data := Example.check Null Null in
  let state := Example.check Null (Known [Known "backup"%string]) in
  SetEqual (CheckResource.Tags data) (CheckResource.Tags state) = false /\
  sent (snd (CheckResource.Update (H:=Example.lib)
               (Example.always (Response 200 "c-1")) Example.client
               data state []))
  = [("PUT"%string, "https://api.pakyas.com/api/v1/checks/c-1"%string,
      Some []);
     ("GET"%string, "https://api.pakyas.com/api/v1/checks/c-1"%string,
      None)].
Proof. repeat split; reflexivity. Qed.

(** ** Tags *)

Lemma normalizeTags_sorted (tags : slice string) :
  exists l,
    normalizeTags tags = Some l /\ Sorted string_le l /\
    l ≡ₚ default [] tags.
Proof.
  destruct tags as [l|]; simpl.
  - exists (sortStrings l). split; [reflexivity|].
    split; [apply sortStrings_sorted | apply sortStrings_perm].
  - exists []. split; [reflexivity|]. split; [constructor | reflexivity].
Qed.

Lemma fetchedCheck_tags `{Library} w c tr id ch :
  fetchedCheck w c tr id ch ->
  exists l, Check.Tags ch = Some l /\ Sorted string_le l.
Proof.
  intros (code & respBody & got & _ & _ & _ & ->). simpl.
  destruct (normalizeTags_sorted (Check.Tags got)) as (l & -> & Hs & _).
  eauto.
Qed.

Lemma mapCheckToModel_tags `{Library} c ch l :
  Check.Tags ch = Some l ->
  CheckResource.Tags (CheckResource.mapCheckToModel c ch)
  = match l with
    | [] => Null
    | _ :: _ => Known (List.map Known l)
    end.
Proof.
  intros Hl. unfold CheckResource.mapCheckToModel. simpl. rewrite Hl.
  destruct l; reflexivity.
Qed.

Lemma CreateCheck_fetched `{Library} w c req tr ch tr' :
  CreateCheck w c req tr = (Ok ch, tr') ->
  exists id, fetchedCheck w c tr' id ch.
Proof.
  unfold CreateCheck.
  destruct (doRequest _ _ _ _ _ _ _ tr) as [[v|e] tr1].
  - intros Hg. eexists. eapply GetCheck_ok; eauto.
  - destruct (IsConflict e); discriminate.
Qed.

Lemma UpdateCheck_fetched `{Library} w c id req tr ch tr' :
  UpdateCheck w c id req tr = (Ok ch, tr') -> fetchedCheck w c tr' id ch.
Proof.
  unfold UpdateCheck, bind.
  destruct (doRequest _ _ _ _ _ _ _ tr) as [[v|e] tr1]; [|discriminate].
  apply GetCheck_ok.
Qed.

(** ** What [resp.State.Set] accepts *)

Lemma duplicateElements_nodup `{Library} (l : list string) :
  CheckResource.duplicateElements (List.map Known l) = [] -> NoDup l.
Proof.
  induction l as [|s l IH]; simpl; intros Hd; [constructor|].
  apply app_eq_nil in Hd as [Hhead Hrest].
  constructor; [|auto].
  intros Hin. apply list_elem_of_In in Hin.
  apply map_eq_nil in Hhead.
  assert (Hf : List.In (Known s)
                 (List.filter (StringEqual (Known s)) (List.map Known l))).
  { apply List.filter_In. split.
    - apply List.in_map. exact Hin.
    - simpl. apply String.eqb_refl. }
  rewrite Hhead in Hf. destruct Hf.
Qed.

Lemma duplicateElements_nil `{Library} (l : list string) :
  NoDup l -> CheckResource.duplicateElements (List.map Known l) = [].
Proof.
  induction 1 as [|s l Hnot _ IH]; simpl; [reflexivity|].
  rewrite IH, app_nil_r.
  replace (List.filter (StringEqual (Known s)) (List.map Known l))
    with (@nil (attr string)); [reflexivity|].
  symmetry. clear IH. induction l as [|t l IHl]; simpl; [reflexivity|].
  destruct (String.eqb_spec s t) as [->|Hne].
  - exfalso. apply Hnot. left.
  - apply IHl. intros Hin. apply Hnot. now right.
Qed.

(** The model is written exactly when its tags hold no element twice;
    otherwise there is a diagnostic and the state stays. *)
Lemma StateSet_written `{Library} (c : Client) (ch : Check.t)
    (l : list string) (m : CheckResource.Model) :
  Check.Tags ch = Some l ->
  State (CheckResource.StateSet (CheckResource.mapCheckToModel c ch))
  = Set_ m ->
  m = CheckResource.mapCheckToModel c ch /\
  Diagnostics (CheckResource.StateSet (CheckResource.mapCheckToModel c ch))
  = [] /\
  NoDup l.
Proof.
  intros Hl. unfold CheckResource.StateSet.
  assert (Ht : CheckResource.Tags (CheckResource.mapCheckToModel c ch)
               = match l with
                 | [] => Null
                 | _ :: _ => Known (List.map Known l)
                 end).
  { unfold CheckResource.mapCheckToModel. simpl. rewrite Hl.
    destruct l; reflexivity. }
  rewrite Ht. destruct l as [|t ts].
  - intros [= <-]. repeat split. constructor.
  - destruct (CheckResource.duplicateElements (List.map Known (t :: ts)))
      as [|d ds] eqn:Hd; [|discriminate].
    intros [= <-]. repeat split. now apply duplicateElements_nodup.
Qed.

Lemma StateSet_refused `{Library} (c : Client) (ch : Check.t)
    (l : list string) :
  Check.Tags ch = Some l ->
  ~ NoDup l ->
  State (CheckResource.StateSet (CheckResource.mapCheckToModel c ch))
  = Untouched /\
  Diagnostics (CheckResource.StateSet (CheckResource.mapCheckToModel c ch))
  <> [].
Proof.
  intros Hl Hdup. unfold CheckResource.StateSet.
  assert (Ht : CheckResource.Tags (CheckResource.mapCheckToModel c ch)
               = match l with
                 | [] => Null
                 | _ :: _ => Known (List.map Known l)
                 end).
  { unfold CheckResource.mapCheckToModel. simpl. rewrite Hl.
    destruct l; reflexivity. }
  rewrite Ht. destruct l as [|t ts].
  - exfalso. apply Hdup. constructor.
  - destruct (CheckResource.duplicateElements (List.map Known (t :: ts)))
      as [|d ds] eqn:Hd.
    + exfalso. apply Hdup. now apply duplicateElements_nodup.
    + split; [reflexivity | discriminate].
Qed.

(** An operation that writes the state of a check writes the mapping of
    the check its last GET fetched, with no diagnostic, and that check
    lists no tag twice. *)
Lemma check_written `{Library} (w : World) (c : Client)
    (tr tr' : Trace) (resp : Resp CheckResource.Model)
    (m : CheckResource.Model) :
  writesCheck w c tr resp tr' ->
  State resp = Set_ m ->
  Diagnostics resp = [] /\
  exists id ch l,
    fetchedCheck w c tr' id ch /\
    Check.Tags ch = Some l /\ Sorted string_le l /\ NoDup l /\
    m = CheckResource.mapCheckToModel c ch.
Proof.
  intros Hop Hstate.
  assert (Hfetch : exists id ch,
             fetchedCheck w c tr' id ch /\
             resp = CheckResource.StateSet
                      (CheckResource.mapCheckToModel c ch)).
  { destruct Hop as [[data Hrun] | [[data Hrun] | [data [state Hrun]]]].
    - unfold CheckResource.Create in Hrun.
      destruct (CheckResource.createRequest data) as [diags|createReq].
      + injection Hrun as <- <-. discriminate.
      + destruct (CreateCheck w c createReq tr) as [[ch|e] tr1] eqn:Hc;
          injection Hrun as <- <-; [|discriminate].
        destruct (CreateCheck_fetched _ _ _ _ _ _ Hc) as [id Hf]. eauto.
    - unfold CheckResource.Read in Hrun.
      destruct (GetCheck w c _ tr) as [[ch|e] tr1] eqn:Hc.
      + injection Hrun as <- <-. apply GetCheck_ok in Hc. eauto.
      + destruct (IsNotFound e); injection Hrun as <- <-; discriminate.
    - unfold CheckResource.Update in Hrun.
      destruct (CheckResource.updateRequest data state)
        as [diags|updateReq].
      + injection Hrun as <- <-. discriminate.
      + destruct (UpdateCheck w c _ updateReq tr) as [[ch|e] tr1] eqn:Hc;
          injection Hrun as <- <-; [|discriminate].
        apply UpdateCheck_fetched in Hc. eauto. }
  destruct Hfetch as (id & ch & Hf & ->).
  destruct (fetchedCheck_tags _ _ _ _ _ Hf) as (l & Hl & Hs).
  destruct (StateSet_written c ch l m Hl Hstate) as (-> & Hd & Hnd).
  split; [exact Hd|]. exists id, ch, l. auto.
Qed.

(** C3, as the code has it.  [CreateCheck] and [UpdateCheck] send the
    declared tags sorted, having turned an absent list into an empty one
    that is not nil; the payload of a create carries the sorted tags when
    there is at least one and has no tags field otherwise; the payload of
    an update carries the sorted tags when there is at least one, and a
    tags field it has is the sorted tags; [GetCheck] returns, sorted and
    not nil, the tags of the answer it decoded; the tracked state that an
    operation writes holds the sorted tags of the answer to its last GET
    when there is at least one, and a null set when there is none, and
    it is written only when that answer lists no tag twice. *)
Theorem tags_sorted `{Library} (w : World) (c : Client) (tr tr' : Trace) :
  (forall req, exists l,
      CreateCheckRequest.Tags (normalizeCreate req) = Some l /\
      Sorted string_le l /\
      l ≡ₚ default [] (CreateCheckRequest.Tags req) /\
      field "tags" (checkPayload req)
      = match l with
        | [] => None
        | _ :: _ => Some (JStrings l)
        end) /\
  (forall req, exists l,
      UpdateCheckRequest.Tags (normalizeUpdate req) = Some l /\
      Sorted string_le l /\
      l ≡ₚ default [] (UpdateCheckRequest.Tags req) /\
      (forall v, field "tags" (checkUpdatePayload req) = Some v ->
                 v = JStrings l) /\
      (l <> [] -> field "tags" (checkUpdatePayload req) = Some (JStrings l))) /\
  (forall id ch,
      GetCheck w c id tr = (Ok ch, tr') ->
      exists code respBody got l,
        answered w tr'
          (newRequest c MethodGet ("/api/v1/checks/" ++ id) None)
          code respBody /\
        code < 400 /\
        decoded (Some Check.zero) UnmarshalCheck respBody (Some got) /\
        Check.Tags ch = Some l /\
        Sorted string_le l /\
        l ≡ₚ default [] (Check.Tags got)) /\
  (forall resp m,
      (exists data, CheckResource.Create w c data tr = (resp, tr')) \/
      (exists data, CheckResource.Read w c data tr = (resp, tr')) \/
      (exists data state,
          CheckResource.Update w c data state tr = (resp, tr')) ->
      State resp = Set_ m ->
      exists id code respBody got l,
        answered w tr'
          (newRequest c MethodGet ("/api/v1/checks/" ++ id) None)
          code respBody /\
        code < 400 /\
        decoded (Some Check.zero) UnmarshalCheck respBody (Some got) /\
        Sorted string_le l /\
        l ≡ₚ default [] (Check.Tags got) /\
        NoDup l /\
        CheckResource.Tags m
        = match l with
          | [] => Null
          | _ :: _ => Known (List.map Known l)
          end).
Proof.
  assert (Hfetched : forall tr1 id ch,
             fetchedCheck w c tr1 id ch ->
             exists code respBody got l,
               answered w tr1
                 (newRequest c MethodGet ("/api/v1/checks/" ++ id) None)
                 code respBody /\
               code < 400 /\
               decoded (Some Check.zero) UnmarshalCheck respBody (Some got) /\
               Check.Tags ch = Some l /\
               Sorted string_le l /\
               l ≡ₚ default [] (Check.Tags got)).
  { intros tr1 id ch (code & respBody & got & Hans & Hcode & Hdec & ->).
    destruct (normalizeTags_sorted (Check.Tags got)) as (l & Hl & Hs & Hp).
    exists code, respBody, got, l. repeat split; auto. }
  split; [|split; [|split]].
  - intros req.
    destruct (normalizeTags_sorted (CreateCheckRequest.Tags req))
      as (l & Hl & Hs & Hp).
    exists l. repeat split; auto.
    unfold checkPayload, CreateCheckRequest.marshal, normalizeCreate.
    cbn [CreateCheckRequest.ProjectID CreateCheckRequest.Name
         CreateCheckRequest.Slug CreateCheckRequest.PeriodSeconds
         CreateCheckRequest.GraceSeconds CreateCheckRequest.Description
         CreateCheckRequest.Tags CreateCheckRequest.Paused].
    rewrite Hl. unfold omitZero.
    destruct (CreateCheckRequest.GraceSeconds req =? 0),
      (normalizeDescription (CreateCheckRequest.Description req)),
      l, (CreateCheckRequest.Paused req); reflexivity.
  - intros req.
    destruct (normalizeTags_sorted (UpdateCheckRequest.Tags req))
      as (l & Hl & Hs & Hp).
    exists l.
    destruct (check_update_fields req) as (_ & _ & _ & _ & Hf & _).
    rewrite Hl in Hf. rewrite Hf.
    split; [exact Hl|]. split; [exact Hs|]. split; [exact Hp|].
    split.
    + intros v. destruct l; congruence.
    + intros Hne. destruct l; [contradiction | reflexivity].
  - intros id ch Hrun. eapply Hfetched, GetCheck_ok; eauto.
  - intros resp m Hop Hstate.
    destruct (check_written w c tr tr' resp m Hop Hstate)
      as (_ & id & ch & l0 & Hf & Hl0 & _ & Hnd & ->).
    destruct (Hfetched tr' id ch Hf)
      as (code & respBody & got & l & Hans & Hcode & Hdec & Hl & Hs & Hp).
    assert (l0 = l) as -> by congruence.
    exists id, code, respBody, got, l. repeat split; auto.
    now apply mapCheckToModel_tags.
Qed.

Lemma tags_sorted_witness :
  let w := Example.always (Response 200 "c-1") in
  let run := CheckResource.Read (H:=MoreExamples.tagged) w Example.client
               (Example.check Null Null) [] in
  exists m,
    State (fst run) = Set_ m /\
    CheckResource.Tags m
    = Known [Known "backup"%string; Known "database"%string].
Proof.
  intros w run.
  pose (m := CheckResource.mapCheckToModel (H:=MoreExamples.tagged)
               Example.client
               (Check.withTags (Example.checkWithID Check.zero "c-1")
                  (Some ["backup"; "database"]%string))).
  destruct (tags_sorted (H:=MoreExamples.tagged) w Example.client []
              (snd run)) as (_ & _ & _ & Hstate).
  destruct (Hstate (fst run) m) as (id & code & respBody & got & l & _).
  - right. left. exists (Example.check Null Null). reflexivity.
  - reflexivity.
  - exists m. split; reflexivity.
Defined.

(** C3, as the specification has it, fails: when no tags are declared,
    the payload of the create has no tags field, and the tracked state
    that a read leaves holds a null set, not an empty sequence. *)
Lemma tags_sorted_counterexample :
  let w := Example.always (Response 200 "c-1") in
  let data := Example.check Null Null in
  (exists payload,
      sent (snd (CheckResource.Create (H:=Example.lib) w Example.client
                   data []))
      = [("POST"%string, "https://api.pakyas.com/api/v1/checks"%string,
          Some payload);
         ("GET"%string, "https://api.pakyas.com/api/v1/checks/c-1"%string,
          None)] /\
      field "tags" payload = None) /\
  (exists m,
      State (fst (CheckResource.Read (H:=Example.lib) w Example.client
                    data []))
      = Set_ m /\
      CheckResource.Tags m = Null).
Proof.
  split.
  - eexists. split; reflexivity.
  - eexists. split; reflexivity.
Qed.

(** * Further properties *)

(** ** The retry loop, forwards *)

Section Forward.
Context `{Library} {A : Type}.
Variables (w : World) (c : Client) (method path : string)
          (body : option jobject) (result : option A)
          (unmarshal : string -> A -> option A).

Local Abbreviation req := (newRequest c method path body).
Local Abbreviation loop := (attempts w c method path body result unmarshal).

(** [k] iterations whose round trips fail in a way that is retried,
    with no back-off cancelled, lead to iteration [attempt + k]. *)
Lemma attempts_skip k :
  forall n attempt lastErr tr r tr',
    loop (k + n) attempt lastErr tr = (r, tr') ->
    (attempt + k <= MaxRetries)%nat ->
    NewRequestErr w method (url req) = None ->
    (forall j, (j < waits attempt k)%nat ->
               ctxDone w (List.length (timers tr) + j) = None) ->
    (forall j, (j < k)%nat ->
               retryable (roundTrip w (List.length (roundTrips tr) + j) req)
               = true) ->
    exists lastErr' evs,
      loop n (attempt + k) lastErr' (tr ++ evs) = (r, tr') /\
      onlyRequest req evs /\
      List.length (roundTrips (tr ++ evs))
      = (List.length (roundTrips tr) + k)%nat /\
      List.length (timers (tr ++ evs))
      = (List.length (timers tr) + waits attempt k)%nat.
Proof.
  induction k as [|k IH];
    intros n attempt lastErr tr r tr' Hrun Ha Hnew Hctx Hfail.
  - exists lastErr, []. rewrite app_nil_r, !Nat.add_0_r.
    repeat split; auto; [constructor|].
    destruct attempt; simpl; lia.
  - cbn [Nat.add] in Hrun. apply attempts_iteration in Hrun.
    pose proof (Hfail 0%nat ltac:(lia)) as Hfail0.
    rewrite Nat.add_0_r in Hfail0.
    destruct Hrun as [msg Hpos Hc _ _ | pre -> Hc0 _ Hs | pre msg _ Hb _ _];
      [ | | congruence].
    { destruct attempt as [|a]; [lia|].
      specialize (Hctx 0%nat ltac:(simpl; lia)).
      rewrite Nat.add_0_r in Hctx. congruence. }
    set (pre := if (0 <? attempt)%nat then _ else _) in Hs.
    assert (Hrt : List.length (roundTrips (tr ++ pre ++ [EvRoundTrip req]))
                  = S (List.length (roundTrips tr))).
    { rewrite !roundTrips_app, !length_app.
      unfold pre. rewrite roundTrips_pre. simpl. lia. }
    assert (Htm : List.length (timers (tr ++ pre ++ [EvRoundTrip req]))
                  = (List.length (timers tr) + waits attempt 1)%nat).
    { rewrite !timers_app, !length_app.
      unfold pre. destruct attempt; simpl; lia. }
    assert (Hpre : onlyRequest req (pre ++ [EvRoundTrip req])).
    { unfold onlyRequest, pre.
      destruct (0 <? attempt)%nat; repeat constructor. }
    assert (Hw : waits attempt (S k) = (waits attempt 1 + k)%nat).
    { destruct attempt; simpl; lia. }
    clearbody pre.
    destruct Hs as [e Hret Hnext
                   | code respBody Ho Hcode Hwhy _ _
                   | code respBody v Ho Hcode _ _ _
                   | code respBody Ho Hcode _ _].
    + apply IH in Hnext; auto; try lia.
      * destruct Hnext as (lastErr' & evs & Hrun & Hreq & Hlen & Htim).
        exists lastErr', ((pre ++ [EvRoundTrip req]) ++ evs).
        replace (attempt + S k)%nat with (S attempt + k)%nat by lia.
        replace (tr ++ (pre ++ [EvRoundTrip req]) ++ evs)
          with ((tr ++ pre ++ [EvRoundTrip req]) ++ evs)
          by (rewrite <- !app_assoc; reflexivity).
        split; [exact Hrun|].
        split; [apply Forall_app; split; assumption|].
        rewrite Hlen, Htim, Hrt, Htm, Hw. simpl. lia.
      * intros j Hj. rewrite Htm.
        replace (List.length (timers tr) + waits attempt 1 + j)%nat
          with (List.length (timers tr) + (waits attempt 1 + j))%nat by lia.
        apply Hctx. rewrite Hw. simpl in Hj. lia.
      * intros j Hj. rewrite Hrt.
        replace (S (List.length (roundTrips tr)) + j)%nat
          with (List.length (roundTrips tr) + S j)%nat by lia.
        apply Hfail. lia.
    + rewrite Ho in Hfail0. simpl in Hfail0.
      apply andb_true_iff in Hfail0 as [_ Hretry].
      destruct Hwhy as [Hno | Hlast]; [congruence | lia].
    + rewrite Ho in Hfail0. simpl in Hfail0.
      apply andb_true_iff in Hfail0 as [Hge _]. apply Z.leb_le in Hge. lia.
    + rewrite Ho in Hfail0. simpl in Hfail0.
      apply andb_true_iff in Hfail0 as [Hge _]. apply Z.leb_le in Hge. lia.
Qed.


(** The iteration whose back-off is cancelled. *)
Lemma attempts_cancel n attempt lastErr tr msg :
  (0 < attempt)%nat ->
  ctxDone w (List.length (timers tr)) = Some msg ->
  loop (S n) attempt lastErr tr
  = (Err (LibError msg),
     tr ++ [EvCancelled attempt
              (retryDelay (Int63 w (List.length (timers tr))) attempt)]).
Proof.
  intros Hpos Hctx. cbn [attempts].
  apply Nat.ltb_lt in Hpos. rewrite Hpos, Hctx. reflexivity.
Qed.

(** The trace on which the request of an iteration goes out. *)
Lemma attempts_send n attempt lastErr tr :
  ((0 < attempt)%nat -> ctxDone w (List.length (timers tr)) = None) ->
  NewRequestErr w method (url req) = None ->
  exists pre,
    roundTrips pre = [] /\
    List.length (timers pre) = waits attempt 1 /\
    loop (S n) attempt lastErr tr
    = match roundTrip w (List.length (roundTrips tr)) req with
      | DoError msg =>
          loop n (S attempt) (Some (LibError msg))
            (tr ++ pre ++ [EvRoundTrip req])
      | ReadError msg =>
          loop n (S attempt)
            (Some (Errorf "failed to read response body: "
                     (Some (LibError msg))))
            (tr ++ pre ++ [EvRoundTrip req])
      | Response code respBody =>
          if 400 <=? code then
            if IsRetryable (apiError code respBody)
               && (attempt <? MaxRetries)%nat
            then loop n (S attempt) (Some (apiError code respBody))
                   (tr ++ pre ++ [EvRoundTrip req])
            else (Err (apiError code respBody),
                  tr ++ pre ++ [EvRoundTrip req])
          else
            match result with
            | Some r0 =>
                if (0 <? String.length respBody)%nat then
                  match unmarshal respBody r0 with
                  | Some r' => (Ok (Some r'), tr ++ pre ++ [EvRoundTrip req])
                  | None =>
                      (Err (Errorf "failed to parse response: "
                              (Some (LibError (UnmarshalError respBody)))),
                       tr ++ pre ++ [EvRoundTrip req])
                  end
                else (Ok (Some r0), tr ++ pre ++ [EvRoundTrip req])
            | None => (Ok None, tr ++ pre ++ [EvRoundTrip req])
            end
      end.
Proof.
  intros Hctx Hnew. cbn [attempts].
  destruct (0 <? attempt)%nat eqn:Hpos.
  - apply Nat.ltb_lt in Hpos. rewrite (Hctx Hpos), Hnew.
    eexists [EvBackoff attempt _]. split; [reflexivity|].
    split; [destruct attempt; [lia | reflexivity]|].
    rewrite roundTrips_app, app_nil_r, <- app_assoc. reflexivity.
  - rewrite Hnew. exists []. split; [reflexivity|].
    apply Nat.ltb_ge in Hpos.
    split; [destruct attempt; [reflexivity | lia]|]. reflexivity.
Qed.

End Forward.

(** A first round trip that is answered with a status of 400 or more
    that is not retried ends the call with the error of that answer. *)
Lemma doRequest_first_refused `{Library} {A : Type} (w : World) (c : Client)
    (method path : string) (body : option jobject) (result : option A)
    (unmarshal : string -> A -> option A) (tr : Trace)
    (code : Z) (respBody : string) :
  NewRequestErr w method (url (newRequest c method path body)) = None ->
  roundTrip w (List.length (roundTrips tr)) (newRequest c method path body)
  = Response code respBody ->
  400 <= code ->
  IsRetryable (apiError code respBody) = false ->
  doRequest w c method path body result unmarshal tr
  = (Err (apiError code respBody),
     tr ++ [EvRoundTrip (newRequest c method path body)]).
Proof.
  intros Hnew Hans Hcode Hretry. apply Z.leb_le in Hcode.
  unfold doRequest. cbn [attempts].
  change (0 <? 0)%nat with false. cbv iota.
  rewrite Hnew, Hans, Hcode, Hretry. reflexivity.
Qed.

(** A first round trip that is answered below 400 ends the call with
    the decoded answer. *)
Lemma doRequest_first_ok `{Library} {A : Type} (w : World) (c : Client)
    (method path : string) (body : option jobject) (result : option A)
    (unmarshal : string -> A -> option A) (tr : Trace)
    (code : Z) (respBody : string) (r : option A) :
  NewRequestErr w method (url (newRequest c method path body)) = None ->
  roundTrip w (List.length (roundTrips tr)) (newRequest c method path body)
  = Response code respBody ->
  code < 400 ->
  decoded result unmarshal respBody r ->
  doRequest w c method path body result unmarshal tr
  = (Ok r, tr ++ [EvRoundTrip (newRequest c method path body)]).
Proof.
  intros Hnew Hans Hcode Hdec. apply Z.ltb_lt in Hcode.
  unfold doRequest. cbn [attempts].
  change (0 <? 0)%nat with false. cbv iota.
  rewrite Hnew, Hans, Z.leb_antisym, Hcode. cbn [negb].
  unfold decoded in Hdec. destruct result as [r0|]; [|now subst].
  destruct (0 <? String.length respBody)%nat.
  - destruct Hdec as (r' & -> & ->). reflexivity.
  - now subst.
Qed.

(** A call whose first [k] round trips fail in a way that is retried
    reaches iteration [k] of its loop. *)
Lemma doRequest_skip `{Library} {A : Type} (w : World) (c : Client)
    (method path : string) (body : option jobject) (result : option A)
    (unmarshal : string -> A -> option A) (tr : Trace) (k : nat) :
  (k <= MaxRetries)%nat ->
  NewRequestErr w method (url (newRequest c method path body)) = None ->
  (forall j, (j < Nat.pred k)%nat ->
             ctxDone w (List.length (timers tr) + j) = None) ->
  (forall j, (j < k)%nat ->
             retryable (roundTrip w (List.length (roundTrips tr) + j)
                          (newRequest c method path body)) = true) ->
  exists lastErr evs,
    doRequest w c method path body result unmarshal tr
    = attempts w c method path body result unmarshal
        (S (MaxRetries - k)) k lastErr (tr ++ evs) /\
    List.length (roundTrips (tr ++ evs))
    = (List.length (roundTrips tr) + k)%nat /\
    List.length (timers (tr ++ evs))
    = (List.length (timers tr) + Nat.pred k)%nat.
Proof.
  intros Hk Hnew Hctx Hfail. unfold doRequest.
  destruct (attempts w c method path body result unmarshal
              (S MaxRetries) 0 None tr) as [r tr'] eqn:Hrun.
  replace (S MaxRetries) with (k + S (MaxRetries - k))%nat in Hrun by lia.
  apply attempts_skip in Hrun; auto.
  destruct Hrun as (lastErr & evs & Hrun & _ & Hlen & Htim).
  exists lastErr, evs. change (0 + k)%nat with k in Hrun.
  rewrite Hrun. auto.
Qed.

(** Recovery.  When the first [k <= 5] round trips of a call fail in a
    way that is retried, no back-off is cancelled, and the next round
    trip is answered below 400 with a body that decodes, the call
    succeeds with the decoded answer after [k + 1] round trips and [k]
    back-offs. *)
Theorem doRequest_recovers `{Library} {A : Type} (w : World) (c : Client)
    (method path : string) (body : option jobject) (result : option A)
    (unmarshal : string -> A -> option A) (tr : Trace) (k : nat)
    (code : Z) (respBody : string) :
  let req := newRequest c method path body in
  let run := doRequest w c method path body result unmarshal tr in
  (k <= MaxRetries)%nat ->
  NewRequestErr w method (url req) = None ->
  (forall j, (j < k)%nat -> ctxDone w (List.length (timers tr) + j) = None) ->
  (forall j, (j < k)%nat ->
             retryable (roundTrip w (List.length (roundTrips tr) + j) req)
             = true) ->
  roundTrip w (List.length (roundTrips tr) + k) req
  = Response code respBody ->
  code < 400 ->
  decodes result unmarshal respBody ->
  exists v,
    fst run = Ok v /\
    decoded result unmarshal respBody v /\
    List.length (roundTrips (snd run))
    = (List.length (roundTrips tr) + k + 1)%nat /\
    List.length (timers (snd run)) = (List.length (timers tr) + k)%nat.
Proof.
  intros req run Hk Hnew Hctx Hfail Hans Hcode Hdec.
  destruct (doRequest_skip w c method path body result unmarshal tr k)
    as (lastErr & evs & Hrun & Hlen & Htim); auto.
  { intros j Hj. apply Hctx. lia. }
  destruct (attempts_send w c method path body result unmarshal
              (MaxRetries - k) k lastErr (tr ++ evs))
    as (pre & Hrt & Htm & Hstep); auto.
  { intros Hpos. rewrite Htim.
    apply Hctx. lia. }
  rewrite Hlen in Hstep. fold req in Hstep. rewrite Hans in Hstep.
  apply Z.ltb_lt in Hcode. rewrite Z.leb_antisym, Hcode in Hstep.
  cbn [negb] in Hstep.
  assert (Hcount :
            List.length (roundTrips ((tr ++ evs) ++ pre ++ [EvRoundTrip req]))
            = (List.length (roundTrips tr) + k + 1)%nat /\
            List.length (timers ((tr ++ evs) ++ pre ++ [EvRoundTrip req]))
            = (List.length (timers tr) + k)%nat).
  { rewrite !roundTrips_app, !timers_app, !length_app in *.
    rewrite Hrt, Htm. simpl. destruct k; simpl in *; lia. }
  unfold run. rewrite Hrun, Hstep. unfold decoded.
  destruct result as [r0|].
  - destruct (0 <? String.length respBody)%nat eqn:Hlenb.
    + destruct (unmarshal respBody r0) as [r'|] eqn:Hun.
      * exists (Some r'). simpl. split; [reflexivity|]. split; eauto.
      * exfalso. apply (Hdec r0 eq_refl); auto. now apply Nat.ltb_lt.
    + exists (Some r0). simpl. auto.
  - exists None. simpl. auto.
Qed.

Lemma doRequest_recovers_witness :
  let w := MoreExamples.after 3 (Response 503 "") (Response 200 "p-1") in
  let run := doRequest (H:=Example.lib) w Example.client MethodGet
               "/api/v1/projects/p-1" None (Some Project.zero)
               (UnmarshalProject (Library:=Example.lib)) [] in
  exists v,
    fst run = Ok v /\
    decoded (Some Project.zero) (UnmarshalProject (Library:=Example.lib))
      "p-1" v /\
    List.length (roundTrips (snd run)) = 4%nat /\
    List.length (timers (snd run)) = 3%nat.
Proof.
  intros w run.
  apply (doRequest_recovers (H:=Example.lib) w Example.client MethodGet
           "/api/v1/projects/p-1"%string None (Some Project.zero)
           (UnmarshalProject (Library:=Example.lib)) [] 3 200 "p-1"%string).
  - unfold MaxRetries. lia.
  - reflexivity.
  - intros j Hj. reflexivity.
  - intros j Hj. simpl.
    destruct j as [|[|[|j]]]; [reflexivity | reflexivity | reflexivity | lia].
  - reflexivity.
  - lia.
  - intros r0 _ _. discriminate.
Defined.

(** Refusal.  When the first [k <= 5] round trips of a call fail in a
    way that is retried and the next one is answered with a status from
    400 on that is neither 429 nor 5xx, the call returns that API error
    at once: [k + 1] round trips, no further back-off. *)
Theorem doRequest_terminal `{Library} {A : Type} (w : World) (c : Client)
    (method path : string) (body : option jobject) (result : option A)
    (unmarshal : string -> A -> option A) (tr : Trace) (k : nat)
    (code : Z) (respBody : string) :
  let req := newRequest c method path body in
  let run := doRequest w c method path body result unmarshal tr in
  (k <= MaxRetries)%nat ->
  NewRequestErr w method (url req) = None ->
  (forall j, (j < k)%nat -> ctxDone w (List.length (timers tr) + j) = None) ->
  (forall j, (j < k)%nat ->
             retryable (roundTrip w (List.length (roundTrips tr) + j) req)
             = true) ->
  roundTrip w (List.length (roundTrips tr) + k) req
  = Response code respBody ->
  400 <= code < 500 ->
  code <> StatusTooManyRequests ->
  fst run = Err (apiError code respBody) /\
  List.length (roundTrips (snd run))
  = (List.length (roundTrips tr) + k + 1)%nat /\
  List.length (timers (snd run)) = (List.length (timers tr) + k)%nat.
Proof.
  intros req run Hk Hnew Hctx Hfail Hans Hcode Hne.
  destruct (doRequest_skip w c method path body result unmarshal tr k)
    as (lastErr & evs & Hrun & Hlen & Htim); auto.
  { intros j Hj. apply Hctx. lia. }
  destruct (attempts_send w c method path body result unmarshal
              (MaxRetries - k) k lastErr (tr ++ evs))
    as (pre & Hrt & Htm & Hstep); auto.
  { intros Hpos. rewrite Htim. apply Hctx. lia. }
  rewrite Hlen in Hstep. fold req in Hstep. rewrite Hans in Hstep.
  assert (Hge : (400 <=? code) = true) by (apply Z.leb_le; lia).
  assert (Hnr : IsRetryable (apiError code respBody) = false).
  { unfold IsRetryable, statusIs, apiError. simpl.
    apply orb_false_iff. split; [apply Z.eqb_neq; exact Hne|].
    apply Z.leb_gt. lia. }
  rewrite Hge, Hnr in Hstep. cbn [andb] in Hstep.
  unfold run. rewrite Hrun, Hstep. simpl. split; [reflexivity|].
  rewrite !roundTrips_app, !timers_app, !length_app in *.
  rewrite Hrt, Htm. simpl. destruct k; simpl in *; lia.
Qed.

Lemma doRequest_terminal_witness :
  let w := MoreExamples.after 1 (Response 503 "") (Response 403 "") in
  let run := doRequest (H:=Example.lib) w Example.client MethodDelete
               "/api/v1/checks/c-1" None noResult noUnmarshal [] in
  fst run = Err (apiError (H:=Example.lib) 403 "") /\
  List.length (roundTrips (snd run)) = 2%nat /\
  List.length (timers (snd run)) = 1%nat.
Proof.
  intros w run.
  apply (doRequest_terminal (H:=Example.lib) w Example.client MethodDelete
           "/api/v1/checks/c-1"%string None noResult noUnmarshal [] 1 403
           ""%string).
  - unfold MaxRetries. lia.
  - reflexivity.
  - intros j Hj. reflexivity.
  - intros j Hj. destruct j; [reflexivity | lia].
  - reflexivity.
  - lia.
  - unfold StatusTooManyRequests. lia.
Defined.

(** Cancellation.  When the context is done during the back-off that
    follows [k] failed round trips ([1 <= k <= 5]), the call returns the
    context's error as it is, not a retry error, and sends nothing more. *)
Theorem doRequest_cancelled `{Library} {A : Type} (w : World) (c : Client)
    (method path : string) (body : option jobject) (result : option A)
    (unmarshal : string -> A -> option A) (tr : Trace) (k : nat)
    (msg : string) :
  let req := newRequest c method path body in
  let run := doRequest w c method path body result unmarshal tr in
  (1 <= k <= MaxRetries)%nat ->
  NewRequestErr w method (url req) = None ->
  (forall j, (j < k - 1)%nat ->
             ctxDone w (List.length (timers tr) + j) = None) ->
  ctxDone w (List.length (timers tr) + (k - 1)) = Some msg ->
  (forall j, (j < k)%nat ->
             retryable (roundTrip w (List.length (roundTrips tr) + j) req)
             = true) ->
  fst run = Err (LibError msg) /\
  List.length (roundTrips (snd run)) = (List.length (roundTrips tr) + k)%nat /\
  exists evs delay, snd run = tr ++ evs ++ [EvCancelled k delay].
Proof.
  intros req run Hk Hnew Hctx Hdone Hfail.
  destruct (doRequest_skip w c method path body result unmarshal tr k)
    as (lastErr & evs & Hrun & Hlen & Htim); auto; try lia.
  { intros j Hj. apply Hctx. lia. }
  unfold run. rewrite Hrun.
  rewrite (attempts_cancel w c method path body result unmarshal
             (MaxRetries - k) k lastErr (tr ++ evs) msg); try lia.
  - simpl. split; [reflexivity|]. split.
    + rewrite roundTrips_app. simpl. rewrite app_nil_r. exact Hlen.
    + eexists evs, _. rewrite <- app_assoc. reflexivity.
  - rewrite Htim. replace (Nat.pred k) with (k - 1)%nat by lia. exact Hdone.
Qed.

Lemma doRequest_cancelled_witness :
  let w := MoreExamples.cancelledAt 1 in
  let run := doRequest (H:=Example.lib) w Example.client MethodGet
               "/api/v1/me" None noResult noUnmarshal [] in
  fst run = Err (LibError "context canceled") /\
  List.length (roundTrips (snd run)) = 2%nat /\
  exists evs delay, snd run = [] ++ evs ++ [EvCancelled 2 delay].
Proof.
  intros w run.
  apply (doRequest_cancelled (H:=Example.lib) w Example.client MethodGet
           "/api/v1/me"%string None noResult noUnmarshal [] 2
           "context canceled"%string).
  - unfold MaxRetries. lia.
  - reflexivity.
  - intros j Hj. destruct j; [reflexivity | lia].
  - reflexivity.
  - intros j Hj. reflexivity.
Defined.

(** ** More on one logical request *)

Lemma pow2_attempt attempt :
  (1 <= attempt <= MaxRetries)%nat ->
  2 ^ (Z.of_nat (S attempt) - 1) = 2 * 2 ^ (Z.of_nat attempt - 1) /\
  1 <= 2 ^ (Z.of_nat attempt - 1) <= 16.
Proof.
  unfold MaxRetries. intros Ha.
  assert (Hc : attempt = 1%nat \/ attempt = 2%nat \/ attempt = 3%nat \/
               attempt = 4%nat \/ attempt = 5%nat) by lia.
  destruct Hc as [-> | [-> | [-> | [-> | ->]]]]; vm_compute;
    repeat split; congruence.
Qed.

Lemma Schedule_totalWait attempt evs :
  Schedule attempt evs ->
  (attempt <= S MaxRetries)%nat ->
  2 * totalWait evs
  <= 3 * BaseRetryDelay * (32 - 2 ^ (Z.of_nat (Nat.max attempt 1) - 1)).
Proof.
  unfold BaseRetryDelay, Second.
  induction 1 as [attempt | req rest _ IH | attempt delay Ha [_ Hw]
                 | attempt delay Ha [_ Hw]
                 | attempt delay req rest Ha [_ Hw] _ IH]; intros Hle.
  - simpl. unfold MaxRetries in Hle.
    assert (Hc : attempt = 0%nat \/ attempt = 1%nat \/ attempt = 2%nat \/
                 attempt = 3%nat \/ attempt = 4%nat \/ attempt = 5%nat \/
                 attempt = 6%nat) by lia.
    destruct Hc as [-> | [-> | [-> | [-> | [-> | [-> | ->]]]]]]; vm_compute;
      congruence.
  - simpl totalWait. apply IH. unfold MaxRetries. lia.
  - destruct (pow2_attempt attempt Ha) as [_ Hp].
    replace (Nat.max attempt 1) with attempt by lia.
    unfold BaseRetryDelay, Second in Hw. simpl totalWait. lia.
  - destruct (pow2_attempt attempt Ha) as [_ Hp].
    replace (Nat.max attempt 1) with attempt by lia.
    unfold BaseRetryDelay, Second in Hw. simpl totalWait. lia.
  - destruct (pow2_attempt attempt Ha) as [Hs Hp].
    replace (Nat.max attempt 1) with attempt by lia.
    replace (Nat.max (S attempt) 1) with (S attempt) in IH by lia.
    unfold BaseRetryDelay, Second in Hw. simpl totalWait.
    specialize (IH ltac:(lia)). rewrite Hs in IH. lia.
Qed.

(** One logical request spends at most 46.5 seconds in back-off,
    whatever the random source draws and however the attempts end. *)
Theorem doRequest_total_wait `{Library} {A : Type} (w : World) (c : Client)
    (method path : string) (body : option jobject) (result : option A)
    (unmarshal : string -> A -> option A) (tr : Trace) :
  exists evs,
    snd (doRequest w c method path body result unmarshal tr) = tr ++ evs /\
    0 <= totalWait evs /\
    2 * totalWait evs <= 93 * Second.
Proof.
  unfold doRequest.
  destruct (attempts w c method path body result unmarshal
              (S MaxRetries) 0 None tr) as [r tr'] eqn:Hrun.
  apply attempts_trace in Hrun; [|reflexivity].
  destruct Hrun as (evs & -> & _ & Hs & _). exists evs.
  split; [reflexivity|]. split.
  - clear -Hs. induction Hs as [ | | ? ? ? [Hlo _] | ? ? ? [Hlo _]
                                | ? ? ? ? ? [Hlo _] _ IH];
      simpl; try lia.
    + assert (0 <= BaseRetryDelay * 2 ^ (Z.of_nat attempt - 1)).
      { unfold BaseRetryDelay, Second. apply Z.mul_nonneg_nonneg; [lia|].
        apply Z.pow_nonneg. lia. }
      lia.
    + assert (0 <= BaseRetryDelay * 2 ^ (Z.of_nat attempt - 1)).
      { unfold BaseRetryDelay, Second. apply Z.mul_nonneg_nonneg; [lia|].
        apply Z.pow_nonneg. lia. }
      lia.
    + assert (0 <= BaseRetryDelay * 2 ^ (Z.of_nat attempt - 1)).
      { unfold BaseRetryDelay, Second. apply Z.mul_nonneg_nonneg; [lia|].
        apply Z.pow_nonneg. lia. }
      lia.
  - apply Schedule_totalWait in Hs; [|unfold MaxRetries; lia].
    simpl in Hs. unfold BaseRetryDelay in Hs. lia.
Qed.

(** All attempts of one logical request send the same request: the
    method, the base URL followed by the path, the bearer token and the
    three fixed headers, and the same payload. *)
Theorem doRequest_same_request `{Library} {A : Type} (w : World) (c : Client)
    (method_ path : string) (body : option jobject) (result : option A)
    (unmarshal : string -> A -> option A) (tr : Trace) :
  exists evs,
    snd (doRequest w c method_ path body result unmarshal tr) = tr ++ evs /\
    Forall (fun e =>
              match e with
              | EvRoundTrip rq =>
                  method rq = method_ /\
                  url rq = (baseURL c ++ path)%string /\
                  header rq
                  = [("Authorization", "Bearer " ++ apiKey c);
                     ("Content-Type", "application/json");
                     ("Accept", "application/json");
                     ("User-Agent", userAgent c)]%string /\
                  reqBody rq = body
              | _ => True
              end) evs.
Proof.
  destruct (doRequest w c method_ path body result unmarshal tr)
    as [r tr'] eqn:Hrun.
  apply doRequest_trace in Hrun. destruct Hrun as (evs & -> & Hreq).
  exists evs. split; [reflexivity|].
  eapply Forall_impl; [exact Hreq|].
  intros [| |rq]; auto. intros ->. repeat split.
Qed.

(** ** Errors *)

(** The text of an API error shows the [error] field of the answer; if
    that is missing or empty, the [message] field; if that is missing or
    empty too, or the body is not the expected JSON, the raw body. *)
Theorem apiError_text `{Library} (code : Z) (respBody : string) :
  Error (apiError code respBody)
  = ("pakyas API error (status " ++ pretty code ++ "): "
     ++ match UnmarshalErrResp respBody with
        | Some (e, m) =>
            if negb (String.eqb e "") then e
            else if negb (String.eqb m "") then m
            else respBody
        | None => respBody
        end)%string.
Proof.
  unfold apiError. cbn [Error].
  destruct (UnmarshalErrResp respBody) as [[e m]|]; [|reflexivity].
  destruct (String.eqb_spec e ""); cbn [negb].
  - destruct (String.eqb_spec m ""); cbn [negb].
    + reflexivity.
    + destruct (String.eqb_spec m ""); [contradiction | reflexivity].
  - destruct (String.eqb_spec e ""); [contradiction | reflexivity].
Qed.

(** The classifiers look through every [%w] wrapper, at most one of
    them holds of an error, and none holds of a library error or of the
    conflict error of a Create. *)
Theorem classifiers_exclusive (err : error) :
  (forall msg,
      IsNotFound (Errorf msg (Some err)) = IsNotFound err /\
      IsConflict (Errorf msg (Some err)) = IsConflict err /\
      IsUnauthorized (Errorf msg (Some err)) = IsUnauthorized err /\
      IsForbidden (Errorf msg (Some err)) = IsForbidden err /\
      IsRetryable (Errorf msg (Some err)) = IsRetryable err) /\
  (Nat.b2n (IsNotFound err) + Nat.b2n (IsConflict err)
   + Nat.b2n (IsUnauthorized err) + Nat.b2n (IsForbidden err)
   + Nat.b2n (IsRetryable err) <= 1)%nat /\
  (forall msg kind,
      asAPIError (LibError msg) = None /\
      asAPIError (ConflictError kind) = None /\
      IsConflict (ConflictError kind) = false /\
      IsRetryable (ConflictError kind) = false).
Proof.
  split; [|split].
  - intros msg. repeat split; reflexivity.
  - unfold IsNotFound, IsConflict, IsUnauthorized, IsForbidden, IsRetryable,
      statusIs, StatusNotFound, StatusConflict, StatusUnauthorized,
      StatusForbidden, StatusTooManyRequests.
    destruct (asAPIError err) as [[[code m] b]|]; [|simpl; lia].
    destruct (Z.eqb_spec 404 code), (Z.eqb_spec 409 code),
      (Z.eqb_spec 401 code), (Z.eqb_spec 403 code), (Z.eqb_spec code 429),
      (Z.leb_spec 500 code); simpl; lia.
  - intros msg kind. repeat split; reflexivity.
Qed.

(** ** Normalisation *)

(** [normalizeDescription] keeps [nil] and every non-empty description,
    turns the empty one into [nil], never returns a pointer to the empty
    string, and is idempotent. *)
Theorem normalizeDescription_spec (desc : option string) :
  normalizeDescription None = None /\
  normalizeDescription (Some ""%string) = None /\
  (forall d, d <> ""%string -> normalizeDescription (Some d) = Some d) /\
  normalizeDescription desc <> Some ""%string /\
  normalizeDescription (normalizeDescription desc) = normalizeDescription desc.
Proof.
  split; [reflexivity|]. split; [reflexivity|]. split; [|split].
  - intros d Hd. now apply normalizeDescription_some.
  - destruct desc as [d|]; simpl; [|discriminate].
    destruct (String.eqb_spec d ""); congruence.
  - destruct desc as [d|]; simpl; [|reflexivity].
    destruct (String.eqb_spec d "") as [->|Hne]; [reflexivity|].
    simpl. destruct (String.eqb_spec d ""); congruence.
Qed.

(** [normalizeTags] keeps every tag, duplicates included, and forgets
    the order in which they were given: two lists normalise to the same
    slice exactly when one is a rearrangement of the other. *)
Theorem normalizeTags_order (l1 l2 : list string) :
  (exists l, normalizeTags (Some l1) = Some l /\
             l ≡ₚ l1 /\ List.length l = List.length l1) /\
  (normalizeTags (Some l1) = normalizeTags (Some l2) <-> l1 ≡ₚ l2).
Proof.
  split.
  - exists (sortStrings l1). split; [reflexivity|].
    split; [apply sortStrings_perm | apply sortStrings_length].
  - simpl. split.
    + intros [= Heq]. rewrite <- (sortStrings_perm l1), Heq.
      apply sortStrings_perm.
    + intros Hp. f_equal. apply sortStrings_unique.
      * apply sortStrings_sorted.
      * rewrite sortStrings_perm. exact Hp.
Qed.

(** ** What the accessors send *)

(** The payload of a project create: the organisation cached in the
    client, the name, and the description only when one is given that is
    not empty; nothing else. *)
Theorem project_create_payload (c : Client) (name : string)
    (description : option string) :
  field "org_id" (projectPayload c name description)
  = Some (JString (orgID c)) /\
  field "name" (projectPayload c name description) = Some (JString name) /\
  field "description" (projectPayload c name description)
  = match description with
    | Some d => if String.eqb d "" then None else Some (JString d)
    | None => None
    end /\
  (forall k, field k (projectPayload c name description) <> None ->
             k = "org_id"%string \/ k = "name"%string \/
             k = "description"%string).
Proof.
  unfold projectPayload, CreateProjectRequest.marshal.
  cbn [CreateProjectRequest.OrgID CreateProjectRequest.Name
       CreateProjectRequest.Description].
  repeat split.
  - destruct description as [d|]; [|reflexivity]. simpl.
    destruct (String.eqb d ""); reflexivity.
  - intros k. cbn [app field].
    destruct (String.eqb_spec k "org_id"); [auto|].
    destruct (String.eqb_spec k "name"); [auto|].
    destruct (normalizeDescription description); cbn [omitNil field].
    + destruct (String.eqb_spec k "description"); [auto | congruence].
    + congruence.
Qed.

(** The payload of a check create: project, name, slug and period
    always; the grace period unless it is 0; the description when it is
    given and not empty; the tags, sorted, when there is at least one;
    [paused] only when it is true. *)
Theorem check_create_payload (req : CreateCheckRequest.t) :
  field "project_id" (checkPayload req)
  = Some (JString (CreateCheckRequest.ProjectID req)) /\
  field "name" (checkPayload req)
  = Some (JString (CreateCheckRequest.Name req)) /\
  field "slug" (checkPayload req)
  = Some (JString (CreateCheckRequest.Slug req)) /\
  field "period_seconds" (checkPayload req)
  = Some (JInt (CreateCheckRequest.PeriodSeconds req)) /\
  field "grace_seconds" (checkPayload req)
  = (if CreateCheckRequest.GraceSeconds req =? 0 then None
     else Some (JInt (CreateCheckRequest.GraceSeconds req))) /\
  field "description" (checkPayload req)
  = JString <$> normalizeDescription (CreateCheckRequest.Description req) /\
  field "tags" (checkPayload req)
  = match sortStrings (default [] (CreateCheckRequest.Tags req)) with
    | [] => None
    | t :: ts => Some (JStrings (t :: ts))
    end /\
  field "paused" (checkPayload req)
  = (if CreateCheckRequest.Paused req then Some (JBool true) else None).
Proof.
  unfold checkPayload, CreateCheckRequest.marshal, normalizeCreate, omitZero.
  cbn [CreateCheckRequest.ProjectID CreateCheckRequest.Name
       CreateCheckRequest.Slug CreateCheckRequest.PeriodSeconds
       CreateCheckRequest.GraceSeconds CreateCheckRequest.Description
       CreateCheckRequest.Tags CreateCheckRequest.Paused].
  assert (Ht : normalizeTags (CreateCheckRequest.Tags req)
               = Some (sortStrings (default [] (CreateCheckRequest.Tags req)))).
  { destruct (CreateCheckRequest.Tags req); reflexivity. }
  rewrite Ht.
  destruct (CreateCheckRequest.GraceSeconds req =? 0),
    (normalizeDescription (CreateCheckRequest.Description req)),
    (sortStrings (default [] (CreateCheckRequest.Tags req))),
    (CreateCheckRequest.Paused req);
    repeat split; reflexivity.
Qed.

(** A Delete sends DELETE requests for the identifier, without a
    payload, and nothing else.  The accessor returns what its request
    returned: success when the request succeeded, and then the last
    DELETE was answered below 400, and otherwise the error of the
    request, unchanged.  It does not swallow a 404: a DELETE that is
    answered 404 makes the accessor return the error of that answer,
    which is a not-found error; and a not-found error of the accessor is
    the error of its last DELETE, which was answered 404. *)
Theorem delete_requests `{Library} (w : World) (c : Client) (id : string)
    (tr : Trace) :
  let project := newRequest c MethodDelete ("/api/v1/projects/" ++ id) None in
  let check := newRequest c MethodDelete ("/api/v1/checks/" ++ id) None in
  let unit_ (r : Res (option unit) * Trace) : Res unit * Trace :=
    (match fst r with
     | Ok _ => Ok tt
     | Err e => Err e
     end, snd r) in
  (exists evs,
      snd (DeleteProject w c id tr) = tr ++ evs /\ onlyRequest project evs) /\
  (exists evs,
      snd (DeleteCheck w c id tr) = tr ++ evs /\ onlyRequest check evs) /\
  DeleteProject w c id tr
  = unit_ (doRequest w c MethodDelete ("/api/v1/projects/" ++ id) None
             noResult noUnmarshal tr) /\
  DeleteCheck w c id tr
  = unit_ (doRequest w c MethodDelete ("/api/v1/checks/" ++ id) None
             noResult noUnmarshal tr) /\
  (fst (DeleteProject w c id tr) = Ok tt ->
   exists code respBody,
     answered w (snd (DeleteProject w c id tr)) project code respBody /\
     code < 400) /\
  (fst (DeleteCheck w c id tr) = Ok tt ->
   exists code respBody,
     answered w (snd (DeleteCheck w c id tr)) check code respBody /\
     code < 400) /\
  (forall respBody,
      NewRequestErr w MethodDelete (url project) = None ->
      roundTrip w (List.length (roundTrips tr)) project
      = Response StatusNotFound respBody ->
      DeleteProject w c id tr
      = (Err (apiError StatusNotFound respBody),
         tr ++ [EvRoundTrip project]) /\
      IsNotFound (apiError StatusNotFound respBody) = true) /\
  (forall respBody,
      NewRequestErr w MethodDelete (url check) = None ->
      roundTrip w (List.length (roundTrips tr)) check
      = Response StatusNotFound respBody ->
      DeleteCheck w c id tr
      = (Err (apiError StatusNotFound respBody),
         tr ++ [EvRoundTrip check]) /\
      IsNotFound (apiError StatusNotFound respBody) = true) /\
  (forall err,
      fst (DeleteProject w c id tr) = Err err ->
      IsNotFound err = true ->
      exists respBody,
        err = apiError StatusNotFound respBody /\
        answered w (snd (DeleteProject w c id tr)) project
          StatusNotFound respBody) /\
  (forall err,
      fst (DeleteCheck w c id tr) = Err err ->
      IsNotFound err = true ->
      exists respBody,
        err = apiError StatusNotFound respBody /\
        answered w (snd (DeleteCheck w c id tr)) check
          StatusNotFound respBody).
Proof.
  intros project check unit_.
  assert (Hfirst : forall path respBody,
             NewRequestErr w MethodDelete
               (url (newRequest c MethodDelete path None)) = None ->
             roundTrip w (List.length (roundTrips tr))
               (newRequest c MethodDelete path None)
             = Response StatusNotFound respBody ->
             doRequest w c MethodDelete path None noResult noUnmarshal tr
             = (Err (apiError StatusNotFound respBody),
                tr ++ [EvRoundTrip (newRequest c MethodDelete path None)])).
  { intros path respBody Hnew Hans.
    apply doRequest_first_refused; auto.
    unfold StatusNotFound. lia. }
  split; [|split; [|split; [|split; [|split; [|split; [|split;
    [|split; [|split]]]]]]]].
  - unfold DeleteProject, bind, ret.
    destruct (doRequest w c MethodDelete ("/api/v1/projects/" ++ id) None
                noResult noUnmarshal tr) as [[v|e] tr1] eqn:Hp;
      cbn [snd]; exact (doRequest_trace _ _ _ _ _ _ _ _ _ _ Hp).
  - unfold DeleteCheck, bind, ret.
    destruct (doRequest w c MethodDelete ("/api/v1/checks/" ++ id) None
                noResult noUnmarshal tr) as [[v|e] tr1] eqn:Hp;
      cbn [snd]; exact (doRequest_trace _ _ _ _ _ _ _ _ _ _ Hp).
  - unfold DeleteProject, bind, ret, unit_.
    destruct (doRequest w c MethodDelete ("/api/v1/projects/" ++ id) None
                noResult noUnmarshal tr) as [[v|e] tr1]; reflexivity.
  - unfold DeleteCheck, bind, ret, unit_.
    destruct (doRequest w c MethodDelete ("/api/v1/checks/" ++ id) None
                noResult noUnmarshal tr) as [[v|e] tr1]; reflexivity.
  - unfold DeleteProject, bind, ret.
    destruct (doRequest w c MethodDelete ("/api/v1/projects/" ++ id) None
                noResult noUnmarshal tr) as [[v|e] tr1] eqn:Hp;
      cbn [fst snd]; [|discriminate].
    intros _. apply doRequest_ok in Hp.
    destruct Hp as (code & respBody & Hans & Hcode & _). eauto.
  - unfold DeleteCheck, bind, ret.
    destruct (doRequest w c MethodDelete ("/api/v1/checks/" ++ id) None
                noResult noUnmarshal tr) as [[v|e] tr1] eqn:Hp;
      cbn [fst snd]; [|discriminate].
    intros _. apply doRequest_ok in Hp.
    destruct Hp as (code & respBody & Hans & Hcode & _). eauto.
  - intros respBody Hnew Hans. split; [|reflexivity].
    unfold DeleteProject, bind. rewrite (Hfirst _ _ Hnew Hans). reflexivity.
  - intros respBody Hnew Hans. split; [|reflexivity].
    unfold DeleteCheck, bind. rewrite (Hfirst _ _ Hnew Hans). reflexivity.
  - unfold DeleteProject, bind, ret.
    destruct (doRequest w c MethodDelete ("/api/v1/projects/" ++ id) None
                noResult noUnmarshal tr) as [[v|e] tr1] eqn:Hp;
      cbn [fst snd]; intros err; [discriminate|].
    intros [= <-] Hnf.
    eapply doRequest_refused in Hp; [| exact Hnf | reflexivity].
    destruct Hp as (respBody & He & _ & Hans). eauto.
  - unfold DeleteCheck, bind, ret.
    destruct (doRequest w c MethodDelete ("/api/v1/checks/" ++ id) None
                noResult noUnmarshal tr) as [[v|e] tr1] eqn:Hp;
      cbn [fst snd]; intros err; [discriminate|].
    intros [= <-] Hnf.
    eapply doRequest_refused in Hp; [| exact Hnf | reflexivity].
    destruct Hp as (respBody & He & _ & Hans). eauto.
Qed.

Lemma delete_requests_witness :
  let w := Example.always (Response 404 "") in
  DeleteCheck (H:=Example.lib) w Example.client "c-1" []
  = (Err (APIError 404 "" ""),
     [EvRoundTrip (newRequest Example.client MethodDelete
                     "/api/v1/checks/c-1" None)]) /\
  DeleteProject (H:=Example.lib) w Example.client "p-1" []
  = (Err (APIError 404 "" ""),
     [EvRoundTrip (newRequest Example.client MethodDelete
                     "/api/v1/projects/p-1" None)]).
Proof.
  intros w. split.
  - destruct (delete_requests (H:=Example.lib) w Example.client "c-1" [])
      as (_ & _ & _ & _ & _ & _ & _ & Hcheck & _).
    destruct (Hcheck ""%string eq_refl eq_refl) as [Hrun _]. exact Hrun.
  - destruct (delete_requests (H:=Example.lib) w Example.client "p-1" [])
      as (_ & _ & _ & _ & _ & _ & Hproject & _).
    destruct (Hproject ""%string eq_refl eq_refl) as [Hrun _]. exact Hrun.
Defined.

(** ** The reconcilers *)

(** Only a 404 is swallowed.  A Read or a Delete that fails with any
    other error (a 403, a 500 after the retries, a network error)
    reports it, with the text of the error, and leaves the tracked state
    as it was: the resource is not removed. *)
Theorem other_errors_reported `{Library} (w : World) (c : Client)
    (tr tr1 : Trace) (err : error) :
  IsNotFound err = false ->
  (forall data,
      GetProject w c (ValueString (ProjectResource.ID data)) tr
      = (Err err, tr1) ->
      ProjectResource.Read w c data tr
      = ({| Diagnostics :=
              [{| Summary := "Error Reading Project";
                  Detail := "Could not read project ID "
                            ++ ValueString (ProjectResource.ID data)
                            ++ ": " ++ Error err |}];
            State := Untouched |}, tr1)) /\
  (forall data,
      GetCheck w c (ValueString (CheckResource.ID data)) tr
      = (Err err, tr1) ->
      CheckResource.Read w c data tr
      = ({| Diagnostics :=
              [{| Summary := "Error Reading Check";
                  Detail := "Could not read check ID "
                            ++ ValueString (CheckResource.ID data)
                            ++ ": " ++ Error err |}];
            State := Untouched |}, tr1)) /\
  (forall data,
      DeleteProject w c (ValueString (ProjectResource.ID data)) tr
      = (Err err, tr1) ->
      ProjectResource.Delete w c data tr
      = ({| Diagnostics :=
              [{| Summary := "Error Deleting Project";
                  Detail := "Could not delete project, unexpected error: "
                            ++ Error err |}];
            State := Untouched |}, tr1)) /\
  (forall data,
      DeleteCheck w c (ValueString (CheckResource.ID data)) tr
      = (Err err, tr1) ->
      CheckResource.Delete w c data tr
      = ({| Diagnostics :=
              [{| Summary := "Error Deleting Check";
                  Detail := "Could not delete check, unexpected error: "
                            ++ Error err |}];
            State := Untouched |}, tr1)).
Proof.
  intros Hnf. repeat split; intros data Hrun.
  - unfold ProjectResource.Read. rewrite Hrun, Hnf. reflexivity.
  - unfold CheckResource.Read. rewrite Hrun, Hnf. reflexivity.
  - unfold ProjectResource.Delete. rewrite Hrun, Hnf. reflexivity.
  - unfold CheckResource.Delete. rewrite Hrun, Hnf. reflexivity.
Qed.

Lemma other_errors_reported_witness :
  let w := Example.always (Response 403 "") in
  let get := newRequest Example.client MethodGet "/api/v1/projects/p-1" None in
  ProjectResource.Read (H:=Example.lib) w Example.client
    (Example.project Null) []
  = ({| Diagnostics :=
          [{| Summary := "Error Reading Project";
              Detail := "Could not read project ID p-1: pakyas API error (status 403): " |}];
        State := Untouched |}, [EvRoundTrip get]).
Proof.
  intros w get.
  destruct (other_errors_reported (H:=Example.lib) w Example.client []
              [EvRoundTrip get] (APIError 403 "" "") eq_refl) as [Hr _].
  apply (Hr (Example.project Null)). reflexivity.
Defined.

Lemma CreateProject_fetched `{Library} w c name description tr p tr' :
  CreateProject w c name description tr = (Ok p, tr') ->
  exists id, fetchedProject w c tr' id p.
Proof.
  unfold CreateProject.
  destruct (doRequest _ _ _ _ _ _ _ tr) as [[v|e] tr1].
  - intros Hg. eexists. eapply GetProject_ok; eauto.
  - destruct (IsConflict e); discriminate.
Qed.

Lemma UpdateProject_fetched `{Library} w c id name description tr p tr' :
  UpdateProject w c id name description tr = (Ok p, tr') ->
  fetchedProject w c tr' id p.
Proof.
  unfold UpdateProject, bind.
  destruct (doRequest _ _ _ _ _ _ _ tr) as [[v|e] tr1]; [|discriminate].
  apply GetProject_ok.
Qed.

(** The state an operation writes is read off the answer to its last
    GET and nothing else: the identifier, name, organisation and both
    timestamps are known, the description is known or null and never
    unknown, no planned value is carried over, and there is no
    diagnostic. *)
Theorem project_state_written `{Library} (w : World) (c : Client)
    (tr tr' : Trace) (resp : Resp ProjectResource.Model)
    (m : ProjectResource.Model) :
  writesProject w c tr resp tr' ->
  State resp = Set_ m ->
  Diagnostics resp = [] /\
  exists id p,
    fetchedProject w c tr' id p /\
    ProjectResource.ID m = Known (Project.ID p) /\
    ProjectResource.Name m = Known (Project.Name p) /\
    ProjectResource.OrgID m = Known (Project.OrgID p) /\
    ProjectResource.Description m
    = match Project.Description p with
      | Some d => Known d
      | None => Null
      end /\
    ProjectResource.CreatedAt m
    = Known (Format (Project.CreatedAt p) RFC3339) /\
    ProjectResource.UpdatedAt m
    = Known (Format (Project.UpdatedAt p) RFC3339).
Proof.
  intros Hop Hstate.
  assert (Hp : Diagnostics resp = [] /\
               exists id p, fetchedProject w c tr' id p /\
                            m = ProjectResource.mapProjectToModel p).
  { destruct Hop as [[data Hrun] | [[data Hrun] | [data [state Hrun]]]].
    - unfold ProjectResource.Create in Hrun.
      destruct (CreateProject w c _ _ tr) as [[p|e] tr1] eqn:Hc;
        injection Hrun as <- <-; [|discriminate].
      injection Hstate as <-. split; [reflexivity|].
      destruct (CreateProject_fetched _ _ _ _ _ _ _ Hc) as [id Hf]. eauto.
    - unfold ProjectResource.Read in Hrun.
      destruct (GetProject w c _ tr) as [[p|e] tr1] eqn:Hc.
      + injection Hrun as <- <-. injection Hstate as <-.
        split; [reflexivity|]. apply GetProject_ok in Hc. eauto.
      + destruct (IsNotFound e); injection Hrun as <- <-; discriminate.
    - unfold ProjectResource.Update in Hrun.
      destruct (ProjectResource.changes data state) as [name description].
      destruct (UpdateProject w c _ name description tr)
        as [[p|e] tr1] eqn:Hc;
        injection Hrun as <- <-; [|discriminate].
      injection Hstate as <-. split; [reflexivity|].
      apply UpdateProject_fetched in Hc. eauto. }
  destruct Hp as [Hd (id & p & Hf & ->)]. split; [exact Hd|].
  exists id, p. repeat split; auto.
Qed.

Lemma project_state_written_witness :
  let w := Example.always (Response 200 "p-1") in
  let run := ProjectResource.Create (H:=Example.lib) w Example.client
               (Example.project (Known "planned")) [] in
  exists m,
    State (fst run) = Set_ m /\
    ProjectResource.ID m = Known "p-1"%string /\
    ProjectResource.Description m = Null.
Proof.
  intros w run.
  pose (m := ProjectResource.mapProjectToModel (H:=Example.lib)
               (Example.withID Project.zero "p-1")).
  destruct (project_state_written (H:=Example.lib) w Example.client []
              (snd run) (fst run) m) as [_ (id & p & _ & Hid & _)].
  - left. exists (Example.project (Known "planned")). reflexivity.
  - reflexivity.
  - exists m. repeat split; reflexivity.
Defined.

(** The state an operation writes for a check is read off the answer
    to its last GET, attribute by attribute: the identifiers, the name,
    the slug, the period, the grace, the paused flag, the status and the
    public identifier are the fetched ones; the creation time is the
    fetched one in RFC 3339; the ping URL is the client's ping base, a
    slash, and the fetched public identifier; the description is the
    fetched one, or null when the answer has none; the tags are the
    fetched ones, or a null set when there is none.  A state is written
    only when the fetched tags hold no tag twice, and then without a
    diagnostic. *)
Theorem check_state_written `{Library} (w : World) (c : Client)
    (tr tr' : Trace) (resp : Resp CheckResource.Model)
    (m : CheckResource.Model) :
  writesCheck w c tr resp tr' ->
  State resp = Set_ m ->
  Diagnostics resp = [] /\
  exists id ch,
    fetchedCheck w c tr' id ch /\
    CheckResource.ID m = Known (Check.ID ch) /\
    CheckResource.ProjectID m = Known (Check.ProjectID ch) /\
    CheckResource.Name m = Known (Check.Name ch) /\
    CheckResource.Slug m = Known (Check.Slug ch) /\
    CheckResource.PeriodSeconds m = Known (Check.PeriodSeconds ch) /\
    CheckResource.GraceSeconds m = Known (Check.GraceSeconds ch) /\
    CheckResource.Paused m = Known (Check.Paused ch) /\
    CheckResource.Status m = Known (Check.Status ch) /\
    CheckResource.PublicID m = Known (Check.PublicID ch) /\
    CheckResource.PingURL m
    = Known (pingURLBase c ++ "/" ++ Check.PublicID ch)%string /\
    CheckResource.CreatedAt m
    = Known (Format (Check.CreatedAt ch) RFC3339) /\
    CheckResource.Description m
    = match Check.Description ch with
      | Some d => Known d
      | None => Null
      end /\
    CheckResource.Tags m
    = match Check.Tags ch with
      | Some (t :: ts) => Known (List.map Known (t :: ts))
      | _ => Null
      end /\
    NoDup (default [] (Check.Tags ch)).
Proof.
  intros Hop Hstate.
  destruct (check_written w c tr tr' resp m Hop Hstate)
    as [Hd (id & ch & l & Hf & Hl & _ & Hnd & ->)].
  split; [exact Hd|]. exists id, ch.
  rewrite Hl. simpl. rewrite Hl.
  repeat split; auto.
Qed.

Lemma check_state_written_witness :
  let w := Example.always (Response 200 "c-1") in
  let run := CheckResource.Read (H:=MoreExamples.tagged) w Example.client
               (Example.check Null Null) [] in
  exists m,
    State (fst run) = Set_ m /\
    CheckResource.ID m = Known "c-1"%string /\
    CheckResource.PingURL m = Known "https://ping.pakyas.com/"%string /\
    CheckResource.CreatedAt m = Known "1970-01-01T00:00:00Z"%string /\
    CheckResource.Description m = Null /\
    CheckResource.Tags m
    = Known [Known "backup"%string; Known "database"%string].
Proof.
  intros w run.
  pose (m := CheckResource.mapCheckToModel (H:=MoreExamples.tagged)
               Example.client
               (Check.withTags (Example.checkWithID Check.zero "c-1")
                  (Some ["backup"; "database"]%string))).
  destruct (check_state_written (H:=MoreExamples.tagged) w Example.client []
              (snd run) (fst run) m) as [_ (id & ch & _ & Hid & _)].
  - right. left. exists (Example.check Null Null). reflexivity.
  - reflexivity.
  - exists m. repeat split; reflexivity.
Defined.

(** An answer that lists a tag twice is not written: when the check an
    operation fetched holds a tag twice, the operation reports it and
    leaves the tracked state as it was. *)
Theorem duplicate_tags_refused `{Library} (w : World) (c : Client)
    (tr tr' : Trace) (ch : Check.t) :
  ~ NoDup (default [] (Check.Tags ch)) ->
  (forall data,
      GetCheck w c (ValueString (CheckResource.ID data)) tr = (Ok ch, tr') ->
      State (fst (CheckResource.Read w c data tr)) = Untouched /\
      Diagnostics (fst (CheckResource.Read w c data tr)) <> [] /\
      snd (CheckResource.Read w c data tr) = tr') /\
  (forall data createReq,
      CheckResource.createRequest data = inr createReq ->
      CreateCheck w c createReq tr = (Ok ch, tr') ->
      State (fst (CheckResource.Create w c data tr)) = Untouched /\
      Diagnostics (fst (CheckResource.Create w c data tr)) <> [] /\
      snd (CheckResource.Create w c data tr) = tr') /\
  (forall data state updateReq,
      CheckResource.updateRequest data state = inr updateReq ->
      UpdateCheck w c (ValueString (CheckResource.ID state)) updateReq tr
      = (Ok ch, tr') ->
      State (fst (CheckResource.Update w c data state tr)) = Untouched /\
      Diagnostics (fst (CheckResource.Update w c data state tr)) <> [] /\
      snd (CheckResource.Update w c data state tr) = tr').
Proof.
  intros Hdup.
  assert (Hrefused : forall id,
             fetchedCheck w c tr' id ch ->
             State (CheckResource.StateSet
                      (CheckResource.mapCheckToModel c ch)) = Untouched /\
             Diagnostics (CheckResource.StateSet
                            (CheckResource.mapCheckToModel c ch)) <> []).
  { intros id Hf.
    destruct (fetchedCheck_tags _ _ _ _ _ Hf) as (l & Hl & _).
    apply (StateSet_refused c ch l Hl). rewrite Hl in Hdup. exact Hdup. }
  split; [|split].
  - intros data Hrun. unfold CheckResource.Read. rewrite Hrun. cbn [fst snd].
    apply GetCheck_ok in Hrun. destruct (Hrefused _ Hrun). auto.
  - intros data createReq Hreq Hrun. unfold CheckResource.Create.
    rewrite Hreq, Hrun. cbn [fst snd].
    destruct (CreateCheck_fetched _ _ _ _ _ _ Hrun) as [id Hf].
    destruct (Hrefused _ Hf). auto.
  - intros data state updateReq Hreq Hrun. unfold CheckResource.Update.
    rewrite Hreq, Hrun. cbn [fst snd].
    apply UpdateCheck_fetched in Hrun. destruct (Hrefused _ Hrun). auto.
Qed.

Lemma duplicate_tags_refused_witness :
  let w := Example.always (Response 200 "c-1") in
  let run := CheckResource.Read (H:=MoreExamples.doubled) w Example.client
               (Example.check Null Null) [] in
  State (fst run) = Untouched /\
  Diagnostics (fst run)
  = [{| Summary := "Duplicate Set Element";
        Detail := "This attribute contains duplicate values of: backup" |}].
Proof.
  intros w run.
  assert (Hdup : ~ NoDup ["backup"; "backup"]%string).
  { intros Hnd. apply NoDup_cons in Hnd as [Hnot _]. apply Hnot. left. }
  destruct (duplicate_tags_refused (H:=MoreExamples.doubled) w Example.client
              [] (snd run)
              (Check.withTags (Example.checkWithID Check.zero "c-1")
                 (Some ["backup"; "backup"]%string)) Hdup)
    as (Hread & _).
  destruct (Hread (Example.check Null Null) eq_refl) as (Hstate & _).
  split; [exact Hstate | reflexivity].
Defined.

(** Two answers that list the same tags in different orders leave the
    same tags in the tracked state: the order the server uses causes no
    difference between two reads. *)
Theorem tags_state_order `{Library} (c : Client) (got1 got2 : Check.t) :
  default [] (Check.Tags got1) ≡ₚ default [] (Check.Tags got2) ->
  CheckResource.Tags
    (CheckResource.mapCheckToModel c
       (Check.withTags got1 (normalizeTags (Check.Tags got1))))
  = CheckResource.Tags
      (CheckResource.mapCheckToModel c
         (Check.withTags got2 (normalizeTags (Check.Tags got2)))).
Proof.
  intros Hp.
  assert (Hn : forall t, normalizeTags t = Some (sortStrings (default [] t))).
  { intros [l|]; reflexivity. }
  rewrite !Hn. simpl.
  replace (sortStrings (default [] (Check.Tags got2)))
    with (sortStrings (default [] (Check.Tags got1))); [reflexivity|].
  apply sortStrings_unique; [apply sortStrings_sorted|].
  rewrite sortStrings_perm. exact Hp.
Qed.

Lemma tags_state_order_witness :
  let got1 := Check.withTags Check.zero
                (Some ["database"; "backup"]%string) in
  let got2 := Check.withTags Check.zero
                (Some ["backup"; "database"]%string) in
  CheckResource.Tags
    (CheckResource.mapCheckToModel (H:=Example.lib) Example.client
       (Check.withTags got1 (normalizeTags (Check.Tags got1))))
  = CheckResource.Tags
      (CheckResource.mapCheckToModel (H:=Example.lib) Example.client
         (Check.withTags got2 (normalizeTags (Check.Tags got2)))).
Proof.
  intros got1 got2.
  apply (tags_state_order (H:=Example.lib) Example.client got1 got2).
  simpl. apply perm_swap.
Defined.

(** ** What an update sends *)

(** The payload of a project update has the name exactly when the
    planned name differs from the one in the state, then with the
    planned value; it has no field but name and description; and it is
    the empty object when neither differs. *)
Theorem project_update_payload (data state : ProjectResource.Model) :
  let payload :=
    projectUpdatePayload (fst (ProjectResource.changes data state))
      (snd (ProjectResource.changes data state)) in
  field "name" payload
  = (if StringEqual (ProjectResource.Name data) (ProjectResource.Name state)
     then None
     else Some (JString (ValueString (ProjectResource.Name data)))) /\
  (forall k, field k payload <> None ->
             k = "name"%string \/ k = "description"%string) /\
  (StringEqual (ProjectResource.Name data) (ProjectResource.Name state)
   = true ->
   StringEqual (ProjectResource.Description data)
     (ProjectResource.Description state) = true ->
   payload = []).
Proof.
  unfold projectUpdatePayload, UpdateProjectRequest.marshal,
    ProjectResource.changes.
  cbn [fst snd UpdateProjectRequest.Name UpdateProjectRequest.Description].
  set (d := if negb (StringEqual (ProjectResource.Description data)
                       (ProjectResource.Description state))
            then if IsNull (ProjectResource.Description data)
                 then Some ""%string
                 else Some (ValueString (ProjectResource.Description data))
            else None).
  assert (Hd : StringEqual (ProjectResource.Description data)
                 (ProjectResource.Description state) = true ->
               normalizeDescription d = None).
  { intros E. unfold d. rewrite E. reflexivity. }
  clearbody d.
  destruct (StringEqual (ProjectResource.Name data)
              (ProjectResource.Name state)); cbn [negb omitNil app].
  - split; [|split].
    + destruct (normalizeDescription d); reflexivity.
    + intros k. destruct (normalizeDescription d); cbn [omitNil field].
      * destruct (String.eqb_spec k "description"); [auto | congruence].
      * congruence.
    + intros _ E. rewrite (Hd E). reflexivity.
  - split; [reflexivity|]. split; [|discriminate].
    intros k. cbn [field].
    destruct (String.eqb_spec k "name"); [auto|].
    destruct (normalizeDescription d); cbn [omitNil field].
    + destruct (String.eqb_spec k "description"); [auto | congruence].
    + congruence.
Qed.

Lemma StringEqual_refl (v : attr string) : StringEqual v v = true.
Proof. destruct v; simpl; auto. apply String.eqb_refl. Qed.

(** Two known sets with the same elements in different orders are
    [Equal]. *)
Lemma SetEqual_perm (l1 l2 : list (attr string)) :
  l1 ≡ₚ l2 -> SetEqual (Known l1) (Known l2) = true.
Proof.
  intros Hp. simpl. apply andb_true_iff. split.
  - apply Nat.eqb_eq. now apply Permutation_length.
  - apply forallb_forall. intros x Hx. unfold contains.
    apply existsb_exists. exists x. split; [|apply StringEqual_refl].
    apply list_elem_of_In. rewrite <- Hp. now apply list_elem_of_In.
Qed.

(** Declaring the same tags in another order changes nothing: the
    update that follows has no tags field. *)
Theorem reordered_tags_not_sent `{Library} (data state : CheckResource.Model)
    (l1 l2 : list (attr string)) (req : UpdateCheckRequest.t) :
  CheckResource.Tags data = Known l1 ->
  CheckResource.Tags state = Known l2 ->
  l1 ≡ₚ l2 ->
  CheckResource.updateRequest data state = inr req ->
  field "tags" (checkUpdatePayload req) = None.
Proof.
  intros H1 H2 Hp Hreq.
  destruct (check_update_only_changed data state req Hreq)
    as (_ & _ & _ & _ & _ & Ht).
  destruct (field "tags" (checkUpdatePayload req)) eqn:Hf; [|reflexivity].
  rewrite H1, H2, (SetEqual_perm l1 l2 Hp) in Ht.
  discriminate Ht. discriminate.
Qed.

Lemma reordered_tags_not_sent_witness :
  let data := Example.check Null
                (Known [Known "database"; Known "backup"]%string) in
  let state := Example.check Null
                 (Known [Known "backup"; Known "database"]%string) in
  field "tags"
    (checkUpdatePayload
       {| UpdateCheckRequest.Name := None;
          UpdateCheckRequest.PeriodSeconds := None;
          UpdateCheckRequest.GraceSeconds := None;
          UpdateCheckRequest.Description := None;
          UpdateCheckRequest.Tags := None;
          UpdateCheckRequest.Paused := None |}) = None.
Proof.
  intros data state.
  apply (reordered_tags_not_sent (H:=Example.lib) data state
           [Known "database"; Known "backup"]%string
           [Known "backup"; Known "database"]%string).
  - reflexivity.
  - reflexivity.
  - apply perm_swap.
  - reflexivity.
Defined.

(** An update in which only [paused] differs sends that one field and
    nothing else; an update in which nothing differs sends the empty
    object. *)
Theorem check_update_paused_only `{Library} (data state : CheckResource.Model)
    (req : UpdateCheckRequest.t) :
  CheckResource.updateRequest data state = inr req ->
  StringEqual (CheckResource.Name data) (CheckResource.Name state) = true ->
  Int64Equal (CheckResource.PeriodSeconds data)
    (CheckResource.PeriodSeconds state) = true ->
  Int64Equal (CheckResource.GraceSeconds data)
    (CheckResource.GraceSeconds state) = true ->
  StringEqual (CheckResource.Description data)
    (CheckResource.Description state) = true ->
  SetEqual (CheckResource.Tags data) (CheckResource.Tags state) = true ->
  checkUpdatePayload req
  = (if BoolEqual (CheckResource.Paused data) (CheckResource.Paused state)
     then []
     else [("paused"%string, JBool (ValueBool (CheckResource.Paused data)))]).
Proof.
  unfold CheckResource.updateRequest.
  intros Hreq Hn Hp Hg Hd Ht. rewrite Hn, Hp, Hg, Hd, Ht in Hreq.
  cbn [negb] in Hreq. injection Hreq as <-.
  destruct (BoolEqual (CheckResource.Paused data)
              (CheckResource.Paused state)); reflexivity.
Qed.

Lemma check_update_paused_only_witness :
  let state := Example.check Null Null in
  let data :=
    {| CheckResource.ID := CheckResource.ID state;
       CheckResource.ProjectID := CheckResource.ProjectID state;
       CheckResource.Name := CheckResource.Name state;
       CheckResource.Slug := CheckResource.Slug state;
       CheckResource.PeriodSeconds := CheckResource.PeriodSeconds state;
       CheckResource.GraceSeconds := CheckResource.GraceSeconds state;
       CheckResource.Description := CheckResource.Description state;
       CheckResource.Tags := CheckResource.Tags state;
       CheckResource.Paused := Known true;
       CheckResource.PublicID := CheckResource.PublicID state;
       CheckResource.PingURL := CheckResource.PingURL state;
       CheckResource.Status := CheckResource.Status state;
       CheckResource.CreatedAt := CheckResource.CreatedAt state |} in
  checkUpdatePayload
    {| UpdateCheckRequest.Name := None;
       UpdateCheckRequest.PeriodSeconds := None;
       UpdateCheckRequest.GraceSeconds := None;
       UpdateCheckRequest.Description := None;
       UpdateCheckRequest.Tags := None;
       UpdateCheckRequest.Paused := Some true |}
  = [("paused"%string, JBool true)].
Proof.
  intros state data.
  apply (check_update_paused_only (H:=Example.lib) data state); reflexivity.
Defined.

(** ** Construction *)

Lemma substring_prefix (p s : string) :
  substring 0 (String.length p) (p ++ s) = p.
Proof.
  induction p as [|a p IH]; simpl.
  - destruct s; reflexivity.
  - now rewrite IH.
Qed.

Lemma substring_all (s : string) : substring 0 (String.length s) s = s.
Proof. induction s as [|b s IH]; simpl; [reflexivity | now rewrite IH]. Qed.

Lemma substring_suffix (p s : string) :
  substring (String.length p) (String.length s) (p ++ s) = s.
Proof.
  induction p as [|a p IH]; simpl; [apply substring_all | exact IH].
Qed.

Lemma string_length_app (p s : string) :
  String.length (p ++ s) = (String.length p + String.length s)%nat.
Proof. induction p; simpl; auto. Qed.

(** [TrimSuffix] cuts the suffix once when the string ends with it, and
    leaves the string alone otherwise. *)
Lemma TrimSuffix_app (p suffix : string) : TrimSuffix (p ++ suffix) suffix = p.
Proof.
  unfold TrimSuffix, HasSuffix. rewrite string_length_app.
  replace (String.length p + String.length suffix - String.length suffix)%nat
    with (String.length p) by lia.
  rewrite substring_suffix, String.eqb_refl, substring_prefix.
  replace (String.length suffix <=? String.length p + String.length suffix)%nat
    with true by (symmetry; apply Nat.leb_le; lia).
  reflexivity.
Qed.

Lemma fetchOrgContext_trace `{Library} `{MeLibrary} w c tr r tr' :
  fetchOrgContext w c tr = (r, tr') ->
  exists evs,
    tr' = tr ++ evs /\
    onlyRequest (newRequest c MethodGet "/api/v1/me" None) evs.
Proof.
  unfold fetchOrgContext, bind, ret.
  destruct (doRequest _ _ _ _ _ _ _ tr) as [[v|e] tr1] eqn:Hrun;
    intros E; injection E as <- <-; eapply doRequest_trace; eauto.
Qed.

(** [New] sends nothing but [GET /api/v1/me], to the configured base
    URL with one trailing slash cut, or to the default base URL when
    none is configured, with the configured key and user agent (the
    default agent when none is configured). *)
Theorem New_requests `{Library} `{MeLibrary} (w : World) (cfg : ClientConfig)
    (tr : Trace) :
  exists base agent evs,
    snd (New w cfg tr) = tr ++ evs /\
    onlyRequest
      {| method := "GET";
         url := (base ++ "/api/v1/me")%string;
         header := [("Authorization", "Bearer " ++ cfgAPIKey cfg);
                    ("Content-Type", "application/json");
                    ("Accept", "application/json");
                    ("User-Agent", agent)]%string;
         reqBody := None |} evs /\
    (cfgBaseURL cfg = ""%string -> base = "https://api.pakyas.com"%string) /\
    (forall p, cfgBaseURL cfg = (p ++ "/")%string -> base = p) /\
    (HasSuffix (cfgBaseURL cfg) "/" = false ->
     cfgBaseURL cfg <> ""%string -> base = cfgBaseURL cfg) /\
    (cfgUserAgent cfg = ""%string ->
     agent = "terraform-provider-pakyas"%string) /\
    (cfgUserAgent cfg <> ""%string -> agent = cfgUserAgent cfg).
Proof.
  unfold New.
  set (base := TrimSuffix (if String.eqb (cfgBaseURL cfg) ""
                           then DefaultBaseURL else cfgBaseURL cfg) "/").
  set (agent := if String.eqb (cfgUserAgent cfg) ""
                then "terraform-provider-pakyas"%string
                else cfgUserAgent cfg).
  set (c := {| baseURL := base; apiKey := cfgAPIKey cfg; userAgent := agent;
               orgID := ""; pingURLBase := "" |}).
  exists base, agent.
  destruct (fetchOrgContext w c tr) as [r tr1] eqn:Hrun.
  destruct (fetchOrgContext_trace w c tr r tr1 Hrun) as (evs & -> & Hreq).
  exists evs. split; [destruct r; reflexivity|].
  split; [exact Hreq|].
  repeat split.
  - intros E. unfold base. rewrite E. reflexivity.
  - intros p E. unfold base. rewrite E.
    destruct (String.eqb_spec (p ++ "/") "") as [E0|_].
    + destruct p; discriminate.
    + apply TrimSuffix_app.
  - intros Hs Hne. unfold base.
    destruct (String.eqb_spec (cfgBaseURL cfg) ""); [contradiction|].
    unfold TrimSuffix. rewrite Hs. reflexivity.
  - intros E. unfold agent. rewrite E. reflexivity.
  - intros Hne. unfold agent.
    destruct (String.eqb_spec (cfgUserAgent cfg) ""); [contradiction|].
    reflexivity.
Qed.

(** The client [New] returns holds the configured key, the organisation
    that [/api/v1/me] answered, and as its ping base the answered one
    with one trailing slash cut, or the default
    [https://ping.pakyas.com] when the answer has none. *)
Theorem New_client `{Library} `{MeLibrary} (w : World) (cfg : ClientConfig)
    (tr tr' : Trace) (c : Client) :
  New w cfg tr = (Ok c, tr') ->
  apiKey c = cfgAPIKey cfg /\
  exists code respBody me,
    answered w tr'
      (newRequest
         {| baseURL := baseURL c; apiKey := apiKey c;
            userAgent := userAgent c; orgID := ""; pingURLBase := "" |}
         MethodGet "/api/v1/me" None) code respBody /\
    code < 400 /\
    decoded (Some MeResponse.zero) UnmarshalMe respBody (Some me) /\
    orgID c = MeResponse.OrganizationID me /\
    (MeResponse.PingURLBase me = ""%string ->
     pingURLBase c = "https://ping.pakyas.com"%string) /\
    (forall p, MeResponse.PingURLBase me = (p ++ "/")%string ->
               pingURLBase c = p) /\
    (HasSuffix (MeResponse.PingURLBase me) "/" = false ->
     MeResponse.PingURLBase me <> ""%string ->
     pingURLBase c = MeResponse.PingURLBase me).
Proof.
  unfold New, fetchOrgContext, bind, ret.
  destruct (doRequest _ _ _ _ _ _ _ tr) as [[v|e] tr1] eqn:Hrun;
    [|discriminate].
  intros E. injection E as <- <-. cbn [apiKey baseURL userAgent orgID
                                      pingURLBase].
  split; [reflexivity|].
  apply doRequest_ok in Hrun.
  destruct Hrun as (code & respBody & Hans & Hcode & Hdec).
  exists code, respBody, (deref MeResponse.zero v).
  split; [exact Hans|]. split; [exact Hcode|].
  split; [now apply decoded_some|]. split; [reflexivity|].
  repeat split.
  - intros E. rewrite E. reflexivity.
  - intros p E. rewrite E.
    destruct (String.eqb_spec (p ++ "/") "") as [E0|_].
    + destruct p; discriminate.
    + apply TrimSuffix_app.
  - intros Hs Hne.
    destruct (String.eqb_spec (MeResponse.PingURLBase (deref MeResponse.zero v))
                ""); [contradiction|].
    unfold TrimSuffix. rewrite Hs. reflexivity.
Qed.

Lemma New_client_witness :
  let w := Example.always (Response 200 "org-7") in
  let run := New (H:=Example.lib) (H0:=MoreExamples.me) w
               MoreExamples.config [] in
  exists c,
    fst run = Ok c /\
    apiKey c = "pk_test"%string /\
    baseURL c = "https://api.pakyas.com"%string /\
    orgID c = "org-7"%string /\
    pingURLBase c = "https://ping.pakyas.com"%string.
Proof.
  intros w run.
  pose (c := {| baseURL := "https://api.pakyas.com";
                apiKey := "pk_test";
                userAgent := "terraform-provider-pakyas";
                orgID := "org-7";
                pingURLBase := "https://ping.pakyas.com" |}%string).
  destruct (New_client (H:=Example.lib) (H0:=MoreExamples.me) w
              MoreExamples.config [] (snd run) c eq_refl)
    as [Hkey _].
  exists c. repeat split.
Defined.

(** A construction fails exactly when its request to [/api/v1/me]
    fails, and its error is then the error of that request, wrapped once:
    its text names the cause, and the classifiers still see the status
    of the cause.  So an [/api/v1/me] that is answered with a status of
    400 or more that is not retried makes the construction fail after
    that one request, with the error of that answer wrapped. *)
Theorem New_failure `{Library} `{MeLibrary} (w : World) (cfg : ClientConfig)
    (tr tr' : Trace) (err : error) :
  let c := {| baseURL :=
                TrimSuffix (if String.eqb (cfgBaseURL cfg) ""
                            then DefaultBaseURL else cfgBaseURL cfg) "/";
              apiKey := cfgAPIKey cfg;
              userAgent :=
                if String.eqb (cfgUserAgent cfg) ""
                then "terraform-provider-pakyas"%string
                else cfgUserAgent cfg;
              orgID := "";
              pingURLBase := "" |} in
  let me := newRequest c MethodGet "/api/v1/me" None in
  (New w cfg tr = (Err err, tr') ->
   exists cause,
     doRequest w c MethodGet "/api/v1/me" None
       (Some MeResponse.zero) UnmarshalMe tr = (Err cause, tr') /\
     err = Errorf "failed to fetch organization context: " (Some cause) /\
     Error err
     = ("failed to fetch organization context: " ++ Error cause)%string /\
     IsUnauthorized err = IsUnauthorized cause /\
     IsForbidden err = IsForbidden cause /\
     IsRetryable err = IsRetryable cause) /\
  (forall cause,
      doRequest w c MethodGet "/api/v1/me" None
        (Some MeResponse.zero) UnmarshalMe tr = (Err cause, tr') ->
      New w cfg tr
      = (Err (Errorf "failed to fetch organization context: " (Some cause)),
         tr')) /\
  (forall code respBody,
      NewRequestErr w MethodGet (url me) = None ->
      roundTrip w (List.length (roundTrips tr)) me
      = Response code respBody ->
      400 <= code ->
      IsRetryable (apiError code respBody) = false ->
      New w cfg tr
      = (Err (Errorf "failed to fetch organization context: "
                (Some (apiError code respBody))),
         tr ++ [EvRoundTrip me])).
Proof.
  intros c me.
  assert (Hwrap : forall cause tr1,
             doRequest w c MethodGet "/api/v1/me" None
               (Some MeResponse.zero) UnmarshalMe tr = (Err cause, tr1) ->
             New w cfg tr
             = (Err (Errorf "failed to fetch organization context: "
                       (Some cause)), tr1)).
  { intros cause tr1 Hrun. unfold New, fetchOrgContext, bind.
    fold c. rewrite Hrun. reflexivity. }
  split; [|split].
  - unfold New, fetchOrgContext, bind, ret. fold c.
    destruct (doRequest w c MethodGet "/api/v1/me" None
                (Some MeResponse.zero) UnmarshalMe tr)
      as [[v|cause] tr1]; [discriminate|].
    intros E. injection E as <- <-. exists cause. repeat split.
  - intros cause. apply Hwrap.
  - intros code respBody Hnew Hans Hcode Hretry.
    apply Hwrap. now apply doRequest_first_refused.
Qed.

Lemma New_failure_witness :
  let w := Example.always (Response 401 "") in
  let run := New (H:=Example.lib) (H0:=MoreExamples.me) w
               MoreExamples.config [] in
  exists err,
    run = (Err err,
           [EvRoundTrip
              {| method := "GET";
                 url := "https://api.pakyas.com/api/v1/me";
                 header := [("Authorization", "Bearer pk_test");
                            ("Content-Type", "application/json");
                            ("Accept", "application/json");
                            ("User-Agent", "terraform-provider-pakyas")];
                 reqBody := None |}]%string) /\
    err = Errorf "failed to fetch organization context: "
            (Some (APIError 401 "" "")) /\
    IsUnauthorized err = true /\
    Error err
    = "failed to fetch organization context: pakyas API error (status 401): "%string.
Proof.
  intros w run.
  pose (err := Errorf "failed to fetch organization context: "
                 (Some (APIError 401 "" ""))).
  destruct (New_failure (H:=Example.lib) (H0:=MoreExamples.me) w
              MoreExamples.config [] (snd run) err)
    as (Hcause & _ & Hanswer).
  destruct (Hcause eq_refl) as (cause & _ & _ & _).
  pose proof (Hanswer 401 ""%string eq_refl eq_refl ltac:(lia) eq_refl)
    as Hrun.
  exists err. split; [exact Hrun|]. repeat split.
Defined.

(** When the POST of a Create is answered below 400 with an empty
    body, the accessor does not fail there: it keeps the zero value, whose
    identifier is empty, and goes on exactly as a read of the empty
    identifier after that POST.  So it then sends GET requests to the
    collection path with a trailing slash and nothing else, and when the
    first of them is answered below 400 with a body that decodes, the
    Create returns the decoded answer (for a check, with its tags
    normalised). *)
Theorem create_empty_answer `{Library} (w : World) (c : Client) (tr : Trace)
    (code : Z) :
  code < 400 ->
  (forall name description,
      let post := newRequest c MethodPost "/api/v1/projects"
                    (Some (projectPayload c name description)) in
      let get := newRequest c MethodGet "/api/v1/projects/" None in
      NewRequestErr w MethodPost (url post) = None ->
      roundTrip w (List.length (roundTrips tr)) post = Response code "" ->
      CreateProject w c name description tr
      = GetProject w c "" (tr ++ [EvRoundTrip post]) /\
      (exists evs,
          snd (CreateProject w c name description tr)
          = tr ++ [EvRoundTrip post] ++ evs /\
          onlyRequest get evs) /\
      (forall code' respBody p,
          NewRequestErr w MethodGet (url get) = None ->
          roundTrip w (S (List.length (roundTrips tr))) get
          = Response code' respBody ->
          code' < 400 ->
          decoded (Some Project.zero) UnmarshalProject respBody (Some p) ->
          CreateProject w c name description tr
          = (Ok p, tr ++ [EvRoundTrip post; EvRoundTrip get]))) /\
  (forall req,
      let post := newRequest c MethodPost "/api/v1/checks"
                    (Some (checkPayload req)) in
      let get := newRequest c MethodGet "/api/v1/checks/" None in
      NewRequestErr w MethodPost (url post) = None ->
      roundTrip w (List.length (roundTrips tr)) post = Response code "" ->
      CreateCheck w c req tr
      = GetCheck w c "" (tr ++ [EvRoundTrip post]) /\
      (exists evs,
          snd (CreateCheck w c req tr) = tr ++ [EvRoundTrip post] ++ evs /\
          onlyRequest get evs) /\
      (forall code' respBody ch,
          NewRequestErr w MethodGet (url get) = None ->
          roundTrip w (S (List.length (roundTrips tr))) get
          = Response code' respBody ->
          code' < 400 ->
          decoded (Some Check.zero) UnmarshalCheck respBody (Some ch) ->
          CreateCheck w c req tr
          = (Ok (Check.withTags ch (normalizeTags (Check.Tags ch))),
             tr ++ [EvRoundTrip post; EvRoundTrip get]))).
Proof.
  intros Hcode.
  assert (Hlen : forall rq,
             List.length (roundTrips (tr ++ [EvRoundTrip rq]))
             = S (List.length (roundTrips tr))).
  { intros rq. rewrite roundTrips_app, length_app. simpl. lia. }
  split.
  - intros name description post get Hnew Hans.
    assert (Hrun : CreateProject w c name description tr
                   = GetProject w c "" (tr ++ [EvRoundTrip post])).
    { unfold CreateProject. fold (projectPayload c name description).
      rewrite (doRequest_first_ok w c MethodPost "/api/v1/projects"
                 (Some (projectPayload c name description))
                 (Some Project.zero) UnmarshalProject tr code ""
                 (Some Project.zero) Hnew Hans Hcode eq_refl).
      reflexivity. }
    split; [exact Hrun|]. split.
    + rewrite Hrun.
      destruct (GetProject w c "" (tr ++ [EvRoundTrip post]))
        as [r tr'] eqn:Hget.
      apply GetProject_trace in Hget. destruct Hget as (evs & -> & Hreq).
      exists evs. rewrite <- app_assoc. split; [reflexivity | exact Hreq].
    + intros code' respBody p Hnew' Hans' Hcode' Hdec.
      rewrite Hrun. unfold GetProject, bind, ret.
      rewrite <- (Hlen post) in Hans'.
      rewrite (doRequest_first_ok w c MethodGet "/api/v1/projects/" None
                 (Some Project.zero) UnmarshalProject _ code' respBody
                 (Some p) Hnew' Hans' Hcode' Hdec).
      rewrite <- app_assoc. reflexivity.
  - intros req post get Hnew Hans.
    assert (Hrun : CreateCheck w c req tr
                   = GetCheck w c "" (tr ++ [EvRoundTrip post])).
    { unfold CreateCheck. fold (checkPayload req).
      rewrite (doRequest_first_ok w c MethodPost "/api/v1/checks"
                 (Some (checkPayload req))
                 (Some Check.zero) UnmarshalCheck tr code ""
                 (Some Check.zero) Hnew Hans Hcode eq_refl).
      reflexivity. }
    split; [exact Hrun|]. split.
    + rewrite Hrun.
      destruct (GetCheck w c "" (tr ++ [EvRoundTrip post]))
        as [r tr'] eqn:Hget.
      apply GetCheck_trace in Hget. destruct Hget as (evs & -> & Hreq).
      exists evs. rewrite <- app_assoc. split; [reflexivity | exact Hreq].
    + intros code' respBody ch Hnew' Hans' Hcode' Hdec.
      rewrite Hrun. unfold GetCheck, bind, ret.
      rewrite <- (Hlen post) in Hans'.
      rewrite (doRequest_first_ok w c MethodGet "/api/v1/checks/" None
                 (Some Check.zero) UnmarshalCheck _ code' respBody
                 (Some ch) Hnew' Hans' Hcode' Hdec).
      rewrite <- app_assoc. reflexivity.
Qed.

Lemma create_empty_answer_witness :
  let w := Example.always (Response 204 "") in
  let run := CreateProject (H:=Example.lib) w Example.client
               "Production" None [] in
  fst run = Ok Project.zero /\
  sent (snd run)
  = [("POST"%string, "https://api.pakyas.com/api/v1/projects"%string,
      Some [("org_id"%string, JString "org-1");
            ("name"%string, JString "Production")]);
     ("GET"%string, "https://api.pakyas.com/api/v1/projects/"%string, None)].
Proof.
  intros w run.
  destruct (create_empty_answer (H:=Example.lib) w Example.client [] 204
              ltac:(lia)) as [Hp _].
  destruct (Hp "Production"%string None eq_refl eq_refl)
    as (_ & _ & Hget).
  pose proof (Hget 204 ""%string Project.zero eq_refl eq_refl ltac:(lia)
                eq_refl) as Hrun.
  unfold run. rewrite Hrun. split; reflexivity.
Defined.

(** ** The provider *)

(** [Configure] either hands out a client, with no diagnostic, or
    reports, with no client.  The key is the one of the configuration
    whenever that is not null, even if it is empty, and the one of the
    environment otherwise; with an empty key nothing is sent.  A client
    that is handed out holds that key, which is not empty, and the user
    agent [terraform-provider-pakyas/<version>]. *)
Theorem Configure_outcome `{Library} `{MeLibrary} (w : World)
    (version : string) (Getenv : string -> string)
    (config : PakyasProvider.Model) (tr : Trace) :
  let key := if IsNull (PakyasProvider.APIKey config)
             then Getenv "PAKYAS_API_KEY"%string
             else ValueString (PakyasProvider.APIKey config) in
  let run := PakyasProvider.Configure w version Getenv config tr in
  match fst run with
  | (diags, Some c) =>
      diags = [] /\ key <> ""%string /\ apiKey c = key /\
      userAgent c = ("terraform-provider-pakyas/" ++ version)%string
  | (diags, None) =>
      diags <> [] /\
      (key = ""%string ->
       snd run = tr /\
       exists detail,
         diags = [PakyasProvider.AttributeError "api_key"
                    "Missing Pakyas API Key" detail])
  end.
Proof.
  intros key run. unfold run, PakyasProvider.Configure.
  replace (if negb (IsNull (PakyasProvider.APIKey config))
           then ValueString (PakyasProvider.APIKey config)
           else Getenv "PAKYAS_API_KEY"%string) with key
    by (unfold key; destruct (IsNull (PakyasProvider.APIKey config));
        reflexivity).
  destruct (String.eqb_spec key "") as [E|Hne].
  - cbn [fst snd]. split; [discriminate|]. intros _. split; [reflexivity|].
    eexists. reflexivity.
  - match goal with
    | |- context [New w ?cfg tr] =>
        destruct (New w cfg tr) as [[c|e] tr1] eqn:Hnew
    end; cbn [fst snd].
    + split; [reflexivity|]. split; [exact Hne|].
      revert Hnew. unfold New, fetchOrgContext, bind, ret.
      cbn [cfgAPIKey cfgBaseURL cfgUserAgent].
      destruct (doRequest _ _ _ _ _ _ _ tr) as [[v|e] tr2]; [|discriminate].
      intros E. injection E as <- <-. split; reflexivity.
    + split; [discriminate|]. intros E. contradiction.
Qed.

Lemma check_update_only_changed_witness :
  let state := Example.check Null (Known [Known "backup"%string]) in
  let data := Example.check (Known "nightly"%string)
                (Known [Known "backup"%string]) in
  let req := {| UpdateCheckRequest.Name := None;
                UpdateCheckRequest.PeriodSeconds := None;
                UpdateCheckRequest.GraceSeconds := None;
                UpdateCheckRequest.Description := Some "nightly"%string;
                UpdateCheckRequest.Tags := None;
                UpdateCheckRequest.Paused := None |} in
  (field "name" (checkUpdatePayload req) <> None <->
   StringEqual (CheckResource.Name data) (CheckResource.Name state) = false) /\
  (field "description" (checkUpdatePayload req) <> None ->
   StringEqual (CheckResource.Description data)
     (CheckResource.Description state) = false).
Proof.
  intros state data req.
  destruct (check_update_only_changed (H:=Example.lib) data state req eq_refl)
    as (Hn & _ & _ & _ & Hd & _).
  split; [exact Hn | exact Hd].
Defined.
